(** * bugzer_browser: the gateway, the agent registry, the provider factory
      and the browser-automation agents, embedded from the Python sources.

    Layout, following the repository:
    - [Py]        the fragment of Python's data and exception model the code uses;
    - [Registry]  api/plugins/__init__.py   (get_web_agent);
    - [Providers] api/providers.py          (create_llm, BetaChatAnthropic);
    - [Gateway]   api/index.py              (create_session, resume_session, handle_chat);
    - [Agent]     api/plugins/browser_use/agent.py
                  (yield_data, yield_done, browser_use_agent, force_display_report,
                   browser_use_agent_batch).

    Conventions.  A Python [int] is a [Z]; a [float] is the rational it denotes
    ([Q]); a [str] is a [string] holding its UTF-8 bytes, so that the substring
    test [x in s] is a byte-wise search; a [dict] with string keys is an
    association list in insertion order, or a [gmap] where only lookups
    matter.  Code that can raise returns a [Res]; code that mutates module
    state threads that state explicitly. *)

From Stdlib Require Import String Ascii List ZArith QArith Lqa Lia Bool.
From stdpp Require Import base gmap strings list pretty.
Import ListNotations.
Open Scope string_scope.
Open Scope list_scope.
Set Warnings "-register-all".

(* ===================================================================== *)
(** * Python data and exceptions *)
(* ===================================================================== *)
Module Py.

(** Values that travel through the code as [Any]. [PSecret] is a
    pydantic [SecretStr]; [PObj] is an instance of any other class. *)
Inductive PyVal : Type :=
| PNone
| PBool (b : bool)
| PInt (z : Z)
| PFloat (q : Q)
| PStr (s : string)
| PSecret (s : string)
| PList (l : list PyVal)
| PDict (d : list (string * PyVal))
| PObj (type_name : string).

(** Exceptions, by class.  [ExternalError] is one raised by a library or a
    remote service: it carries its class name, its message and its [code]
    attribute when it has one. *)
Inductive PyExc : Type :=
| NameError (name : string)
| ValueError (msg : string)
| TypeError (msg : string)
| KeyError (key : string)
| IndexError (msg : string)
| TimeoutError
| ExternalError (type_name msg : string) (code : option Z).

Inductive Res (A : Type) : Type :=
| Ok (a : A)
| Raise (e : PyExc).
Arguments Ok {A} a.
Arguments Raise {A} e.

Definition bind {A B} (r : Res A) (k : A -> Res B) : Res B :=
  match r with
  | Ok a => k a
  | Raise e => Raise e
  end.

(** [type(e).__name__] *)
Definition exc_type_name (e : PyExc) : string :=
  match e with
  | NameError _ => "NameError"
  | ValueError _ => "ValueError"
  | TypeError _ => "TypeError"
  | KeyError _ => "KeyError"
  | IndexError _ => "IndexError"
  | TimeoutError => "TimeoutError"
  | ExternalError n _ _ => n
  end.

(** [str(e)] *)
Definition exc_str (e : PyExc) : string :=
  match e with
  | NameError n => "name '" +:+ n +:+ "' is not defined"
  | ValueError m => m
  | TypeError m => m
  | KeyError k => "'" +:+ k +:+ "'"
  | IndexError m => m
  | TimeoutError => EmptyString
  | ExternalError _ m _ => m
  end.

(** [getattr(e, "code", dflt)] *)
Definition exc_code (e : PyExc) (dflt : Z) : Z :=
  match e with
  | ExternalError _ _ (Some c) => c
  | _ => dflt
  end.

(** What an endpoint hands back to the web framework: a response, or an
    [HTTPException] with its status code and detail.  The detail is a text
    or the error envelope [{"error": {"message", "type", "code"}}]. *)
Inductive Detail :=
| DetailText (s : string)
| DetailError (message type : string) (code : Z).

Inductive Endpoint (A : Type) : Type :=
| Respond (a : A)
| HTTPException (status_code : Z) (detail : Detail).
Arguments Respond {A} a.
Arguments HTTPException {A} status_code detail.

(** [x in s] on strings: [needle] occurs in [hay]. *)
Fixpoint starts_with (needle hay : string) : bool :=
  match needle, hay with
  | EmptyString, _ => true
  | String _ _, EmptyString => false
  | String a n', String b h' => Ascii.eqb a b && starts_with n' h'
  end.

Fixpoint str_in (needle hay : string) : bool :=
  starts_with needle hay ||
  match hay with
  | EmptyString => false
  | String _ h' => str_in needle h'
  end.

(** Truth value of a string: non-empty. *)
Definition str_truthy (s : string) : bool :=
  match s with EmptyString => false | String _ _ => true end.

(** Truth value of an [Optional[str]]. *)
Definition ostr_truthy (o : option string) : bool :=
  match o with Some s => str_truthy s | None => false end.

(** [d.get(k)] / [k in d] on an insertion-ordered dict. *)
Fixpoint dict_get {V} (k : string) (d : list (string * V)) : option V :=
  match d with
  | [] => None
  | (k', v) :: d' => if String.eqb k k' then Some v else dict_get k d'
  end.

Definition dict_has {V} (k : string) (d : list (string * V)) : bool :=
  match dict_get k d with Some _ => true | None => false end.

(** [d[k] = v]: overwrite in place, or append a new key at the end. *)
Fixpoint dict_set {V} (k : string) (v : V) (d : list (string * V))
  : list (string * V) :=
  match d with
  | [] => [(k, v)]
  | (k', v') :: d' =>
      if String.eqb k k' then (k, v) :: d' else (k', v') :: dict_set k v d'
  end.

(** The double quote character. *)
Definition dq : string := String (Ascii.ascii_of_nat 34) EmptyString.

(** Truth value of a value. *)
Definition py_truthy (v : PyVal) : bool :=
  match v with
  | PNone => false
  | PBool b => b
  | PInt z => negb (z =? 0)%Z
  | PFloat q => negb (Qeq_bool q 0)
  | PStr s => str_truthy s
  | PSecret s => str_truthy s
  | PList l => match l with [] => false | _ :: _ => true end
  | PDict d => match d with [] => false | _ :: _ => true end
  | PObj _ => true
  end.

(** [str(v)]; [repr] stands for Python's rendering of floats, containers
    and objects. *)
Definition py_str (repr : PyVal -> string) (v : PyVal) : string :=
  match v with
  | PNone => "None"
  | PBool true => "True"
  | PBool false => "False"
  | PInt z => pretty z
  | PStr s => s
  | _ => repr v
  end.

(** [str(type(v))] *)
Definition type_str (v : PyVal) : string :=
  match v with
  | PNone => "<class 'NoneType'>"
  | PBool _ => "<class 'bool'>"
  | PInt _ => "<class 'int'>"
  | PFloat _ => "<class 'float'>"
  | PStr _ => "<class 'str'>"
  | PSecret _ => "<class 'pydantic.types.SecretStr'>"
  | PList _ => "<class 'list'>"
  | PDict _ => "<class 'dict'>"
  | PObj n => "<class '" +:+ n +:+ "'>"
  end.

(** The name lookup of a module-level function: the name is searched among
    the names the module binds (imports, assignments, [def]s), then among
    the builtins; none of the names looked up in this development is a
    builtin. *)
Definition load_global {O} (globals : list (string * O)) (name : string) : Res O :=
  match dict_get name globals with
  | Some o => Ok o
  | None => Raise (NameError name)
  end.

End Py.
Import Py.

#[global] Instance Res_ret : MRet Res := @Ok.
#[global] Instance Res_bind : MBind Res := fun A B k r => Py.bind r k.

(* ===================================================================== *)
(** * api/plugins/__init__.py *)
(* ===================================================================== *)
Module Registry.

Inductive WebAgentType := BASE | EXAMPLE | BROWSER_USE | BROWSER_USE_BATCH.

(** [WebAgentType.X.value] *)
Definition value (t : WebAgentType) : string :=
  match t with
  | BASE => "base"
  | EXAMPLE => "example"
  | BROWSER_USE => "browser_use_agent"
  | BROWSER_USE_BATCH => "browser_use_batch"
  end.

(** [str(WebAgentType.X)] *)
Definition member_str (t : WebAgentType) : string :=
  match t with
  | BASE => "WebAgentType.BASE"
  | EXAMPLE => "WebAgentType.EXAMPLE"
  | BROWSER_USE => "WebAgentType.BROWSER_USE"
  | BROWSER_USE_BATCH => "WebAgentType.BROWSER_USE_BATCH"
  end.

(** What a caller can pass as [name]: a member of the enumeration, or any
    other value, given by its [str]. *)
Inductive AgentArg :=
| Member (t : WebAgentType)
| NonMember (str : string).

Definition arg_str (a : AgentArg) : string :=
  match a with Member t => member_str t | NonMember s => s end.

(** [name == WebAgentType.X] *)
Definition arg_is (a : AgentArg) (t : WebAgentType) : bool :=
  match a, t with
  | Member BASE, BASE | Member EXAMPLE, EXAMPLE
  | Member BROWSER_USE, BROWSER_USE
  | Member BROWSER_USE_BATCH, BROWSER_USE_BATCH => true
  | _, _ => false
  end.

(** The agent entry points of the repository. *)
Inductive EntryPoint := base_agent | browser_use_agent | browser_use_agent_batch.

Inductive ModuleObject :=
| Callable (f : EntryPoint)
| OtherObject.

(** The names api/plugins/__init__.py binds at module level, in source
    order: lines 1-15 (imports), 20-34 (classes), 45 (AGENT_CONFIGS),
    161 (get_web_agent), 176 (__all__).  The relative imports of lines
    13-14 also bind the submodules [base] and [browser_use] in the package;
    line 14 imports the function [browser_use_agent] only. *)
Definition module_globals : list (string * ModuleObject) :=
  [ ("Enum", OtherObject); ("auto", OtherObject);
    ("Callable", OtherObject); ("List", OtherObject); ("Mapping", OtherObject);
    ("Any", OtherObject); ("AsyncIterator", OtherObject);
    ("TypedDict", OtherObject); ("Union", OtherObject); ("Optional", OtherObject);
    ("ModelConfig", OtherObject); ("ModelProvider", OtherObject);
    ("base", OtherObject); ("base_agent", Callable base_agent);
    ("browser_use", OtherObject);
    ("browser_use_agent", Callable browser_use_agent);
    ("AgentSettings", OtherObject);
    ("WebAgentType", OtherObject); ("SettingType", OtherObject);
    ("SettingConfig", OtherObject); ("AGENT_CONFIGS", OtherObject);
    ("get_web_agent", OtherObject); ("__all__", OtherObject) ].

Definition get_web_agent (name : AgentArg) : Res ModuleObject :=
  if arg_is name BASE then load_global module_globals "base_agent"
  else if arg_is name BROWSER_USE then load_global module_globals "browser_use_agent"
  else if arg_is name BROWSER_USE_BATCH then
    load_global module_globals "browser_use_agent_batch"
  else Raise (ValueError ("Invalid agent type: " +:+ arg_str name)).

End Registry.

(* ===================================================================== *)
(** * api/providers.py *)
(* ===================================================================== *)
Module Providers.

(** Modelled from the spec: api/models.py is not under src/.  The provider
    enumeration has the five members the spec lists. *)
Inductive ModelProvider := OPENAI | AZURE_OPENAI | ANTHROPIC | GEMINI | DEEPSEEK.

Definition member_str (p : ModelProvider) : string :=
  match p with
  | OPENAI => "ModelProvider.OPENAI"
  | AZURE_OPENAI => "ModelProvider.AZURE_OPENAI"
  | ANTHROPIC => "ModelProvider.ANTHROPIC"
  | GEMINI => "ModelProvider.GEMINI"
  | DEEPSEEK => "ModelProvider.DEEPSEEK"
  end.

(** The value found in [config.provider]: a member, or a value that compares
    unequal to every member, given by its [str]. *)
Inductive ProviderArg :=
| Member (p : ModelProvider)
| NonMember (str : string).

Definition arg_str (a : ProviderArg) : string :=
  match a with Member p => member_str p | NonMember s => s end.

(** Modelled from the spec: api/models.py is not under src/.  ModelConfig
    has a provider, an optional model name and API key, optional numeric
    sampling parameters and an open key/value map [extra_params]. *)
Record ModelConfig := {
  provider : ProviderArg;
  model_name : option string;
  api_key : option string;
  temperature : PyVal;
  max_tokens : PyVal;
  top_p : PyVal;
  top_k : PyVal;
  frequency_penalty : PyVal;
  presence_penalty : PyVal;
  extra_params : list (string * PyVal)
}.

Inductive ClientClass :=
| AzureChatOpenAI | ChatOpenAI | ChatAnthropic | BetaChatAnthropic
| ChatGoogleGenerativeAI.

Definition class_name (c : ClientClass) : string :=
  match c with
  | AzureChatOpenAI => "AzureChatOpenAI"
  | ChatOpenAI => "ChatOpenAI"
  | ChatAnthropic => "ChatAnthropic"
  | BetaChatAnthropic => "BetaChatAnthropic"
  | ChatGoogleGenerativeAI => "ChatGoogleGenerativeAI"
  end.

(** A chat-model client: its class and the keyword arguments it was
    constructed with, in call order. *)
Record LLM := { cls : ClientClass; kwargs : list (string * PyVal) }.

(** [C(k1=v1, ..., **extra)]: a key of [extra] that repeats an explicit
    keyword makes the call itself raise TypeError, before [C] runs.
    The constructors are library code; they are taken to accept the
    arguments and record them. *)
Fixpoint repeated_keyword (explicit extra : list (string * PyVal)) : option string :=
  match extra with
  | [] => None
  | (k, _) :: extra' =>
      if dict_has k explicit then Some k else repeated_keyword explicit extra'
  end.

Definition construct (c : ClientClass) (explicit extra : list (string * PyVal))
  : Res LLM :=
  match repeated_keyword explicit extra with
  | Some k =>
      Raise (TypeError (class_name c +:+ "() got multiple values for keyword argument '"
                        +:+ k +:+ "'"))
  | None => Ok {| cls := c; kwargs := explicit ++ extra |}
  end.

Definition ostr (o : option string) : PyVal :=
  match o with Some s => PStr s | None => PNone end.

(** [a or b] on an optional string and a string. *)
Definition or_else (o : option string) (dflt : string) : string :=
  match o with
  | Some s => if str_truthy s then s else dflt
  | None => dflt
  end.

Section create_llm.
(** [os.environ] *)
Variable environ : gmap string string.

Definition getenv (k : string) : option string := environ !! k.
Definition getenv_default (k dflt : string) : string := default dflt (environ !! k).

(** [os.getenv(var) if not config.api_key else config.api_key] *)
Definition key_or_env (config : ModelConfig) (var : string) : PyVal :=
  if negb (ostr_truthy (api_key config)) then ostr (getenv var)
  else ostr (api_key config).

Definition create_llm (config : ModelConfig) : Res (LLM * bool) :=
  match provider config with
  | Member AZURE_OPENAI =>
      llm ← construct AzureChatOpenAI
        [ ("azure_deployment", PStr (or_else (model_name config) "gpt-4o-mini"));
          ("temperature", temperature config);
          ("max_tokens", max_tokens config);
          ("openai_api_key", key_or_env config "AZURE_OPENAI_API_KEY");
          ("openai_api_version",
             PStr (getenv_default "OPENAI_API_VERSION" "2025-01-01-preview"));
          ("azure_endpoint", PStr (getenv_default "AZURE_OPENAI_ENDPOINT" EmptyString)) ]
        (extra_params config);
      mret (llm, true)
  | Member OPENAI =>
      llm ← construct ChatOpenAI
        [ ("model_name", PStr (or_else (model_name config) "gpt-4o-mini"));
          ("temperature", temperature config);
          ("max_tokens", max_tokens config);
          ("api_key", key_or_env config "OPENAI_API_KEY") ]
        (extra_params config);
      mret (llm, true)
  | Member ANTHROPIC =>
      llm ← construct ChatAnthropic
        [ ("model", PStr (or_else (model_name config) "claude-3-7-sonnet-latest"));
          ("max_tokens_to_sample", max_tokens config);
          ("temperature", temperature config);
          ("api_key", key_or_env config "ANTHROPIC_API_KEY") ]
        (extra_params config);
      mret (llm, true)
  | Member GEMINI =>
      llm ← construct ChatGoogleGenerativeAI
        [ ("model", PStr (or_else (model_name config) "gemini-2.0-flash"));
          ("temperature", temperature config);
          ("max_output_tokens", max_tokens config);
          ("google_api_key", key_or_env config "GOOGLE_API_KEY") ]
        (extra_params config);
      mret (llm, true)
  | Member DEEPSEEK =>
      let api_key :=
        or_else (api_key config) (getenv_default "DEEPSEEK_API_KEY" EmptyString) in
      llm ← construct ChatOpenAI
        [ ("base_url", PStr "https://api.deepseek.com/v1");
          ("model_name", PStr (or_else (model_name config) "deepseek-chat"));
          ("temperature", temperature config);
          ("max_tokens", max_tokens config);
          ("api_key", PSecret api_key) ]
        (extra_params config);
      mret (llm, false)
  | NonMember _ =>
      Raise (ValueError ("Unsupported provider: " +:+ arg_str (provider config)))
  end.
End create_llm.

(** The keywords [create_llm] passes explicitly for each provider. *)
Definition explicit_keywords (p : ModelProvider) : list string :=
  match p with
  | AZURE_OPENAI => [ "azure_deployment"; "temperature"; "max_tokens";
                      "openai_api_key"; "openai_api_version"; "azure_endpoint" ]
  | OPENAI => [ "model_name"; "temperature"; "max_tokens"; "api_key" ]
  | ANTHROPIC => [ "model"; "max_tokens_to_sample"; "temperature"; "api_key" ]
  | GEMINI => [ "model"; "temperature"; "max_output_tokens"; "google_api_key" ]
  | DEEPSEEK => [ "base_url"; "model_name"; "temperature"; "max_tokens"; "api_key" ]
  end.

(** No key of [extra_params] repeats a keyword passed explicitly. *)
Definition extra_params_fresh (config : ModelConfig) : bool :=
  match provider config with
  | Member p =>
      forallb (fun kv => negb (existsb (String.eqb (fst kv)) (explicit_keywords p)))
              (extra_params config)
  | NonMember _ => true
  end.

(** ** class BetaChatAnthropic(ChatAnthropic) *)

(** The two message resources of the provider's SDK client. *)
Inductive MessagesResource := StandardMessages | BetaMessages.

(** [anthropic.Client], as far as the code touches it: the attribute
    [messages] and the resource [beta.messages]. *)
Record Client := { messages : MessagesResource; beta_messages : MessagesResource }.

(** Library behaviour: the client [ChatAnthropic._client] builds. *)
Definition sdk_client : Client :=
  {| messages := StandardMessages; beta_messages := BetaMessages |}.

(** An instance with the slot of its [cached_property] [_client]. *)
Record Instance := { llm : LLM; cached_client : option Client }.

Definition new (l : LLM) : Instance := {| llm := l; cached_client := None |}.

(** The body of [_client], by method resolution on the class. *)
Definition _client_body (c : ClientClass) : Client :=
  match c with
  | BetaChatAnthropic =>
      let client := sdk_client in
      {| messages := beta_messages client; beta_messages := beta_messages client |}
  | _ => sdk_client
  end.

(** Reading [self._client]: the body runs on the first access only. *)
Definition _client (i : Instance) : Client * Instance :=
  match cached_client i with
  | Some c => (c, i)
  | None =>
      let c := _client_body (cls (llm i)) in
      (c, {| llm := llm i; cached_client := Some c |})
  end.

Inductive Tool :=
| ToolDict (d : list (string * PyVal))
| ToolObject (name : string).

Section bind_tools.
(** [langchain_anthropic.chat_models.convert_to_anthropic_tool] *)
Variable convert_to_anthropic_tool : Tool -> Tool.

(** [BetaChatAnthropic.bind_tools]: the tool list handed to [bind]. *)
Definition bind_tools (tools : list Tool) : list Tool :=
  map (fun tool =>
         match tool with
         | ToolDict d =>
             if dict_has "type" d then tool else convert_to_anthropic_tool tool
         | ToolObject _ => convert_to_anthropic_tool tool
         end) tools.
End bind_tools.

(** A tool already in the provider's native format. *)
Definition native_format (t : Tool) : bool :=
  match t with ToolDict d => dict_has "type" d | ToolObject _ => false end.

End Providers.

(* ===================================================================== *)
(** * The controller singleton (agent.py, lines 44-88) *)
(* ===================================================================== *)

(** [SessionAwareController]: one instance per process.  [agent] is a handle
    on the bound automation agent. *)
Record Controller := {
  session_id : option string;
  agent : option nat;
  finished : bool
}.

(** The instance built at import time (lines 53-58, 88). *)
Definition controller0 : Controller :=
  {| session_id := None; agent := None; finished := false |}.

(* ===================================================================== *)
(** * api/index.py *)
(* ===================================================================== *)
Module Gateway.
Import Registry.

(** ** Schemas (api/schemas.py) *)

Record SessionRequest := {
  sr_agent_type : WebAgentType;
  sr_api_key : option string;
  sr_timeout : option Z          (* Optional[int] = 90000 *)
}.

(** Validation of a request body by the schema: the field [timeout] is
    absent ([None]), [null] ([Some None]) or an integer. *)
Definition SessionRequest_of_body (agent_type : WebAgentType)
    (api_key : option string) (timeout : option (option Z)) : SessionRequest :=
  {| sr_agent_type := agent_type;
     sr_api_key := api_key;
     sr_timeout := match timeout with None => Some 90000%Z | Some v => v end |}.

(** Modelled from the spec: api/utils/prompt.py and api/utils/types.py are
    not under src/.  A client message has a role and a content;
    [convert_to_chat_messages] turns the list into role/content mappings,
    preserving order and dropping nothing; the settings objects carry
    optional fields, an absent attribute being [None]. *)
Record ClientMessage := { role : string; content : string }.

Definition convert_to_chat_messages (messages : list ClientMessage)
  : list (list (string * PyVal)) :=
  map (fun m => [("role", PStr (role m)); ("content", PStr (content m))]) messages.

Record AgentSettings := { steps : option Z }.

Record ModelSettings := {
  model_choice : option string;
  ms_temperature : option PyVal;
  ms_max_tokens : option PyVal;
  ms_top_p : option PyVal;
  ms_top_k : option PyVal;
  ms_frequency_penalty : option PyVal;
  ms_presence_penalty : option PyVal
}.

Record ChatRequest := {
  cr_session_id : string;
  cr_agent_type : WebAgentType;
  cr_provider : Providers.ModelProvider;   (* default ANTHROPIC *)
  cr_messages : list ClientMessage;
  cr_api_key : string;                     (* default empty *)
  cr_agent_settings : AgentSettings;
  cr_model_settings : ModelSettings
}.

(** ** create_session (lines 81-89) *)

(** Calls on the remote session service. *)
Inductive SteelCall :=
| sessions_create (api_timeout : Z)
| sessions_release (session_id : string).

(** The endpoint returns what the remote call returns; the model returns
    the call.  [None * 1000] raises TypeError. *)
Definition create_session (request : SessionRequest) : Res SteelCall :=
  match sr_timeout request with
  | Some timeout => Ok (sessions_create (timeout * 1000))
  | None => Raise (TypeError "unsupported operand type(s) for *: 'NoneType' and 'int'")
  end.

(** ** resume_session (lines 105-193) *)

Definition RESUME_COOLDOWN : Q := 1.

Definition Qltb (a b : Q) : bool := negb (Qle_bool b a).

(** Module state of the resume path: [session_locks] (a lock is present
    and held or free), [session_last_resume], and the number of calls of
    [resume_execution] made so far. *)
Record ResumeState := {
  session_locks : gmap string bool;
  session_last_resume : gmap string Q;
  resume_calls : nat
}.

Definition resume_state0 : ResumeState :=
  {| session_locks := ∅; session_last_resume := ∅; resume_calls := 0 |}.

Record ResumeResponse := {
  status : string;
  message : string;
  is_resumed : option bool;
  timestamp : option Q
}.

Definition already_in_progress (now : Q) : ResumeResponse :=
  {| status := "success"; message := "Resume already in progress";
     is_resumed := Some true; timestamp := Some now |}.

(** What one call of [resume_execution] does: it returns a dict with a
    status and a message, or raises. *)
Inductive Outcome :=
| Returned (status message : string)
| Raised (e : PyExc).

Section resume_session.
(** The underlying resume logic (agent.py, [resume_execution]): the
    outcome of its n-th call in the life of the process. *)
Variable resume_execution : nat -> Outcome.

(** Lines 114-123. *)
Definition in_cooldown (now : Q) (st : ResumeState) (session_id : string) : bool :=
  match session_last_resume st !! session_id with
  | Some last => Qltb (now - last) RESUME_COOLDOWN
  | None => false
  end.

(** Lines 154-180: [for attempt in range(max_attempts)] and what follows. *)
Fixpoint attempts (now : Q) (range : list nat) (last_error : option PyExc)
    (st : ResumeState) : Res ResumeResponse * ResumeState :=
  match range with
  | [] =>
      match last_error with
      | Some e => (Raise e, st)
      | None =>
          (Ok {| status := "error";
                 message := "Failed to resume session after multiple attempts";
                 is_resumed := Some false; timestamp := None |}, st)
      end
  | _ :: range' =>
      let st' := {| session_locks := session_locks st;
                    session_last_resume := session_last_resume st;
                    resume_calls := S (resume_calls st) |} in
      match resume_execution (resume_calls st) with
      | Returned s m =>
          if String.eqb s "success"
          then (Ok {| status := s; message := m;
                      is_resumed := Some true; timestamp := Some now |}, st')
          else attempts now range' last_error st'
      | Raised e => attempts now range' (Some e) st'
      end
  end.

Definition set_lock (session_id : string) (held : bool) (st : ResumeState)
  : ResumeState :=
  {| session_locks := <[session_id := held]> (session_locks st);
     session_last_resume := session_last_resume st;
     resume_calls := resume_calls st |}.

(** [now] is the reading of [time.time()]; [lock_released] tells, when
    the session's lock is held by another request, whether it is
    released within the 0.5 s of [wait_for]. *)
Definition resume_session (session_id : string) (now : Q) (lock_released : bool)
    (st : ResumeState) : Endpoint ResumeResponse * ResumeState :=
  if in_cooldown now st session_id then (Respond (already_in_progress now), st)
  else
    let st1 :=
      match session_locks st !! session_id with
      | None => set_lock session_id false st
      | Some _ => st
      end in
    let held := default false (session_locks st1 !! session_id) in
    if held && negb lock_released then
      (* asyncio.TimeoutError, lines 186-193 *)
      (Respond (already_in_progress now), st1)
    else
      let st2 :=
        {| session_locks := <[session_id := true]> (session_locks st1);
           session_last_resume := <[session_id := now]> (session_last_resume st1);
           resume_calls := resume_calls st1 |} in
      let '(r, st3) := attempts now (seq 0 2) None st2 in
      let st4 := set_lock session_id false st3 in
      match r with
      | Ok resp => (Respond resp, st4)
      | Raise e => (HTTPException 500 (DetailText (exc_str e)), st4)
      end.
End resume_session.

(** ** handle_chat (lines 209-314) *)

(** The names api/index.py binds at module level, in source order
    (lines 1-20 imports, then the assignments and the endpoints). *)
Definition module_globals : list string :=
  [ "load_dotenv"; "FastAPI"; "Response"; "HTTPException"; "status"; "Depends";
    "CORSMiddleware"; "StreamingResponse";
    "ChatRequest"; "SessionRequest"; "TestCreate"; "TestResponse";
    "ReportCreate"; "ReportResponse"; "BatchAgentRequest";
    "convert_to_chat_messages"; "ModelConfig";
    "WebAgentType"; "get_web_agent"; "AGENT_CONFIGS";
    "stream_vercel_format"; "ProfilingMiddleware"; "BaseModel";
    "List"; "Dict"; "Any"; "Optional"; "Union";
    "os"; "asyncio"; "subprocess"; "re"; "time"; "logging"; "datetime";
    "AgentSettings"; "logger"; "Steel"; "port"; "app";
    "STEEL_API_KEY"; "ANTHROPIC_API_KEY"; "STEEL_API_URL"; "steel_client";
    "session_locks"; "session_last_resume"; "RESUME_COOLDOWN";
    "batch_job_status"; "origins";
    "root_health_check"; "create_session"; "release_session";
    "resume_session"; "pause_session"; "handle_chat";
    "get_available_agents"; "healthcheck"; "create_test"; "create_report";
    "run_browser_agent_batch"; "check_batch_status" ].

Definition load_name (name : string) : Res unit :=
  load_global (map (fun n => (n, tt)) module_globals) name.

(** An agent run: the call [web_agent(model_config=..., ...)]. *)
Record AgentRun := {
  run_entry : EntryPoint;
  run_model_config : Providers.ModelConfig;
  run_agent_settings : AgentSettings;
  run_history : list (list (string * PyVal));
  run_session_id : string
}.

Inductive StreamSource :=
| empty_stream
| agent_stream (run : AgentRun).

Inductive Response :=
| StreamingResponse (vercel_format_of : StreamSource) (media_type : option string)
                    (headers : list (string * string))
| PlainResponse (status_code : Z) (content : string) (media_type : string).

(** What [handle_chat] reads and writes: the controller, and the agent
    runs created so far. *)
Record ChatState := {
  controller : Controller;
  runs : list AgentRun
}.

(** [StreamingResponse(stream_vercel_format(empty_stream()),
                       media_type="text/event-stream")]:
    the three names are looked up in the module, left to right. *)
Definition empty_stream_response : Res Response :=
  _ ← load_name "StreamingResponse";
  _ ← load_name "stream_vercel_format";
  _ ← load_name "empty_stream";
  mret (StreamingResponse empty_stream (Some "text/event-stream") []).

(** [not messages or (len(messages) > 0 and messages[-1].content == "")] *)
Definition empty_message (messages : list ClientMessage) : bool :=
  match messages with
  | [] => true
  | _ :: _ =>
      (0 <? length messages)%nat &&
      match last messages with
      | Some m => String.eqb (content m) EmptyString
      | None => false
      end
  end.

Definition or_none (o : option PyVal) : PyVal := default PNone o.

(** Lines 249-272. *)
Definition model_config_of (request : ChatRequest) : Providers.ModelConfig :=
  let ms := cr_model_settings request in
  {| Providers.provider := Providers.Member (cr_provider request);
     Providers.model_name := model_choice ms;
     Providers.api_key := Some (cr_api_key request);
     Providers.temperature := or_none (ms_temperature ms);
     Providers.max_tokens := or_none (ms_max_tokens ms);
     Providers.top_p := or_none (ms_top_p ms);
     Providers.top_k := or_none (ms_top_k ms);
     Providers.frequency_penalty := or_none (ms_frequency_penalty ms);
     Providers.presence_penalty := or_none (ms_presence_penalty ms);
     Providers.extra_params := [] |}.

(** The body of the [try] (lines 216-303). *)
Definition handle_chat_try (request : ChatRequest) (st : ChatState)
  : Res Response * ChatState :=
  let messages := cr_messages request in
  let chat_messages := convert_to_chat_messages messages in
  if empty_message messages then (empty_stream_response, st)
  else if negb (str_truthy (cr_session_id request)) then
    (Ok (PlainResponse 400 "Session ID is required" "text/plain"), st)
  else if bool_decide (session_id (controller st) = Some (cr_session_id request))
          && finished (controller st) then
    (empty_stream_response, st)
  else
    let st1 :=
      {| controller := {| session_id := Some (cr_session_id request);
                          agent := agent (controller st);
                          finished := false |};
         runs := runs st |} in
    let model_config := model_config_of request in
    match get_web_agent (Member (cr_agent_type request)) with
    | Raise e => (Raise e, st1)
    | Ok OtherObject => (Raise (TypeError "object is not callable"), st1)
    | Ok (Callable web_agent) =>
        let run := {| run_entry := web_agent;
                      run_model_config := model_config;
                      run_agent_settings := cr_agent_settings request;
                      run_history := chat_messages;
                      run_session_id := cr_session_id request |} in
        (Ok (StreamingResponse (agent_stream run) None
               [("x-vercel-ai-data-stream", "v1")]),
         {| controller := controller st1; runs := runs st1 ++ [run] |})
    end.

(** With the [except Exception] of lines 304-314. *)
Definition handle_chat (request : ChatRequest) (st : ChatState)
  : Endpoint Response * ChatState :=
  match handle_chat_try request st with
  | (Ok resp, st') => (Respond resp, st')
  | (Raise e, st') =>
      (HTTPException (exc_code e 500)
         (DetailError (exc_str e) (exc_type_name e) (exc_code e 500)), st')
  end.

End Gateway.

(* ===================================================================== *)
(** * api/plugins/browser_use/agent.py *)
(* ===================================================================== *)
Module Agent.

(** ** The texts the code builds, one definition per (f-)string literal *)
Module Text.

(** Texts of [show_performance_metrics]. *)
Definition no_performance_data : string :=
  "📊 Performance Metrics:

No performance data has been collected yet.

To collect detailed metrics, please try:
1. " +:+ dq +:+ "Generate performance report" +:+ dq +:+ "
2. " +:+ dq +:+ "Get session exploration summary" +:+ dq +:+ "

These commands will analyze the current page and gather performance data.".

Definition show_metrics_error (e : string) : string :=
  "📊 Performance Metrics:

⚠️ Error retrieving performance data: " +:+ e +:+ "

To collect detailed metrics, please try again with:
" +:+ dq +:+ "Generate performance report" +:+ dq +:+ " ".

(** Texts of [display_performance_report]. *)
Definition report_block (full_report : string) : string :=
  "
<div style=" +:+ dq +:+ "padding:20px; background:#f5f5f5; border:2px solid #ccc; border-radius:10px; margin:20px 0;" +:+ dq +:+ ">
    <h2 style=" +:+ dq +:+ "color:#2c3e50; text-align:center; border-bottom:1px solid #ccc; padding-bottom:10px; margin-bottom:15px;" +:+ dq +:+ ">🚀 PERFORMANCE REPORT 🚀</h2>
    <pre style=" +:+ dq +:+ "white-space:pre-wrap; font-family:monospace; background:#fff; padding:15px; border-radius:5px; font-size:14px; line-height:1.4;" +:+ dq +:+ ">
" +:+ full_report +:+ "
    </pre>
</div>
".

Definition no_report_block : string :=
  "
<div style=" +:+ dq +:+ "padding:20px; background:#f5f5f5; border:2px solid #ccc; border-radius:10px; margin:20px 0;" +:+ dq +:+ ">
    <h2 style=" +:+ dq +:+ "color:#2c3e50; text-align:center; border-bottom:1px solid #ccc; padding-bottom:10px; margin-bottom:15px;" +:+ dq +:+ ">🚀 PERFORMANCE REPORT 🚀</h2>
    <p style=" +:+ dq +:+ "font-size:16px; line-height:1.5; text-align:center;" +:+ dq +:+ ">
        No performance report has been generated yet.<br/>
        Try running " +:+ dq +:+ "Get session exploration summary" +:+ dq +:+ " to generate metrics.
    </p>
</div>
".

(** Texts of [force_display_report]. *)
Definition no_data_available : string :=
  "No performance data available".

Definition html_document (report_content : string) : string :=
  "
<!DOCTYPE html>
<html>
<head>
    <style>
        .report-container {
            padding: 20px;
            background: #f5f5f5;
            border: 2px solid #ccc;
            border-radius: 10px;
            margin: 20px 0;
            font-family: Arial, sans-serif;
        }
        .report-title {
            color: #2c3e50;
            text-align: center;
            border-bottom: 1px solid #ccc;
            padding-bottom: 10px;
            margin-bottom: 15px;
            font-size: 20px;
            font-weight: bold;
        }
        .report-content {
            white-space: pre-wrap;
            font-family: monospace;
            background: #fff;
            padding: 15px;
            border-radius: 5px;
            font-size: 14px;
            line-height: 1.4;
            overflow-x: auto;
        }
    </style>
</head>
<body>
    <div class=" +:+ dq +:+ "report-container" +:+ dq +:+ ">
        <div class=" +:+ dq +:+ "report-title" +:+ dq +:+ ">🚀 PERFORMANCE REPORT 🚀</div>
        <div class=" +:+ dq +:+ "report-content" +:+ dq +:+ ">
" +:+ report_content +:+ "
        </div>
    </div>
</body>
</html>
".

(** Texts of [yield_data]. *)
Definition previous_goal_message (goal : string) : string :=
  "*Previous Goal*:
" +:+ goal.

Definition memory_message (memory : string) : string :=
  "*Memory*:
" +:+ memory.

Definition next_goal_message (goal : string) : string :=
  "*Next Goal*:
" +:+ goal.

Definition bare_done_message (text : string) : string :=
  "<div style='font-size:16px;padding:10px;'>✅ " +:+ text +:+ "</div>".

Definition done_block (text : string) : string :=
  "<div style='font-size:16px;padding:10px;background:#f0f0f0;border-radius:8px;margin:10px 0;'>✅ " +:+ text +:+ "</div>".

Definition report_in_done_block (report : string) : string :=
  "<div style='font-size:15px;padding:15px;background:#f8f8f8;border-radius:8px;border:2px solid #ddd;margin:15px 0;white-space:pre-wrap;'>" +:+ report +:+ "</div>".

Definition combined_done_message (done_message report_message : string) : string :=
  done_message +:+ "

" +:+ report_message.

Definition step_error_message (e : string) : string :=
  "Error processing agent step: " +:+ e.

(** Texts of [yield_done]. *)
Definition completion_message : string :=
  "Task completed successfully.".

Definition combined_completion_message (completion_message report : string) : string :=
  completion_message +:+ "

" +:+ report.

(** Texts of [browser_use_agent]. *)
Definition final_report_banner (content : string) : string :=
  "
----------- FINAL PERFORMANCE REPORT -----------

" +:+ content +:+ "

---------------------------------------".

(** Texts of [browser_use_agent_batch]. *)
Definition history_empty : string :=
  "Error: Task history is empty.".

Definition history_bad_item (type_name : string) : string :=
  "Error: Invalid history format (last item type: " +:+ type_name +:+ ").".

Definition history_missing_content : string :=
  "Error: Invalid history format (missing 'content' key).".

Definition history_bad_content (type_name : string) : string :=
  "Error: Invalid history format (content type: " +:+ type_name +:+ ").".

Definition batch_error_prefix (e : string) : string :=
  "Error during batch execution: " +:+ e +:+ "

".

End Text.
Import Text.


(** ** Messages *)

Record ToolCall := {
  tc_name : string;
  tc_args : list (string * PyVal);
  tc_id : string
}.

(** What travels on the run's queue and, for the first two, on the output
    stream: an [AIMessage], a [ToolMessage], the dict [{"stop": True}] and
    the string sentinel. *)
Inductive QueueItem :=
| AIMessage (content : string) (tool_calls : list ToolCall)
| ToolMessage (content : string) (tool_call_id : string)
| StopDict
| StrItem (s : string).

Definition END : QueueItem := StrItem "END".

(** ** Module state *)

(** [session_metrics_storage[sid]["pages"]]: page url -> metric type -> data. *)
Definition PageData : Type := list (string * PyVal).
Definition Pages : Type := list (string * PageData).

Record State := {
  controller : Controller;
  session_metrics_storage : gmap string Pages;
  _done_processed : option bool;    (* yield_data._done_processed, when set *)
  queue : list QueueItem;           (* the queue of the current run *)
  timers : list QueueItem;          (* puts scheduled by call_later *)
  uuids : nat;                      (* uuid4() calls so far *)
  _agent_resumed : bool;
  active_browsers : gmap string nat;
  active_browser_contexts : gmap string nat;
  browsers_created : nat;           (* Browser(...) calls so far *)
  browsers_closed : list nat        (* handles closed by browser.close() *)
}.

(** The state after import (lines 34-41, 88). *)
Definition state0 : State :=
  {| controller := controller0; session_metrics_storage := ∅;
     _done_processed := None; queue := []; timers := []; uuids := 0;
     _agent_resumed := false; active_browsers := ∅;
     active_browser_contexts := ∅; browsers_created := 0;
     browsers_closed := [] |}.

Definition set_controller (c : Controller) (st : State) : State :=
  {| controller := c; session_metrics_storage := session_metrics_storage st;
     _done_processed := _done_processed st; queue := queue st; timers := timers st;
     uuids := uuids st; _agent_resumed := _agent_resumed st;
     active_browsers := active_browsers st;
     active_browser_contexts := active_browser_contexts st;
     browsers_created := browsers_created st; browsers_closed := browsers_closed st |}.

Definition set_storage (m : gmap string Pages) (st : State) : State :=
  {| controller := controller st; session_metrics_storage := m;
     _done_processed := _done_processed st; queue := queue st; timers := timers st;
     uuids := uuids st; _agent_resumed := _agent_resumed st;
     active_browsers := active_browsers st;
     active_browser_contexts := active_browser_contexts st;
     browsers_created := browsers_created st; browsers_closed := browsers_closed st |}.

Definition set_done_processed (b : option bool) (st : State) : State :=
  {| controller := controller st; session_metrics_storage := session_metrics_storage st;
     _done_processed := b; queue := queue st; timers := timers st;
     uuids := uuids st; _agent_resumed := _agent_resumed st;
     active_browsers := active_browsers st;
     active_browser_contexts := active_browser_contexts st;
     browsers_created := browsers_created st; browsers_closed := browsers_closed st |}.

Definition set_queue (q : list QueueItem) (st : State) : State :=
  {| controller := controller st; session_metrics_storage := session_metrics_storage st;
     _done_processed := _done_processed st; queue := q; timers := timers st;
     uuids := uuids st; _agent_resumed := _agent_resumed st;
     active_browsers := active_browsers st;
     active_browser_contexts := active_browser_contexts st;
     browsers_created := browsers_created st; browsers_closed := browsers_closed st |}.

Definition set_timers (t : list QueueItem) (st : State) : State :=
  {| controller := controller st; session_metrics_storage := session_metrics_storage st;
     _done_processed := _done_processed st; queue := queue st; timers := t;
     uuids := uuids st; _agent_resumed := _agent_resumed st;
     active_browsers := active_browsers st;
     active_browser_contexts := active_browser_contexts st;
     browsers_created := browsers_created st; browsers_closed := browsers_closed st |}.

Definition set_uuids (n : nat) (st : State) : State :=
  {| controller := controller st; session_metrics_storage := session_metrics_storage st;
     _done_processed := _done_processed st; queue := queue st; timers := timers st;
     uuids := n; _agent_resumed := _agent_resumed st;
     active_browsers := active_browsers st;
     active_browser_contexts := active_browser_contexts st;
     browsers_created := browsers_created st; browsers_closed := browsers_closed st |}.

Definition set_agent_resumed (b : bool) (st : State) : State :=
  {| controller := controller st; session_metrics_storage := session_metrics_storage st;
     _done_processed := _done_processed st; queue := queue st; timers := timers st;
     uuids := uuids st; _agent_resumed := b;
     active_browsers := active_browsers st;
     active_browser_contexts := active_browser_contexts st;
     browsers_created := browsers_created st; browsers_closed := browsers_closed st |}.

Definition set_browsers (bs cs : gmap string nat) (created : nat) (closed : list nat)
    (st : State) : State :=
  {| controller := controller st; session_metrics_storage := session_metrics_storage st;
     _done_processed := _done_processed st; queue := queue st; timers := timers st;
     uuids := uuids st; _agent_resumed := _agent_resumed st;
     active_browsers := bs; active_browser_contexts := cs;
     browsers_created := created; browsers_closed := closed |}.

(** [controller.finished = b] *)
Definition set_finished (b : bool) (st : State) : State :=
  set_controller {| session_id := session_id (controller st);
                    agent := agent (controller st); finished := b |} st.

Definition controller_session_id (st : State) : option string :=
  session_id (controller st).

(** [queue.put_nowait(x)], in the order the event loop runs the callbacks. *)
Definition put (x : QueueItem) (st : State) : State :=
  set_queue (queue st ++ [x]) st.

(** [loop.call_later(delay, ... put_nowait, x)] *)
Definition call_later (x : QueueItem) (st : State) : State :=
  set_timers (timers st ++ [x]) st.

(** ** The controller's metrics helpers (lines 60-86) *)

(** [set_session_id]: touching the defaultdict creates the session entry. *)
Definition set_session_id (sid : string) (st : State) : State :=
  let st1 := set_controller {| session_id := Some sid;
                               agent := agent (controller st);
                               finished := finished (controller st) |} st in
  let st2 := match session_metrics_storage st1 !! sid with
             | Some _ => st1
             | None => set_storage (<[sid := []]> (session_metrics_storage st1)) st1
             end in
  set_finished false st2.

Definition _get_current_session_metrics (st : State) : Pages * State :=
  match controller_session_id st with
  | Some sid =>
      if str_truthy sid then
        match session_metrics_storage st !! sid with
        | Some pages => (pages, st)
        | None => ([], set_storage (<[sid := []]> (session_metrics_storage st)) st)
        end
      else ([], st)
  | None => ([], st)
  end.

Definition _store_metric (page_url metric_type : string) (data : PyVal) (st : State)
  : State :=
  match controller_session_id st with
  | Some sid =>
      if str_truthy sid then
        let '(pages, st1) := _get_current_session_metrics st in
        let page := default [] (dict_get page_url pages) in
        let pages' := dict_set page_url (dict_set metric_type data page) pages in
        set_storage (<[sid := pages']> (session_metrics_storage st1)) st1
      else st
  | None => st
  end.

(** ** Report builders *)

(** [for url, page_data in pages.items(): if "full_report" in page_data: ...] *)
Fixpoint find_full_report (pages : Pages) : option (string * PyVal) :=
  match pages with
  | [] => None
  | (url, page_data) :: rest =>
      match dict_get "full_report" page_data with
      | Some r => Some (url, r)
      | None => find_full_report rest
      end
  end.

(** Lines 955-963: the page with the most metrics, the first one on ties. *)
Fixpoint best_page (pages : Pages) (best : option (string * PageData))
  : option (string * PageData) :=
  match pages with
  | [] => best
  | (url, page_data) :: rest =>
      let better :=
        match best with
        | None => true
        | Some (_, best_metrics) => (length best_metrics <? length page_data)%nat
        end in
      best_page rest (if better then Some (url, page_data) else best)
  end.

Section runtime.
(** Python's rendering of floats and containers by [str()]. *)
Variable repr : PyVal -> string.
(** Lines 966-1019 of [show_performance_metrics]: the report formatted from
    partial metrics (it formats floats, and raises on malformed data). *)
Variable basic_report : string -> PageData -> Res string.
(** [str(uuid.uuid4())], by call number. *)
Variable uuid4 : nat -> string.

Definition show_performance_metrics (st : State) : PyVal * State :=
  let '(pages, st1) := _get_current_session_metrics st in
  match find_full_report pages with
  | Some (_, full_report) => (full_report, st1)
  | None =>
      match best_page pages None with
      | Some (best_url, best_metrics) =>
          if str_truthy best_url && py_truthy (PDict best_metrics) then
            match basic_report best_url best_metrics with
            | Ok report =>
                (PStr report, _store_metric best_url "full_report" (PStr report) st1)
            | Raise e => (PStr (show_metrics_error (exc_str e)), st1)
            end
          else (PStr no_performance_data, st1)
      | None => (PStr no_performance_data, st1)
      end
  end.

Definition display_performance_report (st : State) : string * State :=
  let '(pages, st1) := _get_current_session_metrics st in
  match find_full_report pages with
  | Some (_, full_report) => (report_block (py_str repr full_report), st1)
  | None =>
      let '(report, st2) := show_performance_metrics st1 in
      if py_truthy report then (report_block (py_str repr report), st2)
      else (no_report_block, st2)
  end.

Definition force_display_report (st : State) : string * State :=
  let '(pages, st1) := _get_current_session_metrics st in
  let report :=
    match find_full_report pages with
    | Some (_, r) => r
    | None => PNone
    end in
  let report_content :=
    if py_truthy report then py_str repr report else no_data_available in
  (html_document report_content, st1).


(** ** The step callback [yield_data] (lines 1044-1185) *)

(** The runtime's [AgentBrain]: three [str] fields. *)
Record AgentBrain := {
  evaluation_previous_goal : string;
  memory : string;
  next_goal : string
}.

(** [action_model.model_dump()]: action name -> its arguments, or None. *)
Definition ActionModel : Type := list (string * option (list (string * PyVal))).

Record AgentOutput := {
  current_state : AgentBrain;
  action : list ActionModel
}.

(** Truth value of a dumped action value. *)
Definition dump_truthy (value : option (list (string * PyVal))) : bool :=
  match value with
  | Some (_ :: _) => true
  | _ => false
  end.

(** Lines 1082-1089. *)
Definition has_done_action (actions : list ActionModel) : bool :=
  existsb (fun action_model =>
             existsb (fun kv => String.eqb (fst kv) "done" && dump_truthy (snd kv))
                     action_model)
          actions.

(** A goal or memory message followed by [{"stop": True}]. *)
Definition send_special (text : string) (fmt : string -> string) (st : State)
  : State :=
  if str_truthy text
  then put StopDict (put (AIMessage (fmt text) []) st)
  else st.

(** How the body of a loop ends: it goes on, the function returns, or an
    exception leaves for the outer handler. *)
Inductive Flow := Next | Return | Raising (e : PyExc).

Record Tools := {
  tool_calls : list ToolCall;
  tool_outputs : list QueueItem
}.

Definition done_flag (st : State) : bool := default false (_done_processed st).

(** One [key, value] of one action model (lines 1100-1166). *)
Definition process_item (key : string) (value : option (list (string * PyVal)))
    (tools : Tools) (st : State) : Flow * Tools * State :=
  if dump_truthy value then
    let value := default [] value in
    if String.eqb key "done" then
      match dict_get "text" value with
      | None => (Raising (KeyError "text"), tools, st)
      | Some text =>
          let text := py_str repr text in
          if finished (controller st) || done_flag st then
            (Next, tools,
             put StopDict (put (AIMessage (bare_done_message text) []) st))
          else
            let st1 := set_done_processed (Some true) (set_finished true st) in
            let '(report, st2) := show_performance_metrics st1 in
            if py_truthy report then
              let done_message := done_block text in
              let report_message := report_in_done_block (py_str repr report) in
              let combined_message := combined_done_message done_message report_message in
              (Return, tools, put StopDict (put (AIMessage combined_message []) st2))
            else
              (Next, tools, put StopDict (put (AIMessage text []) st2))
      end
    else
      let id := uuid4 (uuids st) in
      let value :=
        List.filter (fun kv => match snd kv with PNone => false | _ => true end) value in
      (Next,
       {| tool_calls := tool_calls tools ++
            [ {| tc_name := key; tc_args := value; tc_id := "tool_call_" +:+ id |} ];
          tool_outputs := tool_outputs tools ++
            [ ToolMessage EmptyString ("tool_call_" +:+ id) ] |},
       set_uuids (S (uuids st)) st)
  else (Next, tools, st).

Fixpoint process_action_model (items : ActionModel) (tools : Tools) (st : State)
  : Flow * Tools * State :=
  match items with
  | [] => (Next, tools, st)
  | (key, value) :: rest =>
      match process_item key value tools st with
      | (Next, tools', st') => process_action_model rest tools' st'
      | stop => stop
      end
  end.

Fixpoint process_actions (actions : list ActionModel) (tools : Tools) (st : State)
  : Flow * Tools * State :=
  match actions with
  | [] => (Next, tools, st)
  | action_model :: rest =>
      match process_action_model action_model tools st with
      | (Next, tools', st') => process_actions rest tools' st'
      | stop => stop
      end
  end.

Definition yield_data (agent_output : AgentOutput) (step_number : Z) (st : State)
  : State :=
  let st :=
    match _done_processed st with
    | None => set_done_processed (Some false) st
    | Some _ => st
    end in
  let brain := current_state agent_output in
  let st :=
    if (2 <? step_number)%Z
    then send_special (evaluation_previous_goal brain) previous_goal_message st
    else st in
  let st := send_special (memory brain) memory_message st in
  let st := send_special (next_goal brain) next_goal_message st in
  if has_done_action (action agent_output)
     && (done_flag st || finished (controller st))
  then st
  else
    match process_actions (action agent_output)
            {| tool_calls := []; tool_outputs := [] |} st with
    | (Return, _, st') => st'
    | (Raising e, _, st') => put (AIMessage (step_error_message (exc_str e)) []) st'
    | (Next, tools, st') =>
        match tool_calls tools with
        | [] => st'
        | _ :: _ =>
            fold_left (fun s tool_output => put tool_output s) (tool_outputs tools)
                      (put (AIMessage EmptyString (tool_calls tools)) st')
        end
    end.

(** ** The completion callback [yield_done] (lines 1187-1281).
    [display_performance_report] catches what it raises, so the handlers of
    lines 1249-1281 have nothing to catch. *)
Definition yield_done (st : State) : State :=
  if done_flag st then st
  else if finished (controller st) then call_later END st
  else
    let st1 := set_finished true st in
    let st2 :=
      match _done_processed st1 with
      | Some _ => set_done_processed (Some true) st1
      | None => st1
      end in
    let '(report, st3) := display_performance_report st2 in
    let combined_message := combined_completion_message completion_message report in
    call_later END (put (AIMessage combined_message []) st3).

(** The controller action [done] (lines 1785-1814): its effect on the state. *)
Definition done (text : string) (st : State) : State :=
  snd (display_performance_report (set_finished true st)).

(** ** The streaming entry point [browser_use_agent] (lines 1283-1557) *)

(** The local variables of the generator, and what it has yielded so far:
    the run's output stream. *)
Record Loop := {
  done_called : bool;
  final_report : option (string * list ToolCall);   (* an AIMessage *)
  pending_special_messages : list QueueItem;
  has_pending_messages : bool;
  yielded : list QueueItem
}.

Definition loop0 : Loop :=
  {| done_called := false; final_report := None;
     pending_special_messages := []; has_pending_messages := false;
     yielded := [] |}.

(** [yield x] *)
Definition yield (x : QueueItem) (lp : Loop) : Loop :=
  {| done_called := done_called lp; final_report := final_report lp;
     pending_special_messages := pending_special_messages lp;
     has_pending_messages := has_pending_messages lp;
     yielded := yielded lp ++ [x] |}.

(** Lines 1400-1403 and 1413-1416: the held messages are yielded in order. *)
Definition release_pending (lp : Loop) : Loop :=
  {| done_called := done_called lp; final_report := final_report lp;
     pending_special_messages := []; has_pending_messages := false;
     yielded := yielded lp ++ pending_special_messages lp |}.

Definition hold (x : QueueItem) (lp : Loop) : Loop :=
  {| done_called := done_called lp; final_report := final_report lp;
     pending_special_messages := pending_special_messages lp ++ [x];
     has_pending_messages := true;
     yielded := yielded lp |}.

(** What one iteration of [while True] reads from outside the module state:
    the cancel event, the runtime's failure count and pause flag, and
    whether [agent.stop()] raises. *)
Record Poll := {
  cancel_set : bool;
  too_many_failures : bool;
  paused : bool;
  stop_raises : bool
}.

Definition is_END (data : QueueItem) : bool :=
  match data with
  | StrItem s => String.eqb s "END"
  | _ => false
  end.

(** The report markers of line 1423. *)
Definition has_report_marker (content : string) : bool :=
  str_in "📊" content || str_in "<div" content || str_in "PERFORMANCE REPORT" content.

(** Lines 1419-1424. *)
Definition is_done_or_report_message (data : QueueItem) (st : State) : bool :=
  match data with
  | AIMessage content tool_calls =>
      match tool_calls with [] => true | _ :: _ => false end
      && (finished (controller st) || (str_truthy content && has_report_marker content))
  | _ => false
  end.

(** Lines 1467-1474. *)
Definition is_special_message (data : QueueItem) : bool :=
  match data with
  | AIMessage content _ =>
      str_truthy content
      && (str_in "*Memory*:" content || str_in "*Next Goal*:" content
          || str_in "*Previous Goal*:" content)
  | _ => false
  end.

Inductive Status := Continue | Break.

(** One iteration of the loop (lines 1385-1488).  An empty queue is the
    [TimeoutError] of the 0.5 s wait. *)
Definition iteration (p : Poll) (lp : Loop) (st : State) : Status * Loop * State :=
  if cancel_set p then (Break, lp, st)
  else if too_many_failures p then (Break, lp, st)
  else
    match queue st with
    | [] =>
        (Continue,
         if _agent_resumed st && has_pending_messages lp then release_pending lp else lp,
         st)
    | data :: rest =>
        let st := set_queue rest st in
        if is_END data then (Break, lp, st)
        else
          let lp :=
            if _agent_resumed st
               && match pending_special_messages lp with [] => false | _ :: _ => true end
            then release_pending lp else lp in
          let is_done := is_done_or_report_message data st in
          if is_done && done_called lp then (Continue, lp, st)
          else if is_done then
            let lp :=
              {| done_called := true;
                 final_report :=
                   match data with
                   | AIMessage content tool_calls =>
                       if str_truthy content && str_in "📊" content
                       then Some (content, tool_calls) else final_report lp
                   | _ => final_report lp
                   end;
                 pending_special_messages := pending_special_messages lp;
                 has_pending_messages := has_pending_messages lp;
                 yielded := yielded lp |} in
            let lp := yield data lp in
            if stop_raises p then (Continue, lp, st) else (Break, lp, st)
          else if is_special_message data then
            if _agent_resumed st || negb (paused p)
            then (Continue, yield data lp, st)
            else (Continue, hold data lp, st)
          else if negb (done_called lp && finished (controller st))
               then (Continue, yield data lp, st)
               else (Continue, lp, st)
    end.

(** What happens around the generator while it runs: the automation
    runtime calls the callbacks and the [done] action, a scheduled put
    fires, the resume and pause paths write [_agent_resumed], and the
    generator makes one iteration. *)
Inductive Event :=
| Step (agent_output : AgentOutput) (step_number : Z)
| Completed
| DoneAction (text : string)
| TimerFires
| SetResumed (b : bool)
| Iterate (p : Poll).

Definition fire_timer (st : State) : State :=
  match timers st with
  | [] => st
  | x :: rest => put x (set_timers rest st)
  end.

(** The loop under a sequence of events: [Break] when it has been left,
    [Continue] when it is still running after the last event. *)
Fixpoint consume (events : list Event) (lp : Loop) (st : State)
  : Status * Loop * State :=
  match events with
  | [] => (Continue, lp, st)
  | ev :: rest =>
      match ev with
      | Step agent_output step_number =>
          consume rest lp (yield_data agent_output step_number st)
      | Completed => consume rest lp (yield_done st)
      | DoneAction text => consume rest lp (done text st)
      | TimerFires => consume rest lp (fire_timer st)
      | SetResumed b => consume rest lp (set_agent_resumed b st)
      | Iterate p =>
          match iteration p lp st with
          | (Break, lp', st') => (Break, lp', st')
          | (Continue, lp', st') => consume rest lp' st'
          end
      end
  end.

(** The [finally] block (lines 1489-1557).  An [asyncio.Queue] is always
    true, so the branch of line 1524 is taken. *)
Definition finally (lp : Loop) (st : State) : Loop * State :=
  let lp1 :=
    match final_report lp with
    | Some (content, tool_calls) =>
        if negb (str_truthy content && str_in "PERFORMANCE REPORT" content)
        then yield (AIMessage (final_report_banner content) []) lp
        else yield (AIMessage content tool_calls) lp
    | None => lp
    end in
  let '(html_report, st1) := force_display_report st in
  let st2 := put END (put (AIMessage html_report []) st1) in
  let st3 :=
    match _done_processed st2 with
    | Some _ => set_done_processed (Some false) st2
    | None => st2
    end in
  (lp1, st3).

(** [history[-1]["content"]] on a list of role/content mappings. *)
Definition task_of (history : list (list (string * PyVal))) : Res PyVal :=
  match last history with
  | None => Raise (IndexError "list index out of range")
  | Some m =>
      match dict_get "content" m with
      | Some c => Ok c
      | None => Raise (KeyError "content")
      end
  end.

(** [del session_metrics_storage[sid]] when present, then the re-creating
    access (lines 1304-1308). *)
Definition clear_session_metrics (sid : string) (st : State) : State :=
  set_storage (<[sid := []]> (session_metrics_storage st)) st.

(** Lines 1328-1345: reuse the session's browser, or build one. *)
Definition obtain_browser (sid : string) (st : State) : Res unit * State :=
  match active_browsers st !! sid with
  | Some _ =>
      match active_browser_contexts st !! sid with
      | Some _ => (Ok tt, st)
      | None => (Raise (KeyError sid), st)
      end
  | None =>
      let b := browsers_created st in
      (Ok tt,
       set_browsers (<[sid := b]> (active_browsers st))
                    (<[sid := b]> (active_browser_contexts st))
                    (S b) (browsers_closed st) st)
  end.

Section with_environ.
Variable environ : gmap string string.

(** Lines 1294-1381: what runs before the loop. *)
Definition start_run (model_config : Providers.ModelConfig)
    (history : list (list (string * PyVal))) (sid : string) (st : State)
  : Res unit * State :=
  let st :=
    match _done_processed st with
    | Some _ => set_done_processed (Some false) st
    | None => st
    end in
  let st := clear_session_metrics sid st in
  match Providers.create_llm environ model_config with
  | Raise e => (Raise e, st)
  | Ok _ =>
      let st := set_finished false (set_session_id sid st) in
      let st := set_queue [] (set_agent_resumed false st) in
      match obtain_browser sid st with
      | (Raise e, st) => (Raise e, st)
      | (Ok _, st) =>
          match task_of history with
          | Raise e => (Raise e, st)
          | Ok _ =>
              (Ok tt,
               set_controller {| session_id := controller_session_id st;
                                 agent := Some (browsers_created st);
                                 finished := finished (controller st) |} st)
          end
      end
  end.

(** The generator, driven by [events]: whether it has finished ([Break]) or
    is still in its loop, and the items it has yielded.  The step budget
    [agent_settings.steps or 25] goes to the runtime, whose behaviour is the
    event sequence; the cancel event is read through [cancel_set]. *)
Definition browser_use_agent (model_config : Providers.ModelConfig)
    (agent_settings : Gateway.AgentSettings)
    (history : list (list (string * PyVal))) (sid : string)
    (events : list Event) (st : State)
  : Res (Status * list QueueItem) * State :=
  match start_run model_config history sid st with
  | (Raise e, st') => (Raise e, st')
  | (Ok _, st1) =>
      match consume events loop0 st1 with
      | (Break, lp, st2) =>
          let '(lp', st3) := finally lp st2 in
          (Ok (Break, yielded lp'), st3)
      | (Continue, lp, st2) => (Ok (Continue, yielded lp), st2)
      end
  end.

(** ** The batch entry point [browser_use_agent_batch] (lines 2073-2302) *)

(** What [await agent.run(steps)] leaves behind: the report the batch
    callbacks stored in [collected_data], the metrics the diagnostic
    actions stored, and the exception it raised, if any. *)
Record BatchRun := {
  collected_final_report : option string;
  metrics_after : gmap string Pages;
  raised : option PyExc
}.

(** The [finally] of lines 2279-2302. *)
Definition batch_cleanup (sid : string) (browser : option nat) (st : State) : State :=
  let closed :=
    match browser with
    | Some b => browsers_closed st ++ [b]
    | None => browsers_closed st
    end in
  let st := set_browsers (delete sid (active_browsers st))
                         (delete sid (active_browser_contexts st))
                         (browsers_created st) closed st in
  if bool_decide (controller_session_id st = Some sid)
  then set_finished false st else st.

Definition browser_use_agent_batch (model_config : Providers.ModelConfig)
    (agent_settings : Gateway.AgentSettings)
    (history : list PyVal) (sid : string) (run : BatchRun) (st : State)
  : Res string * State :=
  match last history with
  | None => (Ok history_empty, st)
  | Some (PDict item) =>
      match dict_get "content" item with
      | None => (Ok history_missing_content, st)
      | Some (PStr task_description) =>
          let st :=
            match _done_processed st with
            | Some _ => set_done_processed (Some false) st
            | None => st
            end in
          let st := clear_session_metrics sid st in
          match Providers.create_llm environ model_config with
          | Raise e => (Raise e, st)
          | Ok _ =>
              let st := set_finished false (set_session_id sid st) in
              let st := set_agent_resumed false st in
              (* try: *)
              let b := browsers_created st in
              let st := set_browsers (<[sid := b]> (active_browsers st))
                                     (<[sid := b]> (active_browser_contexts st))
                                     (S b) (browsers_closed st) st in
              let st := set_controller {| session_id := controller_session_id st;
                                          agent := Some b;
                                          finished := finished (controller st) |} st in
              let st := set_storage (metrics_after run) st in
              match raised run with
              | None =>
                  match collected_final_report run with
                  | Some report =>
                      if str_truthy report
                      then (Ok report, batch_cleanup sid (Some b) st)
                      else
                        let '(report, st) := force_display_report st in
                        (Ok report, batch_cleanup sid (Some b) st)
                  | None =>
                      let '(report, st) := force_display_report st in
                      (Ok report, batch_cleanup sid (Some b) st)
                  end
              | Some e =>
                  let '(basic_report, st) := force_display_report st in
                  (Ok (batch_error_prefix (exc_str e) +:+ basic_report),
                   batch_cleanup sid (Some b) st)
              end
          end
      | Some content => (Ok (history_bad_content (type_str content)), st)
      end
  | Some item => (Ok (history_bad_item (type_str item)), st)
  end.

End with_environ.
End runtime.

End Agent.

(* ===================================================================== *)
(** * Concrete inputs used by the examples and counterexamples *)
(* ===================================================================== *)

Definition blank_settings : Gateway.ModelSettings :=
  {| Gateway.model_choice := None; Gateway.ms_temperature := None;
     Gateway.ms_max_tokens := None; Gateway.ms_top_p := None;
     Gateway.ms_top_k := None; Gateway.ms_frequency_penalty := None;
     Gateway.ms_presence_penalty := None |}.

Definition chat_request (sid : string) (messages : list Gateway.ClientMessage)
  : Gateway.ChatRequest :=
  {| Gateway.cr_session_id := sid;
     Gateway.cr_agent_type := Registry.BROWSER_USE;
     Gateway.cr_provider := Providers.ANTHROPIC;
     Gateway.cr_messages := messages;
     Gateway.cr_api_key := EmptyString;
     Gateway.cr_agent_settings := {| Gateway.steps := Some 100%Z |};
     Gateway.cr_model_settings := blank_settings |}.

Definition default_settings : Gateway.AgentSettings :=
  {| Gateway.steps := Some 100%Z |}.

Definition chat_state0 : Gateway.ChatState :=
  {| Gateway.controller := controller0; Gateway.runs := [] |}.

Definition provider_config (p : Providers.ModelProvider)
    (extra : list (string * PyVal)) : Providers.ModelConfig :=
  {| Providers.provider := Providers.Member p;
     Providers.model_name := None; Providers.api_key := Some "sk-test";
     Providers.temperature := PFloat 0.7; Providers.max_tokens := PInt 1000;
     Providers.top_p := PNone; Providers.top_k := PNone;
     Providers.frequency_penalty := PNone; Providers.presence_penalty := PNone;
     Providers.extra_params := extra |}.

Definition anthropic_config : Providers.ModelConfig :=
  provider_config Providers.ANTHROPIC [].

Definition deepseek_config : Providers.ModelConfig :=
  provider_config Providers.DEEPSEEK [("timeout", PInt 30)].

(** [resume_execution] reporting success at every call. *)
Definition always_success (n : nat) : Gateway.Outcome :=
  Gateway.Returned "success" "Agent resumed".

(** [resume_execution] finding no agent at its first call (line 561). *)
Definition fails_once (n : nat) : Gateway.Outcome :=
  match n with
  | O => Gateway.Returned "error" "No agent found"
  | S _ => Gateway.Returned "success" "Agent resumed"
  end.

(** A message with no tool calls that bears one of the report markers of
    line 1423: a completion/report message whatever the controller's flag. *)
Definition report_like (data : Agent.QueueItem) : bool :=
  match data with
  | Agent.AIMessage content [] => str_truthy content && Agent.has_report_marker content
  | _ => false
  end.

Definition count_reports (l : list Agent.QueueItem) : nat :=
  length (List.filter report_like l).

Definition report_invariant (lp : Agent.Loop) : Prop :=
  (count_reports (Agent.yielded lp) <= if Agent.done_called lp then 1 else 0)%nat
  /\ Forall (fun m => report_like m = false) (Agent.pending_special_messages lp).

(** Stand-ins for the three functions the agent module is parameterised by. *)
Definition repr0 (v : PyVal) : string := "<object>".
Definition basic_report0 (url : string) (page : Agent.PageData) : Res string :=
  Ok ("📊 Page Performance Metrics for " +:+ url).
Definition uuid0 (n : nat) : string := pretty n.

Definition azure_config : Providers.ModelConfig :=
  provider_config Providers.AZURE_OPENAI [].

Definition user_history : list (list (string * PyVal)) :=
  [ [("role", PStr "user"); ("content", PStr "Analyze https://example.com")] ].

(** A loop iteration with nothing set, and one with the cancel event set. *)
Definition quiet : Agent.Poll :=
  {| Agent.cancel_set := false; Agent.too_many_failures := false;
     Agent.paused := false; Agent.stop_raises := false |}.

Definition cancelled : Agent.Poll :=
  {| Agent.cancel_set := true; Agent.too_many_failures := false;
     Agent.paused := false; Agent.stop_raises := false |}.

(** An iteration at which the runtime reports too many failures. *)
Definition failing : Agent.Poll :=
  {| Agent.cancel_set := false; Agent.too_many_failures := true;
     Agent.paused := false; Agent.stop_raises := false |}.

(** A step whose only action is [done], with nothing to report in the
    brain fields. *)
Definition done_step (text : string) : Agent.AgentOutput :=
  {| Agent.current_state :=
       {| Agent.evaluation_previous_goal := EmptyString; Agent.memory := EmptyString;
          Agent.next_goal := EmptyString |};
     Agent.action := [ [("done", Some [("text", PStr text); ("success", PBool true)])] ] |}.

(** A step with a done action and the usual goal and memory texts. *)
Definition done_step_with_memory (text : string) : Agent.AgentOutput :=
  {| Agent.current_state :=
       {| Agent.evaluation_previous_goal := "Success - the page loaded";
          Agent.memory := "Visited the home page";
          Agent.next_goal := "Finish the task" |};
     Agent.action := [ [("done", Some [("text", PStr text); ("success", PBool true)])] ] |}.

(** A batch run that stored no report and raised nothing. *)
Definition silent_run : Agent.BatchRun :=
  {| Agent.collected_final_report := None; Agent.metrics_after := ∅;
     Agent.raised := None |}.

(* ===================================================================== *)
(** * Further controller actions of agent.py *)
(* ===================================================================== *)
Module Reports.
Import Agent.

(** The texts of the report actions, as the f-strings build them. *)
Definition no_detailed_metrics : string :=
    "📊 Page Performance Summary:

No detailed performance metrics available.

🔍 Please run " +:+ dq +:+ "Get session exploration summary" +:+ dq +:+ " to generate detailed metrics.".

Definition complete_report (full_report url : string) : string :=
    "--- COMPLETE PERFORMANCE REPORT ---

" +:+ full_report +:+ "

--- END OF REPORT ---

This is the full performance report for " +:+ url +:+ ".".

Definition report_instructions : string :=
    "--- PERFORMANCE REPORT INSTRUCTIONS ---

No performance report has been generated yet. To generate a detailed report:

1. Use the " +:+ dq +:+ "Generate performance report" +:+ dq +:+ " action to create a complete report.
2. Or use the " +:+ dq +:+ "Get session exploration summary" +:+ dq +:+ " action for detailed metrics.

These will analyze the current page's performance, network activity, and potential issues.".

Section actions.
Variable repr : PyVal -> string.

(** [get_latest_report] (lines 1851-1877).  Nothing in the [try] raises on
    a store of the shape the module keeps, so the handler has nothing to
    catch. *)
Definition get_latest_report (st : State) : PyVal * State :=
  let '(pages, st1) := _get_current_session_metrics st in
  match find_full_report pages with
  | Some (_, full_report) => (full_report, st1)
  | None => (PStr no_detailed_metrics, st1)
  end.

(** [show_complete_performance_report] (lines 1879-1920). *)
Definition show_complete_performance_report (st : State) : string * State :=
  let '(pages, st1) := _get_current_session_metrics st in
  match find_full_report pages with
  | Some (url, full_report) => (complete_report (py_str repr full_report) url, st1)
  | None => (report_instructions, st1)
  end.

End actions.
End Reports.

(* ===================================================================== *)
(** * Pausing and resuming (agent.py, lines 557-645) *)
(* ===================================================================== *)
Module Control.

(** The automation agent bound to the controller, as far as the pause and
    resume paths touch it: its pause flag, its browser and its browser
    context.  These paths can store [None] as a handle, so handles are
    optional here. *)
Record AgentObject := {
  _paused : bool;
  browser : option nat;
  browser_context : option nat
}.

(** The module state the two functions read and write. *)
Record State := {
  session_id : option string;          (* controller.session_id *)
  agent : option AgentObject;          (* controller.agent *)
  _agent_resumed : bool;
  active_browsers : gmap string (option nat);
  active_browser_contexts : gmap string (option nat)
}.

Definition set_agent (a : AgentObject) (st : State) : State :=
  {| session_id := session_id st; agent := Some a;
     _agent_resumed := _agent_resumed st;
     active_browsers := active_browsers st;
     active_browser_contexts := active_browser_contexts st |}.

Definition set_agent_resumed (b : bool) (st : State) : State :=
  {| session_id := session_id st; agent := agent st;
     _agent_resumed := b;
     active_browsers := active_browsers st;
     active_browser_contexts := active_browser_contexts st |}.

(** [x = None; if key in d: x = d[key]] (lines 621-626). *)
Definition handle_of (d : gmap string (option nat)) (key : option string) : option nat :=
  match key with
  | Some k =>
      match d !! k with
      | Some handle => handle
      | None => None
      end
  | None => None
  end.

(** A result dict [{"status": ..., "message": ...}]. *)
Record Result := { status : string; message : string }.

Section library.
(** [Agent.pause] and [Agent.resume] of the automation library: the agent
    object after the call, and the exception the call raised, if any. *)
Variable pause : AgentObject -> AgentObject * option PyExc.
Variable resume : AgentObject -> AgentObject * option PyExc.

(** [resume_execution] (lines 557-603).  The object comparisons of lines
    571 and 575 are comparisons of handles. *)
Definition resume_execution (request_session_id : string) (st : State)
  : Result * State :=
  match agent st with
  | None => ({| status := "error"; message := "No agent found" |}, st)
  | Some a =>
      let session_id := request_session_id in
      let a :=
        match active_browsers st !! session_id,
              active_browser_contexts st !! session_id with
        | Some browser, Some browser_context =>
            let a :=
              if bool_decide (Control.browser a <> browser)
              then {| _paused := _paused a; browser := browser;
                      browser_context := Control.browser_context a |}
              else a in
            if bool_decide (Control.browser_context a <> browser_context)
            then {| _paused := _paused a; browser := Control.browser a;
                    browser_context := browser_context |}
            else a
        | _, _ => a
        end in
      let st := set_agent_resumed true (set_agent a st) in
      match resume a with
      | (a, Some e) =>
          ({| status := "error";
              message := "Failed to resume agent: " +:+ exc_str e |},
           set_agent a st)
      | (a, None) =>
          let a :=
            if _paused a
            then {| _paused := false; browser := Control.browser a;
                    browser_context := Control.browser_context a |}
            else a in
          ({| status := "success"; message := "Agent resumed" |}, set_agent a st)
      end
  end.

(** [pause_execution_manually] (lines 608-645). *)
Definition pause_execution_manually (request_session_id : string) (st : State)
  : Res Result * State :=
  match agent st with
  | None => (Ok {| status := "error"; message := "No agent found" |}, st)
  | Some a =>
      if negb (bool_decide (session_id st = Some request_session_id)) then
        (Ok {| status := "error"; message := "Session ID mismatch" |}, st)
      else
        let browser_context := handle_of (active_browser_contexts st) (session_id st) in
        let browser := handle_of (active_browsers st) (session_id st) in
        let st := set_agent_resumed false st in
        match pause a with
        | (a, Some e) => (Raise e, set_agent a st)
        | (a, None) =>
            let st := set_agent a st in
            let st :=
              match session_id st with
              | Some sid =>
                  if str_truthy sid then
                    {| session_id := session_id st; agent := agent st;
                       _agent_resumed := _agent_resumed st;
                       active_browsers := <[sid := browser]> (active_browsers st);
                       active_browser_contexts :=
                         <[sid := browser_context]> (active_browser_contexts st) |}
                  else st
              | None => st
              end in
            (Ok {| status := "success";
                   message := "Agent manually paused for user control" |}, st)
        end
  end.

(** The endpoint [pause_session] of api/index.py (lines 196-207). *)
Definition pause_session (session_id : string) (st : State)
  : Endpoint Result * State :=
  match pause_execution_manually session_id st with
  | (Ok result, st') => (Respond result, st')
  | (Raise e, st') => (HTTPException 500 (DetailText (exc_str e)), st')
  end.

End library.
End Control.

(* ===================================================================== *)
(** * api/index.py: releasing a session (lines 92-103) *)
(* ===================================================================== *)
Module Release.

(** What the endpoint returns: the remote service's answer, or the dict of
    line 102. *)
Inductive Released :=
| RemoteAnswer (answer : PyVal)
| AlreadyReleased (status message : string).

(** [release_session]: [remote] is what [steel_client.sessions.release]
    does for the session.  An exception that leaves the endpoint is the
    one the remote call raised. *)
Definition release_session (remote : Res PyVal) : Res Released :=
  match remote with
  | Ok answer => Ok (RemoteAnswer answer)
  | Raise e =>
      if str_in "Session already stopped" (exc_str e)
      then Ok (AlreadyReleased "success" "Session released")
      else Raise e
  end.

End Release.

(* ===================================================================== *)
(** * api/index.py: tests, reports and batch jobs (lines 332-586) *)
(* ===================================================================== *)
Module Jobs.

(** ** Schemas (api/schemas.py, lines 25-69) *)

Record TestCreate := {
  tc_url : string;
  tc_description : option string;
  tc_status : string                 (* default "pending" *)
}.

Record TestResponse := {
  t_id : string;
  t_url : string;
  t_description : option string;
  t_status : string;
  t_user_id : string;
  t_created_at : option string;
  t_updated_at : option string;
  t_error : option string
}.

Record ReportCreate := {
  rc_test_id : string;
  rc_content : string;
  rc_status : string                 (* default "completed" *)
}.

Record ReportResponse := {
  r_id : string;
  r_test_id : string;
  r_content : string;
  r_status : string;
  r_user_id : string;
  r_created_at : option string;
  r_updated_at : option string
}.

Record BatchAgentRequest := {
  url : string;
  description : option string;
  provider : Providers.ModelProvider;            (* default AZURE_OPENAI *)
  model_settings : Gateway.ModelSettings;
  agent_settings : option Gateway.AgentSettings;
  timeout : option Z                             (* default 300 *)
}.

(** An entry of [batch_job_status]: a status, a message and one of the two
    time stamps. *)
Record JobStatus := {
  status : string;
  message : string;
  started_at : option string;
  completed_at : option string
}.

(** The module state of the endpoints: the job table, and the number of
    clock readings made so far. *)
Record State := {
  batch_job_status : gmap string JobStatus;
  clock : nat
}.

Definition tick (st : State) : State :=
  {| batch_job_status := batch_job_status st; clock := S (clock st) |}.

Definition set_job (test_id : string) (job : JobStatus) (st : State) : State :=
  {| batch_job_status := <[test_id := job]> (batch_job_status st); clock := clock st |}.

(** ** Slicing a string by characters *)

(** A byte that continues a character of the UTF-8 encoding. *)
Definition is_continuation (c : ascii) : bool :=
  (128 <=? nat_of_ascii c)%nat && (nat_of_ascii c <? 192)%nat.

(** The continuation bytes at the head of a string, and what follows. *)
Fixpoint split_continuation (s : string) : string * string :=
  match s with
  | String c rest =>
      if is_continuation c
      then let '(head, tail) := split_continuation rest in (String c head, tail)
      else (EmptyString, s)
  | EmptyString => (EmptyString, EmptyString)
  end.

(** [s[:n]]: the first [n] characters. *)
Fixpoint take_chars (n : nat) (s : string) : string :=
  match n, s with
  | S n', String c rest =>
      let '(head, tail) := split_continuation rest in
      String c head +:+ take_chars n' tail
  | _, _ => EmptyString
  end.

(** What [await asyncio.wait_for(browser_use_agent_batch(...), timeout)]
    comes to: the agent returned or raised in time, or the wait timed out. *)
Inductive Awaited :=
| Finished (r : Res string)
| TimedOut.

(** What [run_browser_agent_batch] returns. *)
Inductive BatchResponse :=
| Success (test_id report_id report : string)     (* "status": "success" *)
| Failure (test_id report_id message : string)    (* "status": "error", with ids *)
| Error (message : string).                       (* "status": "error" *)

Section world.
(** [datetime.now().isoformat()] and [int(time.time())], by the number of
    clock readings made before. *)
Variable isoformat_now : nat -> string.
Variable time_now : nat -> Z.
(** What [convert_to_chat_messages] raises on the list of one dict built
    at line 431, if it raises (api/utils/prompt.py is not under src/). *)
Variable convert_raises : option PyExc.
(** What the import of line 456 raises, if it raises
    (api/plugins/browser_use/__init__.py is not under src/). *)
Variable import_raises : option PyExc.
(** The awaited agent call, from its arguments and the timeout. *)
Variable await_agent :
  Providers.ModelConfig -> Gateway.AgentSettings -> list PyVal -> string -> Z -> Awaited.

(** [create_test] (lines 332-363).  Nothing in the [try] raises: the dict
    has every field of [TestResponse] with the type it declares. *)
Definition create_test (test_data : TestCreate) (user_id : string) (st : State)
  : TestResponse * State :=
  let created_at := isoformat_now (clock st) in
  let st := tick st in
  let test_id :=
    "test_" +:+ pretty (time_now (clock st)) +:+ "_" +:+ take_chars 8 user_id in
  let st := tick st in
  ({| t_id := test_id; t_url := tc_url test_data;
      t_description := tc_description test_data; t_status := tc_status test_data;
      t_user_id := user_id; t_created_at := Some created_at;
      t_updated_at := Some created_at; t_error := None |}, st).

(** [create_report] (lines 365-399). *)
Definition create_report (report_data : ReportCreate) (user_id : string) (st : State)
  : ReportResponse * State :=
  let created_at := isoformat_now (clock st) in
  let st := tick st in
  let report_id :=
    "report_" +:+ pretty (time_now (clock st)) +:+ "_" +:+ take_chars 8 user_id in
  let st := tick st in
  ({| r_id := report_id; r_test_id := rc_test_id report_data;
      r_content := rc_content report_data; r_status := rc_status report_data;
      r_user_id := user_id; r_created_at := Some created_at;
      r_updated_at := Some created_at |}, st).

(** [except asyncio.TimeoutError] also catches a timeout the agent raises
    itself. *)
Definition is_timeout (e : PyExc) : bool :=
  match e with TimeoutError => true | _ => false end.

(** Lines 496-556: the report and the job entry of a failed run. *)
Definition fail_job (test_id user_id error_message : string) (st : State)
  : BatchResponse * State :=
  let report_data := {| rc_test_id := test_id;
                        rc_content := "ERROR: " +:+ error_message;
                        rc_status := "failed" |} in
  let '(report_result, st) := create_report report_data user_id st in
  let st := set_job test_id
              {| status := "failed"; message := error_message;
                 started_at := None;
                 completed_at := Some (isoformat_now (clock st)) |} (tick st) in
  (Failure test_id (r_id report_result) error_message, st).

(** [run_browser_agent_batch] (lines 401-563). *)
Definition run_browser_agent_batch (request : BatchAgentRequest) (user_id : string)
    (st : State) : BatchResponse * State :=
  let test_data :=
    {| tc_url := url request;
       tc_description :=
         Some (Providers.or_else (description request)
                 ("Automated test for " +:+ url request));
       tc_status := "pending" |} in
  let '(test_result, st) := create_test test_data user_id st in
  let test_id := t_id test_result in
  let st := set_job test_id
              {| status := "running";
                 message := "Test initialized, running browser agent";
                 started_at := Some (isoformat_now (clock st));
                 completed_at := None |} (tick st) in
  match convert_raises with
  | Some e => (Error (exc_str e), st)
  | None =>
      let ms := model_settings request in
      let model_config :=
        {| Providers.provider := Providers.Member (provider request);
           Providers.model_name := Gateway.model_choice ms;
           Providers.api_key := None;
           Providers.temperature := Gateway.or_none (Gateway.ms_temperature ms);
           Providers.max_tokens := PNone; Providers.top_p := PNone;
           Providers.top_k := PNone; Providers.frequency_penalty := PNone;
           Providers.presence_penalty := PNone; Providers.extra_params := [] |} in
      let agent_settings :=
        default {| Gateway.steps := Some 100%Z |} (agent_settings request) in
      let session_id := "batch_" +:+ test_id in
      let timeout :=
        match timeout request with
        | Some t => if (t =? 0)%Z then 300%Z else t
        | None => 300%Z
        end in
      let awaited :=
        match import_raises with
        | Some e => Finished (Raise e)
        | None =>
            await_agent model_config agent_settings
              [PDict [("role", PStr "user");
                      ("content", Providers.ostr (description request))]]
              session_id timeout
        end in
      let timed_out :=
        "Agent execution timed out after " +:+ pretty timeout +:+ " seconds" in
      match awaited with
      | Finished (Ok report) =>
          let report_data := {| rc_test_id := test_id; rc_content := report;
                                rc_status := "completed" |} in
          let '(report_result, st) := create_report report_data user_id st in
          let st := set_job test_id
                      {| status := "completed";
                         message := "Test completed successfully";
                         started_at := None;
                         completed_at := Some (isoformat_now (clock st)) |} (tick st) in
          (Success test_id (r_id report_result) report, st)
      | TimedOut => fail_job test_id user_id timed_out st
      | Finished (Raise e) =>
          if is_timeout e then fail_job test_id user_id timed_out st
          else fail_job test_id user_id
                 ("Error during agent execution: " +:+ exc_str e) st
      end
  end.

(** [check_batch_status] (lines 565-586). *)
Definition check_batch_status (test_id : string) (st : State) : JobStatus :=
  match batch_job_status st !! test_id with
  | None => {| status := "unknown"; message := "No batch job found for this test ID";
               started_at := None; completed_at := None |}
  | Some status_data => status_data
  end.

End world.
End Jobs.

(* ===================================================================== *)
(** * Vocabulary of the further properties *)
(* ===================================================================== *)

(** An iteration at which nothing asks the loop to stop and the agent is
    not paused. *)
Definition calm (p : Agent.Poll) : Prop :=
  Agent.cancel_set p = false /\ Agent.too_many_failures p = false
  /\ Agent.paused p = false.

(** An iteration at which nothing asks the loop to stop and the runtime
    reports the agent paused. *)
Definition held_back (p : Agent.Poll) : Prop :=
  Agent.cancel_set p = false /\ Agent.too_many_failures p = false
  /\ Agent.paused p = true.

(** A queue item that is neither the sentinel nor a report. *)
Definition ordinary (data : Agent.QueueItem) : Prop :=
  Agent.is_END data = false /\ report_like data = false.

(** What the loop knows when it has saved a final report: the saved message
    has no tool calls, contains the chart marker, has been yielded, and is
    the one report the loop has yielded. *)
Definition final_report_invariant (lp : Agent.Loop) : Prop :=
  match Agent.final_report lp with
  | Some (content, tool_calls) =>
      tool_calls = [] /\ str_truthy content = true /\ str_in "📊" content = true
      /\ count_reports (Agent.yielded lp) = 1%nat /\ Agent.done_called lp = true
  | None => True
  end.

(** [pages[url][metric_type]], when both keys are present. *)
Definition metric_of (pages : Agent.Pages) (url metric_type : string) : option PyVal :=
  page ← dict_get url pages; dict_get metric_type page.

(** [st'] differs from [st] in the metrics store at most. *)
Definition only_storage (st st' : Agent.State) : Prop :=
  exists m, st' = Agent.set_storage m st.

(** The messages a goal or memory text makes: the formatted text and the
    stop mark, or nothing for an empty text. *)
Definition special (text : string) (fmt : string -> string) : list Agent.QueueItem :=
  if str_truthy text then [Agent.AIMessage (fmt text) []; Agent.StopDict] else [].

(** The messages [yield_data] sends for the brain of a step, in the order
    of lines 1060-1080. *)
Definition brain_messages (brain : Agent.AgentBrain) (step_number : Z)
  : list Agent.QueueItem :=
  (if (2 <? step_number)%Z
   then special (Agent.evaluation_previous_goal brain) Agent.Text.previous_goal_message
   else [])
  ++ special (Agent.memory brain) Agent.Text.memory_message
  ++ special (Agent.next_goal brain) Agent.Text.next_goal_message.

(** An entry of an action model that carries arguments. *)
Definition carries_arguments (kv : string * option (list (string * PyVal))) : bool :=
  Agent.dump_truthy (snd kv).

(** The entries of a step's action models that carry arguments, in order. *)
Definition effective_actions (actions : list Agent.ActionModel)
  : list (string * option (list (string * PyVal))) :=
  List.filter carries_arguments (concat actions).

(** The tool call of the [i]-th effective entry of a step that starts when
    [first] identifiers have been drawn. *)
Definition tool_call_of (uuid4 : nat -> string) (first i : nat)
    (kv : string * option (list (string * PyVal))) : Agent.ToolCall :=
  {| Agent.tc_name := fst kv;
     Agent.tc_args :=
       List.filter (fun kv => match snd kv with PNone => false | _ => true end)
                   (default [] (snd kv));
     Agent.tc_id := "tool_call_" +:+ uuid4 (first + i)%nat |}.

(** The tool message answering a tool call. *)
Definition tool_message_of (c : Agent.ToolCall) : Agent.QueueItem :=
  Agent.ToolMessage EmptyString (Agent.tc_id c).

(** A [done] entry that carries arguments. *)
Definition is_done_entry (kv : string * option (list (string * PyVal))) : bool :=
  String.eqb (fst kv) "done" && Agent.dump_truthy (snd kv).

(** An entry other than a [done] entry with arguments. *)
Definition plain (kv : string * option (list (string * PyVal))) : bool :=
  negb (is_done_entry kv).

(** A [done] entry with arguments has a [text] among them. *)
Definition has_text (kv : string * option (list (string * PyVal))) : bool :=
  negb (is_done_entry kv) || dict_has "text" (default [] (snd kv)).

(** Every [done] entry that carries arguments has a [text] among them. *)
Definition done_entries_have_text (actions : list Agent.ActionModel) : bool :=
  forallb has_text (concat actions).

(** The session is marked done: the flag of [yield_data] or the
    controller's is set. *)
Definition marked_done (st : Agent.State) : bool :=
  Agent.done_flag st || finished (Agent.controller st).

(** The tools collected so far with further tool calls and their tool
    messages added. *)
Definition add_tools (tools : Agent.Tools) (calls : list Agent.ToolCall) : Agent.Tools :=
  {| Agent.tool_calls := Agent.tool_calls tools ++ calls;
     Agent.tool_outputs := Agent.tool_outputs tools ++ map tool_message_of calls |}.

(** What processing entries does to the mark: it keeps it, it sets it when
    one of the entries is a done entry, and it stops early only with the
    mark set. *)
Definition marks (st : Agent.State) (has_done : bool)
    (r : Agent.Flow * Agent.Tools * Agent.State) : Prop :=
  (marked_done st = true -> marked_done (snd r) = true)
  /\ (fst (fst r) <> Agent.Next -> marked_done (snd r) = true)
  /\ (has_done = true -> marked_done (snd r) = true).

(** [st'] has the browsers of [st]: the same handles for the same
    sessions, none created and none closed. *)
Definition same_browsers (st st' : Agent.State) : Prop :=
  Agent.active_browsers st' = Agent.active_browsers st
  /\ Agent.active_browser_contexts st' = Agent.active_browser_contexts st
  /\ Agent.browsers_created st' = Agent.browsers_created st
  /\ Agent.browsers_closed st' = Agent.browsers_closed st.

(** The checks of lines 2101-2112 pass: the last item of the history is a
    dict whose [content] is a string. *)
Definition valid_history (history : list PyVal) : bool :=
  match last history with
  | Some (PDict item) =>
      match dict_get "content" item with
      | Some (PStr _) => true
      | _ => false
      end
  | _ => false
  end.

(** The agent object with the browser and the browser context registered
    for the session, when both are registered. *)
Definition with_session_handles (st : Control.State) (sid : string)
    (a : Control.AgentObject) : Control.AgentObject :=
  match Control.active_browsers st !! sid, Control.active_browser_contexts st !! sid with
  | Some b, Some c =>
      {| Control._paused := Control._paused a; Control.browser := b;
         Control.browser_context := c |}
  | _, _ => a
  end.

Definition paused_result : Control.Result :=
  {| Control.status := "success";
     Control.message := "Agent manually paused for user control" |}.

(** The identifier [create_test] gives a test created by [user_id] when
    the clock has been read [clock] times. *)
Definition test_id_at (time_now : nat -> Z) (clock : nat) (user_id : string) : string :=
  "test_" +:+ pretty (time_now (S clock)) +:+ "_" +:+ Jobs.take_chars 8 user_id.

(* ===================================================================== *)
(** * Further concrete inputs *)
(* ===================================================================== *)

(** An iteration at which the runtime reports the agent paused. *)
Definition paused_poll : Agent.Poll :=
  {| Agent.cancel_set := false; Agent.too_many_failures := false;
     Agent.paused := true; Agent.stop_raises := false |}.

(** The memory and goal messages of a step. *)
Definition goal_messages : list Agent.QueueItem :=
  [ Agent.AIMessage (Agent.Text.memory_message "Visited the home page") [];
    Agent.AIMessage (Agent.Text.next_goal_message "Open the pricing page") [] ].

(** A tool call and its tool message. *)
Definition tool_messages : list Agent.QueueItem :=
  [ Agent.AIMessage EmptyString
      [ {| Agent.tc_name := "go_to_url";
           Agent.tc_args := [("url", PStr "https://example.com")];
           Agent.tc_id := "tool_call_0" |} ];
    Agent.ToolMessage EmptyString "tool_call_0" ].

(** The module state with the controller bound to session "s1". *)
Definition bound_state : Agent.State := Agent.set_session_id "s1" Agent.state0.

(** A step with two actions that carry arguments and one that does not. *)
Definition browsing_step : Agent.AgentOutput :=
  {| Agent.current_state :=
       {| Agent.evaluation_previous_goal := "Success - the page loaded";
          Agent.memory := "Visited the home page";
          Agent.next_goal := "Open the pricing page" |};
     Agent.action :=
       [ [("go_to_url", Some [("url", PStr "https://example.com")]); ("done", None)];
         [("click_element", Some [("index", PInt 3); ("xpath", PNone)])] ] |}.

(** A history the batch agent accepts and one it rejects. *)
Definition batch_history : list PyVal :=
  [PDict [("role", PStr "user"); ("content", PStr "Analyze the page")]].

Definition null_history : list PyVal :=
  [PDict [("role", PStr "user"); ("content", PNone)]].

(** A chat request with one message. *)
Definition first_chat_request : Gateway.ChatRequest :=
  chat_request "s1" [ {| Gateway.role := "user"; Gateway.content := "open the page" |} ].

(** The chat state once the controller has finished the task of "s1". *)
Definition finished_chat_state : Gateway.ChatState :=
  {| Gateway.controller :=
       {| session_id := Some "s1"; agent := Some 0%nat; finished := true |};
     Gateway.runs := [] |}.

(** The library's pause and resume setting and clearing the pause flag. *)
Definition library_pause (a : Control.AgentObject)
  : Control.AgentObject * option PyExc :=
  ({| Control._paused := true; Control.browser := Control.browser a;
      Control.browser_context := Control.browser_context a |}, None).

Definition library_resume (a : Control.AgentObject)
  : Control.AgentObject * option PyExc :=
  ({| Control._paused := false; Control.browser := Control.browser a;
      Control.browser_context := Control.browser_context a |}, None).

(** A running agent of session "s1" with its browser registered. *)
Definition running_control : Control.State :=
  {| Control.session_id := Some "s1";
     Control.agent := Some {| Control._paused := false; Control.browser := Some 0%nat;
                              Control.browser_context := Some 0%nat |};
     Control._agent_resumed := false;
     Control.active_browsers := {["s1" := Some 0%nat]};
     Control.active_browser_contexts := {["s1" := Some 0%nat]} |}.

(** A clock, a batch request without a description, and an awaited agent
    call that answers as the batch agent does from the state after import. *)
Definition clock_text (n : nat) : string := "2025-01-01T00:00:0" +:+ pretty n.
Definition clock_seconds (n : nat) : Z := 1735689600.

Definition bare_batch_request : Jobs.BatchAgentRequest :=
  {| Jobs.url := "https://example.com"; Jobs.description := None;
     Jobs.provider := Providers.AZURE_OPENAI; Jobs.model_settings := blank_settings;
     Jobs.agent_settings := None; Jobs.timeout := Some 300%Z |}.

Definition jobs0 : Jobs.State := {| Jobs.batch_job_status := ∅; Jobs.clock := 0 |}.

Definition batch_agent_awaited (model_config : Providers.ModelConfig)
    (agent_settings : Gateway.AgentSettings) (history : list PyVal) (sid : string)
    (timeout : Z) : Jobs.Awaited :=
  Jobs.Finished
    (fst (Agent.browser_use_agent_batch repr0 ∅ model_config agent_settings history sid
            silent_run Agent.state0)).

(* ===================================================================== *)
(** * Properties *)
(* ===================================================================== *)

(** ** The agent registry *)

Lemma get_web_agent_base :
  Registry.get_web_agent (Registry.Member Registry.BASE)
  = Ok (Registry.Callable Registry.base_agent).
Proof. reflexivity. Qed.

Lemma get_web_agent_browser_use :
  Registry.get_web_agent (Registry.Member Registry.BROWSER_USE)
  = Ok (Registry.Callable Registry.browser_use_agent).
Proof. reflexivity. Qed.

(** Every value other than the three dispatched members, EXAMPLE included,
    is rejected with the "Invalid agent type" error. *)
Lemma get_web_agent_unrecognized (name : Registry.AgentArg) :
  Registry.arg_is name Registry.BASE = false ->
  Registry.arg_is name Registry.BROWSER_USE = false ->
  Registry.arg_is name Registry.BROWSER_USE_BATCH = false ->
  Registry.get_web_agent name
  = Raise (ValueError ("Invalid agent type: " +:+ Registry.arg_str name)).
Proof.
  intros Hbase Hbrowser Hbatch. unfold Registry.get_web_agent.
  now rewrite Hbase, Hbrowser, Hbatch.
Qed.

(** The batch entry point exists in the repository but the registry module
    never binds its name. *)
Lemma batch_agent_not_bound :
  dict_get "browser_use_agent_batch" Registry.module_globals = None.
Proof. reflexivity. Qed.

(** C1 (as the code behaves): dispatching on BROWSER_USE_BATCH does not return
    the batch entry point; the lookup of the name [browser_use_agent_batch]
    fails in the registry module and the call raises NameError. *)
Theorem C1_batch_dispatch_raises_name_error :
  Registry.get_web_agent (Registry.Member Registry.BROWSER_USE_BATCH)
  = Raise (NameError "browser_use_agent_batch").
Proof. reflexivity. Qed.

(** ** The session endpoint *)

(** C4, refuted as stated: with the default timeout of 90000 the remote call
    does not receive 90000. *)
Lemma C4_timeout_is_not_forwarded_unchanged :
  Gateway.create_session
    (Gateway.SessionRequest_of_body Registry.BROWSER_USE None None)
  <> Ok (Gateway.sessions_create 90000).
Proof. discriminate. Qed.

(** C4, amended: the endpoint forwards the caller's timeout multiplied by
    1000; the default 90000 reaches the remote call as 90000000. *)
Theorem C4_timeout_is_forwarded_times_1000 :
  (forall agent_type api_key (timeout : Z),
     Gateway.create_session
       (Gateway.SessionRequest_of_body agent_type api_key (Some (Some timeout)))
     = Ok (Gateway.sessions_create (timeout * 1000)))
  /\ (forall agent_type api_key,
        Gateway.create_session (Gateway.SessionRequest_of_body agent_type api_key None)
        = Ok (Gateway.sessions_create 90000000)).
Proof. split; reflexivity. Qed.

(** ** The chat endpoint *)

(** The name of the empty-stream producer is not bound in api/index.py. *)
Lemma empty_stream_not_bound : Gateway.load_name "empty_stream" = Raise (NameError "empty_stream").
Proof. reflexivity. Qed.

Lemma empty_stream_response_raises :
  Gateway.empty_stream_response = Raise (NameError "empty_stream").
Proof. reflexivity. Qed.

(** C5 (as the code behaves): for a request whose message list is empty or
    whose final message has empty content, the endpoint leaves the
    controller and the agent runs untouched, but what it answers is an
    HTTP 500 carrying a NameError, not the empty-stream encoding. *)
Theorem C5_empty_message_answers_500 (request : Gateway.ChatRequest)
    (st : Gateway.ChatState) :
  Gateway.empty_message (Gateway.cr_messages request) = true ->
  Gateway.handle_chat request st
  = (HTTPException 500
       (DetailError "name 'empty_stream' is not defined" "NameError" 500), st).
Proof.
  intros Hempty. unfold Gateway.handle_chat, Gateway.handle_chat_try.
  rewrite Hempty, empty_stream_response_raises. reflexivity.
Qed.

Lemma C5_empty_message_answers_500_witness :
  Gateway.handle_chat
    (chat_request "s1" [ {| Gateway.role := "user"; Gateway.content := "open the page" |};
                         {| Gateway.role := "user"; Gateway.content := EmptyString |} ])
    chat_state0
  = (HTTPException 500
       (DetailError "name 'empty_stream' is not defined" "NameError" 500),
     chat_state0).
Proof. apply C5_empty_message_answers_500. reflexivity. Defined.

(** The order of the two checks: the 400 answer is given only to a request
    with a non-empty message list, a non-empty final content and an empty
    session id. *)
Lemma handle_chat_400_only_after_message_check (request : Gateway.ChatRequest)
    (st st' : Gateway.ChatState) (content media_type : string) :
  Gateway.handle_chat request st
  = (Respond (Gateway.PlainResponse 400 content media_type), st') ->
  Gateway.empty_message (Gateway.cr_messages request) = false
  /\ Gateway.cr_session_id request = EmptyString.
Proof.
  unfold Gateway.handle_chat, Gateway.handle_chat_try.
  destruct (Gateway.empty_message (Gateway.cr_messages request)) eqn:Hempty.
  - rewrite empty_stream_response_raises. discriminate.
  - destruct (Gateway.cr_session_id request) as [|c s] eqn:Hsid; cbn [str_truthy negb].
    + intros _. split; reflexivity.
    + destruct (_ && _).
      * rewrite empty_stream_response_raises. discriminate.
      * destruct (Registry.get_web_agent _) as [[f|]|e]; discriminate.
Qed.

(** C10 (as the code behaves): the message check does come before the
    session-id check, but for an empty message list and an empty session id
    the answer is neither the empty stream nor the 400: it is the HTTP 500
    of the unbound name. *)
Theorem C10_empty_message_empty_session_answers_500 (st : Gateway.ChatState) :
  Gateway.handle_chat (chat_request EmptyString []) st
  = (HTTPException 500
       (DetailError "name 'empty_stream' is not defined" "NameError" 500), st).
Proof. reflexivity. Qed.

(** ** The provider factory *)

Lemma dict_has_keys {V} (k : string) (d : list (string * V)) :
  dict_has k d = existsb (String.eqb k) (map fst d).
Proof.
  unfold dict_has. induction d as [|[k' v] d IH]; cbn; [reflexivity|].
  destruct (String.eqb k k'); [reflexivity | exact IH].
Qed.

Lemma repeated_keyword_fresh (explicit extra : list (string * PyVal)) :
  forallb (fun kv => negb (existsb (String.eqb (fst kv)) (map fst explicit))) extra = true ->
  Providers.repeated_keyword explicit extra = None.
Proof.
  induction extra as [|[k v] extra IH]; cbn; [reflexivity|].
  rewrite andb_true_iff, negb_true_iff. intros [Hk Hrest].
  rewrite dict_has_keys, Hk. auto.
Qed.

Lemma construct_fresh (c : Providers.ClientClass) (explicit extra : list (string * PyVal)) :
  forallb (fun kv => negb (existsb (String.eqb (fst kv)) (map fst explicit))) extra = true ->
  Providers.construct c explicit extra
  = Ok {| Providers.cls := c; Providers.kwargs := explicit ++ extra |}.
Proof.
  intros H. unfold Providers.construct. now rewrite (repeated_keyword_fresh _ _ H).
Qed.

Lemma or_else_falsy (o : option string) (dflt : string) :
  ostr_truthy o = false -> Providers.or_else o dflt = dflt.
Proof. destruct o as [[|c s]|]; cbn; congruence. Qed.







(** ** The resume endpoint *)

Lemma Qltb_true (a b : Q) : (a < b)%Q -> Gateway.Qltb a b = true.
Proof.
  intros Hlt. unfold Gateway.Qltb. apply negb_true_iff.
  destruct (Qle_bool b a) eqn:Hle; [|reflexivity].
  apply Qle_bool_iff in Hle. exfalso. apply (Qlt_not_le _ _ Hlt Hle).
Qed.

(** The retry loop touches neither the locks nor the timestamps, and calls
    the underlying resume logic at most once per attempt, at least once when
    there is an attempt. *)
Lemma attempts_state (resume_execution : nat -> Gateway.Outcome) (now : Q)
    (range : list nat) :
  forall (last_error : option PyExc) (st : Gateway.ResumeState),
    let st' := snd (Gateway.attempts resume_execution now range last_error st) in
    Gateway.session_locks st' = Gateway.session_locks st
    /\ Gateway.session_last_resume st' = Gateway.session_last_resume st
    /\ (Gateway.resume_calls st <= Gateway.resume_calls st'
        <= Gateway.resume_calls st + length range)%nat
    /\ (range <> [] -> (Gateway.resume_calls st < Gateway.resume_calls st')%nat).
Proof.
  induction range as [|attempt range IH]; intros last_error st; cbn.
  - destruct last_error; cbn; repeat split; try lia; congruence.
  - destruct (resume_execution (Gateway.resume_calls st)) as [s m|e].
    + destruct (String.eqb s "success"); cbn.
      * repeat split; lia.
      * specialize (IH last_error
          {| Gateway.session_locks := Gateway.session_locks st;
             Gateway.session_last_resume := Gateway.session_last_resume st;
             Gateway.resume_calls := S (Gateway.resume_calls st) |}).
        cbn in IH. destruct IH as (Hl & Ht & Hc & _). repeat split; try assumption; lia.
    + specialize (IH (Some e)
        {| Gateway.session_locks := Gateway.session_locks st;
           Gateway.session_last_resume := Gateway.session_last_resume st;
           Gateway.resume_calls := S (Gateway.resume_calls st) |}).
      cbn in IH. destruct IH as (Hl & Ht & Hc & _). repeat split; try assumption; lia.
Qed.

(** A request that is not answered from the cooldown and obtains the lock
    records its own time as the session's last resume and makes one or two
    calls of the underlying resume logic. *)
Lemma resume_session_performed (resume_execution : nat -> Gateway.Outcome)
    (sid : string) (now : Q) (lock_released : bool) (st : Gateway.ResumeState) :
  Gateway.in_cooldown now st sid = false ->
  (Gateway.session_locks st !! sid = Some true -> lock_released = true) ->
  let st' := snd (Gateway.resume_session resume_execution sid now lock_released st) in
  Gateway.session_last_resume st' !! sid = Some now
  /\ (Gateway.resume_calls st < Gateway.resume_calls st'
      <= Gateway.resume_calls st + 2)%nat.
Proof.
  intros Hcool Hlock. unfold Gateway.resume_session. rewrite Hcool.
  set (st1 := match Gateway.session_locks st !! sid with
              | Some _ => st
              | None => Gateway.set_lock sid false st
              end).
  assert (Hheld : default false (Gateway.session_locks st1 !! sid) && negb lock_released
                  = false).
  { subst st1. destruct (Gateway.session_locks st !! sid) as [[|]|] eqn:Hl; cbn.
    - rewrite Hl. cbn. rewrite Hlock by reflexivity. reflexivity.
    - rewrite Hl. reflexivity.
    - rewrite lookup_insert_eq. reflexivity. }
  rewrite Hheld.
  assert (Hcalls : Gateway.resume_calls st1 = Gateway.resume_calls st).
  { subst st1. destruct (Gateway.session_locks st !! sid); reflexivity. }
  match goal with
  | |- context [Gateway.attempts ?re ?n ?r ?le ?s] =>
      pose proof (attempts_state re n r le s) as Hatt;
      destruct (Gateway.attempts re n r le s) as [r3 st3]
  end.
  cbn in Hatt. destruct Hatt as (_ & Ht & Hc & Hpos).
  specialize (Hpos ltac:(discriminate)).
  destruct r3 as [resp|e]; cbn; rewrite Ht, lookup_insert_eq; (split; [reflexivity | lia]).
Qed.




(** ** The streaming agent *)

Import Agent Agent.Text.

Lemma count_reports_app (l l' : list QueueItem) :
  count_reports (l ++ l') = (count_reports l + count_reports l')%nat.
Proof. unfold count_reports. now rewrite List.filter_app, length_app. Qed.

Lemma count_reports_none (l : list QueueItem) :
  Forall (fun m => report_like m = false) l -> count_reports l = 0%nat.
Proof.
  unfold count_reports. induction 1 as [|m l Hm _ IH]; cbn; [reflexivity|].
  now rewrite Hm.
Qed.

Lemma not_done_not_report_like (data : QueueItem) (st : State) :
  is_done_or_report_message data st = false -> report_like data = false.
Proof.
  destruct data as [content [|tc tcs]| | |]; cbn; try reflexivity.
  destruct (finished (controller st)); cbn; [discriminate | tauto].
Qed.

Lemma release_pending_invariant (lp : Loop) :
  report_invariant lp -> report_invariant (release_pending lp).
Proof.
  intros [Hc Hp]. unfold release_pending.
  split; cbn [yielded done_called pending_special_messages].
  - rewrite count_reports_app, (count_reports_none _ Hp). lia.
  - constructor.
Qed.

Lemma iteration_invariant (p : Poll) (lp : Loop) (st : State) :
  report_invariant lp -> report_invariant (snd (fst (iteration p lp st))).
Proof.
  intros Hinv. unfold iteration.
  destruct (cancel_set p); [exact Hinv|].
  destruct (too_many_failures p); [exact Hinv|].
  destruct (queue st) as [|data rest] eqn:Hq; cbn [fst snd].
  - destruct (_ && _); [apply release_pending_invariant|]; exact Hinv.
  - cbv zeta. destruct (is_END data); [exact Hinv|].
    set (lp1 := if _ && _ then release_pending lp else lp).
    assert (Hinv1 : report_invariant lp1).
    { subst lp1. destruct (_ && _); [apply release_pending_invariant|]; exact Hinv. }
    clearbody lp1. clear Hinv lp.
    destruct (is_done_or_report_message data (set_queue rest st)) eqn:Hdone; cbn [andb].
    + destruct (done_called lp1) eqn:Hcalled; [exact Hinv1|].
      destruct Hinv1 as [Hc Hp]. rewrite Hcalled in Hc.
      assert (report_invariant (yield data
                {| done_called := true;
                   final_report :=
                     match data with
                     | AIMessage content tool_calls =>
                         if str_truthy content && str_in "📊" content
                         then Some (content, tool_calls) else final_report lp1
                     | _ => final_report lp1
                     end;
                   pending_special_messages := pending_special_messages lp1;
                   has_pending_messages := has_pending_messages lp1;
                   yielded := yielded lp1 |})) as Hres.
      { unfold yield. split; cbn [yielded done_called pending_special_messages];
          [|exact Hp]. rewrite count_reports_app.
        unfold count_reports at 2. cbn [List.filter].
        destruct (report_like data); cbn [length]; lia. }
      destruct (stop_raises p); exact Hres.
    + pose proof (not_done_not_report_like _ _ Hdone) as Hnot.
      destruct Hinv1 as [Hc Hp].
      assert (Hy : report_invariant (yield data lp1)).
      { unfold yield. split; cbn [yielded done_called pending_special_messages];
          [|exact Hp]. rewrite count_reports_app.
        unfold count_reports at 2. cbn [List.filter]. rewrite Hnot. cbn [length]. lia. }
      assert (Hh : report_invariant (hold data lp1)).
      { unfold hold. split; cbn [yielded done_called pending_special_messages];
          [exact Hc|]. apply Forall_app. split; [exact Hp|].
        constructor; [exact Hnot | constructor]. }
      destruct (is_special_message data).
      * destruct (_ || _); cbn; assumption.
      * destruct (negb _); cbn; [assumption | split; assumption].
Qed.

Section streaming.
Variable repr : PyVal -> string.
Variable basic_report : string -> PageData -> Res string.
Variable uuid4 : nat -> string.

Lemma consume_invariant (events : list Event) :
  forall (lp : Loop) (st : State),
    report_invariant lp ->
    report_invariant (snd (fst (consume repr basic_report uuid4 events lp st))).
Proof.
  induction events as [|ev events IH]; intros lp st Hinv; [exact Hinv|].
  destruct ev; cbn [consume]; try (apply IH; exact Hinv).
  pose proof (iteration_invariant p lp st Hinv) as Hit.
  destruct (iteration p lp st) as [[[|] lp'] st']; cbn [fst snd] in *.
  - apply IH. exact Hit.
  - exact Hit.
Qed.

(** Inside the loop the gate of lines 1432-1448 works: whatever the
    callbacks and the runtime do, the loop itself yields at most one
    message bearing a report marker. *)
Lemma loop_yields_at_most_one_report (events : list Event) (st : State) :
  (count_reports (yielded (snd (fst (consume repr basic_report uuid4 events loop0 st))))
   <= 1)%nat.
Proof.
  assert (Hinv0 : report_invariant loop0) by (split; [cbn; lia | constructor]).
  destruct (consume_invariant events loop0 st Hinv0) as [Hc _].
  destruct (done_called _); lia.
Qed.

Lemma send_special_flags (text : string) (fmt : string -> string) (st : State) :
  done_flag (send_special text fmt st) = done_flag st
  /\ finished (controller (send_special text fmt st)) = finished (controller st).
Proof. unfold send_special. destruct (str_truthy text); split; reflexivity. Qed.

(** In [yield_data], once a done action has been processed (the flag of the
    function or of the controller is set), a later step carrying a done
    action puts its goal and memory messages on the queue and nothing else:
    no completion message, no report, no tool call. *)
Lemma yield_data_later_done_is_suppressed (agent_output : AgentOutput)
    (step_number : Z) (st : State) :
  has_done_action (action agent_output) = true ->
  done_flag st || finished (controller st) = true ->
  let st0 := match _done_processed st with
             | None => set_done_processed (Some false) st
             | Some _ => st
             end in
  let brain := current_state agent_output in
  yield_data repr basic_report uuid4 agent_output step_number st
  = send_special (next_goal brain) next_goal_message
      (send_special (memory brain) memory_message
         (if (2 <? step_number)%Z
          then send_special (evaluation_previous_goal brain) previous_goal_message st0
          else st0)).
Proof.
  intros Hdone Hflag st0 brain. unfold yield_data. cbv zeta. fold st0. fold brain.
  rewrite Hdone.
  set (st3 := send_special (next_goal brain) _ _).
  assert (Hsame : done_flag st3 || finished (controller st3)
                  = done_flag st || finished (controller st)).
  { subst st3.
    destruct (send_special_flags (next_goal brain) next_goal_message
                (send_special (memory brain) memory_message
                   (if (2 <? step_number)%Z
                    then send_special (evaluation_previous_goal brain)
                           previous_goal_message st0
                    else st0))) as [-> ->].
    destruct (send_special_flags (memory brain) memory_message
                (if (2 <? step_number)%Z
                 then send_special (evaluation_previous_goal brain)
                        previous_goal_message st0
                 else st0)) as [-> ->].
    assert (H0 : done_flag st0 = done_flag st
                 /\ finished (controller st0) = finished (controller st)).
    { subst st0. unfold done_flag.
      destruct (_done_processed st) eqn:Hp; cbn; rewrite ?Hp; split; reflexivity. }
    destruct (2 <? step_number)%Z.
    - destruct (send_special_flags (evaluation_previous_goal brain)
                  previous_goal_message st0) as [-> ->].
      destruct H0 as [-> ->]. reflexivity.
    - destruct H0 as [-> ->]. reflexivity. }
  rewrite Hsame, Hflag. reflexivity.
Qed.

Lemma force_display_report_queue (st : State) :
  queue (snd (force_display_report repr st)) = queue st.
Proof.
  unfold force_display_report, _get_current_session_metrics.
  destruct (controller_session_id st) as [sid|]; [|reflexivity].
  destruct (str_truthy sid); [|reflexivity].
  destruct (session_metrics_storage st !! sid); reflexivity.
Qed.

(** The [finally] block yields at most the saved final report once more and
    puts the HTML document and the sentinel on the queue; it never yields
    the HTML document. *)
Lemma finally_outcome (lp : Loop) (st : State) :
  queue (snd (finally repr lp st))
  = queue st ++ [AIMessage (fst (force_display_report repr st)) []; END]
  /\ yielded (fst (finally repr lp st))
     = yielded lp ++
       match final_report lp with
       | Some (content, tool_calls) =>
           [ if negb (str_truthy content && str_in "PERFORMANCE REPORT" content)
             then AIMessage (final_report_banner content) []
             else AIMessage content tool_calls ]
       | None => []
       end.
Proof.
  unfold finally. pose proof (force_display_report_queue st) as Hq.
  destruct (force_display_report repr st) as [html st1]. cbn [fst snd] in *.
  split.
  - destruct (_done_processed _); cbn; rewrite Hq, <- app_assoc; reflexivity.
  - destruct (final_report lp) as [[content tool_calls]|]; cbn.
    + destruct (negb _); reflexivity.
    + now rewrite app_nil_r.
Qed.

End streaming.

(** C3 (as the code behaves): the [finally] block builds the HTML report
    document but puts it, and the sentinel after it, on the run's queue,
    which nothing reads any more; it is not yielded.  On the cancellation
    path and on the too-many-failures path the output stream of the run is
    empty; on the completion path (a step with a done action) the output
    stream ends with the re-yielded completion message; in each case the
    HTML document and END are left behind on the queue. *)
Theorem C3_html_report_is_left_on_the_queue (repr : PyVal -> string)
    (basic_report : string -> PageData -> Res string) (uuid4 : nat -> string)
    (environ : gmap string string) :
  let run := fun events =>
    browser_use_agent repr basic_report uuid4 environ azure_config default_settings
                      user_history "s1" events state0 in
  let html := AIMessage (html_document no_data_available) [] in
  let completion := combined_done_message (done_block "ok")
                      (report_in_done_block no_performance_data) in
  (fst (run [Iterate cancelled]) = Ok (Break, [])
   /\ queue (snd (run [Iterate cancelled])) = [html; END])
  /\ (fst (run [Iterate failing]) = Ok (Break, [])
      /\ queue (snd (run [Iterate failing])) = [html; END])
  /\ (fst (run [Step (done_step "ok") 1; Iterate quiet])
      = Ok (Break, [AIMessage completion [];
                    AIMessage (final_report_banner completion) []])
      /\ queue (snd (run [Step (done_step "ok") 1; Iterate quiet]))
         = [StopDict; html; END]
      /\ AIMessage (final_report_banner completion) [] <> html).
Proof.
  cbv zeta. repeat split; try reflexivity.
  intros Heq. apply (f_equal (fun m => match m with
                                       | AIMessage c _ => String.length c
                                       | _ => O
                                       end)) in Heq.
  vm_compute in Heq. discriminate Heq.
Qed.

(** C6 (as the code behaves): a run whose first step carries a done action
    forwards two completion/report messages to its output stream: the loop
    yields the combined completion message and breaks, and the [finally]
    block yields the same report again under the FINAL PERFORMANCE REPORT
    banner.  Both are classified as done/report messages by the loop's own
    test, whatever the controller's state. *)
Theorem C6_report_is_forwarded_twice (repr : PyVal -> string)
    (basic_report : string -> PageData -> Res string) (uuid4 : nat -> string)
    (environ : gmap string string) :
  let run :=
    browser_use_agent repr basic_report uuid4 environ azure_config default_settings
                      user_history "s1" [Step (done_step "ok") 1; Iterate quiet] state0 in
  let first := combined_done_message (done_block "ok")
                 (report_in_done_block no_performance_data) in
  fst run = Ok (Break, [AIMessage first []; AIMessage (final_report_banner first) []])
  /\ (forall st, is_done_or_report_message (AIMessage first []) st = true)
  /\ (forall st, is_done_or_report_message (AIMessage (final_report_banner first) []) st
                 = true)
  /\ count_reports [AIMessage first []; AIMessage (final_report_banner first) []] = 2%nat.
Proof.
  cbv zeta. split; [reflexivity|].
  assert (H1 : str_truthy (combined_done_message (done_block "ok")
                 (report_in_done_block no_performance_data))
               && has_report_marker (combined_done_message (done_block "ok")
                    (report_in_done_block no_performance_data)) = true)
    by (vm_compute; reflexivity).
  assert (H2 : str_truthy (final_report_banner (combined_done_message (done_block "ok")
                 (report_in_done_block no_performance_data)))
               && has_report_marker (final_report_banner
                    (combined_done_message (done_block "ok")
                       (report_in_done_block no_performance_data))) = true)
    by (vm_compute; reflexivity).
  split; [|split].
  - intros st. unfold is_done_or_report_message. rewrite H1.
    now destruct (finished (controller st)).
  - intros st. unfold is_done_or_report_message. rewrite H2.
    now destruct (finished (controller st)).
  - unfold count_reports. cbn [List.filter report_like]. rewrite H1, H2. reflexivity.
Qed.

(** When the done step also carries a memory text, the controller is already
    finished when the loop reads the memory message: that message is the one
    taken as the completion message, the loop breaks on it, and nothing is
    yielded again by the [finally] block. *)
Lemma done_step_with_memory_forwards_the_memory_message (repr : PyVal -> string)
    (basic_report : string -> PageData -> Res string) (uuid4 : nat -> string)
    (environ : gmap string string) :
  fst (browser_use_agent repr basic_report uuid4 environ azure_config default_settings
         user_history "s1" [Step (done_step_with_memory "ok") 1; Iterate quiet] state0)
  = Ok (Break, [AIMessage (memory_message "Visited the home page") []]).
Proof. reflexivity. Qed.

(** ** The batch agent *)

(** With a well-formed history the batch agent does build a browser. *)
Lemma batch_valid_history_creates_browser (repr : PyVal -> string)
    (environ : gmap string string) :
  let run := browser_use_agent_batch repr environ azure_config default_settings
               [PDict [("role", PStr "user"); ("content", PStr "Analyze the page")]]
               "batch_1" silent_run state0 in
  browsers_created (snd run) = 1%nat /\ browsers_closed (snd run) = [0%nat].
Proof. cbv zeta. split; reflexivity. Qed.

(** C9: for a history whose last element is a dict without a "content" key
    the batch agent returns (it does not raise) the error string
    "Error: Invalid history format (missing 'content' key).", which contains
    "missing 'content' key", and leaves the whole module state as it was: no
    browser is built and no browser or context is registered for the
    session. *)
Theorem C9_batch_missing_content (repr : PyVal -> string)
    (environ : gmap string string) (model_config : Providers.ModelConfig)
    (agent_settings : Gateway.AgentSettings)
    (history : list PyVal) (sid : string) (run : BatchRun) (st : State)
    (item : list (string * PyVal)) :
  last history = Some (PDict item) ->
  dict_has "content" item = false ->
  let result := browser_use_agent_batch repr environ model_config agent_settings
                  history sid run st in
  (exists text, fst result = Ok text /\ str_in "missing 'content' key" text = true)
  /\ snd result = st
  /\ browsers_created (snd result) = browsers_created st
  /\ active_browsers (snd result) !! sid = active_browsers st !! sid
  /\ active_browser_contexts (snd result) !! sid = active_browser_contexts st !! sid.
Proof.
  intros Hlast Hmissing. unfold browser_use_agent_batch. rewrite Hlast.
  unfold dict_has in Hmissing.
  destruct (dict_get "content" item) as [v|]; [discriminate|]. cbn.
  split; [|repeat split]. exists history_missing_content. split; reflexivity.
Qed.

Lemma C9_batch_missing_content_witness :
  let result := browser_use_agent_batch repr0 ∅ azure_config default_settings
                  [PDict [("role", PStr "user"); ("content", PStr "first")];
                   PDict [("role", PStr "user"); ("text", PStr "no content here")]]
                  "batch_1" silent_run state0 in
  (exists text, fst result = Ok text /\ str_in "missing 'content' key" text = true)
  /\ snd result = state0
  /\ browsers_created (snd result) = browsers_created state0
  /\ active_browsers (snd result) !! "batch_1" = active_browsers state0 !! "batch_1"
  /\ active_browser_contexts (snd result) !! "batch_1"
     = active_browser_contexts state0 !! "batch_1".
Proof.
  apply (C9_batch_missing_content repr0 ∅ azure_config default_settings _ "batch_1"
           silent_run state0
           [("role", PStr "user"); ("text", PStr "no content here")]);
    reflexivity.
Defined.

(* ===================================================================== *)
(** * Further properties of the code *)
(* ===================================================================== *)

(** ** Substring search *)

Lemma append_cons (a : ascii) (s t : string) : String a s +:+ t = String a (s +:+ t).
Proof. reflexivity. Qed.

Lemma append_empty (t : string) : EmptyString +:+ t = t.
Proof. reflexivity. Qed.

Lemma starts_with_app (needle rest : string) :
  starts_with needle (needle +:+ rest) = true.
Proof.
  induction needle as [|a needle IH]; [reflexivity|].
  rewrite append_cons. cbn [starts_with]. now rewrite Ascii.eqb_refl, IH.
Qed.

Lemma starts_with_app_l (needle a b : string) :
  starts_with needle a = true -> starts_with needle (a +:+ b) = true.
Proof.
  revert a. induction needle as [|c needle IH]; intros a; [reflexivity|].
  destruct a as [|c' a]; [discriminate|].
  rewrite append_cons. cbn [starts_with].
  rewrite !andb_true_iff. intros [Hc Hrest]. split; [exact Hc | now apply IH].
Qed.

Lemma str_in_app_l (needle a b : string) :
  str_in needle a = true -> str_in needle (a +:+ b) = true.
Proof.
  induction a as [|c a IH].
  - cbn [str_in]. rewrite orb_false_r. destruct needle; [|discriminate]. intros _.
    rewrite append_empty. destruct b; reflexivity.
  - rewrite append_cons. cbn [str_in]. rewrite !orb_true_iff. intros [Hs | Hin].
    + left. rewrite <- append_cons. now apply starts_with_app_l.
    + right. now apply IH.
Qed.

Lemma str_in_app_r (needle a b : string) :
  str_in needle b = true -> str_in needle (a +:+ b) = true.
Proof.
  intros Hb. induction a as [|c a IH]; [exact Hb|].
  rewrite append_cons. cbn [str_in]. rewrite IH. apply orb_true_r.
Qed.

Lemma str_truthy_app_l (a b : string) :
  str_truthy a = true -> str_truthy (a +:+ b) = true.
Proof. destruct a; [discriminate | reflexivity]. Qed.

(** ** The loop of the streaming agent: what it forwards, and in what order *)

(** While the controller is not finished, the loop's classifier is the
    marker test. *)
Lemma is_done_when_not_finished (data : QueueItem) (st : State) :
  finished (controller st) = false ->
  is_done_or_report_message data st = report_like data.
Proof.
  intros Hf. destruct data as [content [|tc tcs]| | |]; cbn; try reflexivity.
  now rewrite Hf.
Qed.

Lemma iteration_forwards_ordinary (p : Poll) (lp : Loop) (st : State)
    (data : QueueItem) (rest : list QueueItem) :
  calm p -> ordinary data ->
  finished (controller st) = false ->
  queue st = data :: rest ->
  pending_special_messages lp = [] ->
  iteration p lp st = (Continue, yield data lp, set_queue rest st).
Proof.
  intros (Hc & Hf & Hp) [Hend Hrep] Hfin Hq Hpend. unfold iteration.
  rewrite Hc, Hf, Hq, Hend, Hpend, andb_false_r.
  rewrite (is_done_when_not_finished data (set_queue rest st)) by exact Hfin.
  rewrite Hrep. cbn [andb]. rewrite Hp.
  destruct (is_special_message data).
  - now rewrite orb_true_r.
  - cbn [finished controller set_queue]. rewrite Hfin, andb_false_r. reflexivity.
Qed.

Section loop_order.
Variable repr : PyVal -> string.
Variable basic_report : string -> PageData -> Res string.
Variable uuid4 : nat -> string.

Lemma consume_forwards_ordinary (items : list QueueItem) :
  forall (polls : list Poll) (lp : Loop) (st : State),
    length polls = length items ->
    Forall calm polls -> Forall ordinary items ->
    finished (controller st) = false ->
    queue st = items ->
    pending_special_messages lp = [] ->
    consume repr basic_report uuid4 (map Iterate polls) lp st
    = (Continue,
       {| done_called := done_called lp; final_report := final_report lp;
          pending_special_messages := []; has_pending_messages := has_pending_messages lp;
          yielded := yielded lp ++ items |},
       set_queue [] st).
Proof.
  induction items as [|data items IH]; intros polls lp st Hlen Hcalm Hord Hfin Hq Hpend.
  - destruct polls; [|discriminate]. cbn. rewrite app_nil_r.
    destruct lp, st; cbn in *; subst; reflexivity.
  - destruct polls as [|p polls]; [discriminate|].
    inversion Hcalm as [|? ? Hp Hcalm']; subst. inversion Hord as [|? ? Hd Hord']; subst.
    cbn [map consume].
    rewrite (iteration_forwards_ordinary p lp st data items Hp Hd Hfin Hq Hpend).
    rewrite (IH polls (yield data lp) (set_queue items st)); try assumption; try reflexivity.
    + cbn. rewrite <- app_assoc. reflexivity.
    + now injection Hlen.
Qed.

(** X1: With the controller not finished and the agent not paused, the loop
    forwards the queued items that are neither END nor reports to the output
    stream, all of them and in queue order, and goes on waiting. *)
Theorem loop_forwards_ordinary_items_in_order (polls : list Poll)
    (items : list QueueItem) (st : State) :
  length polls = length items ->
  Forall calm polls -> Forall ordinary items ->
  finished (controller st) = false ->
  queue st = items ->
  let result := consume repr basic_report uuid4 (map Iterate polls) loop0 st in
  fst (fst result) = Continue
  /\ yielded (snd (fst result)) = items
  /\ queue (snd result) = [].
Proof.
  intros Hlen Hcalm Hord Hfin Hq result. subst result.
  rewrite (consume_forwards_ordinary items polls loop0 st Hlen Hcalm Hord Hfin Hq eq_refl).
  repeat split.
Qed.

End loop_order.

Lemma iteration_holds_special (p : Poll) (lp : Loop) (st : State)
    (data : QueueItem) (rest : list QueueItem) :
  held_back p -> ordinary data -> is_special_message data = true ->
  finished (controller st) = false ->
  _agent_resumed st = false ->
  queue st = data :: rest ->
  iteration p lp st = (Continue, hold data lp, set_queue rest st).
Proof.
  intros (Hc & Hf & Hp) [Hend Hrep] Hsp Hfin Hres Hq. unfold iteration.
  rewrite Hc, Hf, Hq, Hend. cbn [_agent_resumed set_queue]. rewrite Hres. cbn [andb].
  rewrite (is_done_when_not_finished data (set_queue rest st)) by exact Hfin.
  rewrite Hrep. cbn [andb]. rewrite Hsp, Hp. reflexivity.
Qed.

Section loop_pause.
Variable repr : PyVal -> string.
Variable basic_report : string -> PageData -> Res string.
Variable uuid4 : nat -> string.

Lemma consume_app (events1 events2 : list Event) :
  forall (lp : Loop) (st : State),
    consume repr basic_report uuid4 (events1 ++ events2) lp st
    = match consume repr basic_report uuid4 events1 lp st with
      | (Continue, lp', st') => consume repr basic_report uuid4 events2 lp' st'
      | stopped => stopped
      end.
Proof.
  induction events1 as [|ev events1 IH]; intros lp st; [reflexivity|].
  destruct ev; cbn [app consume]; try apply IH.
  destruct (iteration p lp st) as [[[|] lp'] st']; [apply IH | reflexivity].
Qed.

Lemma consume_holds_special (items : list QueueItem) :
  forall (polls : list Poll) (lp : Loop) (st : State) (rest : list QueueItem),
    length polls = length items ->
    Forall held_back polls -> Forall ordinary items ->
    Forall (fun d => is_special_message d = true) items ->
    finished (controller st) = false ->
    _agent_resumed st = false ->
    queue st = items ++ rest ->
    consume repr basic_report uuid4 (map Iterate polls) lp st
    = (Continue,
       {| done_called := done_called lp; final_report := final_report lp;
          pending_special_messages := pending_special_messages lp ++ items;
          has_pending_messages :=
            match items with [] => has_pending_messages lp | _ :: _ => true end;
          yielded := yielded lp |},
       set_queue rest st).
Proof.
  induction items as [|data items IH];
    intros polls lp st rest Hlen Hheld Hord Hsp Hfin Hres Hq.
  - destruct polls; [|discriminate]. cbn. rewrite app_nil_r.
    destruct lp, st; cbn in *; subst; reflexivity.
  - destruct polls as [|p polls]; [discriminate|].
    inversion Hheld as [|? ? Hp Hheld']; subst. inversion Hord as [|? ? Hd Hord']; subst.
    inversion Hsp as [|? ? Hs Hsp']; subst.
    cbn [map consume].
    rewrite (iteration_holds_special p lp st data (items ++ rest) Hp Hd Hs Hfin Hres Hq).
    rewrite (IH polls (hold data lp) (set_queue (items ++ rest) st) rest);
      try assumption; try reflexivity.
    + cbn. rewrite <- app_assoc. cbn. destruct items; reflexivity.
    + now injection Hlen.
Qed.


End loop_pause.

(** ** How many reports a finished run forwards *)

Lemma count_reports_snoc (l : list QueueItem) (x : QueueItem) :
  count_reports (l ++ [x]) = (count_reports l + if report_like x then 1 else 0)%nat.
Proof.
  rewrite count_reports_app. unfold count_reports at 2. cbn [List.filter].
  destruct (report_like x); reflexivity.
Qed.

Lemma banner_is_report_like (content : string) :
  report_like (AIMessage (final_report_banner content) []) = true.
Proof.
  unfold report_like, final_report_banner, has_report_marker.
  rewrite str_truthy_app_l by reflexivity.
  rewrite (str_in_app_l "PERFORMANCE REPORT") by (vm_compute; reflexivity).
  now rewrite orb_true_r.
Qed.

Lemma is_done_shape (data : QueueItem) (st : State) :
  is_done_or_report_message data st = true ->
  exists content, data = AIMessage content [].
Proof.
  destruct data as [content [|tc tcs]| | |]; cbn; try discriminate.
  intros _. now exists content.
Qed.

Lemma iteration_final_report_invariant (p : Poll) (lp : Loop) (st : State) :
  report_invariant lp -> final_report_invariant lp ->
  final_report_invariant (snd (fst (iteration p lp st))).
Proof.
  intros Hinv Hfr. unfold iteration.
  destruct (cancel_set p); [exact Hfr|].
  destruct (too_many_failures p); [exact Hfr|].
  assert (Hrel : report_invariant (release_pending lp)
                 /\ final_report_invariant (release_pending lp)).
  { split; [now apply release_pending_invariant|].
    unfold final_report_invariant, release_pending in *.
    cbn [final_report yielded done_called].
    destruct (final_report lp) as [[c tcs]|]; [|exact I].
    destruct Hfr as (? & ? & ? & Hcount & ?). repeat split; try assumption.
    rewrite count_reports_app, (count_reports_none _ (proj2 Hinv)). lia. }
  destruct (queue st) as [|data rest] eqn:Hq; cbn [fst snd].
  - destruct (_ && _); [exact (proj2 Hrel) | exact Hfr].
  - cbv zeta. destruct (is_END data); [exact Hfr|].
    set (lp1 := if _ && _ then release_pending lp else lp).
    assert (Hinv1 : report_invariant lp1 /\ final_report_invariant lp1).
    { subst lp1. destruct (_ && _); [exact Hrel | split; assumption]. }
    clearbody lp1. clear Hinv Hfr Hrel lp. destruct Hinv1 as [Hinv Hfr].
    destruct (is_done_or_report_message data (set_queue rest st)) eqn:Hdone; cbn [andb].
    + destruct (done_called lp1) eqn:Hcalled; [exact Hfr|].
      destruct (is_done_shape _ _ Hdone) as [content ->].
      assert (Hnone : final_report lp1 = None).
      { unfold final_report_invariant in Hfr.
        destruct (final_report lp1) as [[c tcs]|]; [|reflexivity].
        destruct Hfr as (_ & _ & _ & _ & Hd). congruence. }
      destruct Hinv as [Hc Hp]. rewrite Hcalled in Hc.
      assert (Hres : final_report_invariant
                (yield (AIMessage content [])
                   {| done_called := true;
                      final_report :=
                        if str_truthy content && str_in "📊" content
                        then Some (content, []) else final_report lp1;
                      pending_special_messages := pending_special_messages lp1;
                      has_pending_messages := has_pending_messages lp1;
                      yielded := yielded lp1 |})).
      { unfold final_report_invariant, yield. cbn [final_report yielded done_called].
        destruct (str_truthy content && str_in "📊" content) eqn:Hmark.
        - apply andb_true_iff in Hmark. destruct Hmark as [Ht Hm].
          repeat split; try assumption.
          rewrite count_reports_snoc. unfold report_like, has_report_marker.
          rewrite Ht, Hm. cbn. lia.
        - now rewrite Hnone. }
      destruct (stop_raises p); exact Hres.
    + pose proof (not_done_not_report_like _ _ Hdone) as Hnot.
      assert (Hy : final_report_invariant (yield data lp1)).
      { unfold final_report_invariant, yield in *. cbn [final_report yielded done_called].
        destruct (final_report lp1) as [[c tcs]|]; [|exact I].
        destruct Hfr as (? & ? & ? & Hcount & ?). repeat split; try assumption.
        rewrite count_reports_snoc, Hnot. lia. }
      destruct (is_special_message data).
      * destruct (_ || _); cbn; [exact Hy | exact Hfr].
      * destruct (negb _); cbn; [exact Hy | exact Hfr].
Qed.

Section report_count.
Variable repr : PyVal -> string.
Variable basic_report : string -> PageData -> Res string.
Variable uuid4 : nat -> string.

Lemma consume_final_report_invariant (events : list Event) :
  forall (lp : Loop) (st : State),
    report_invariant lp -> final_report_invariant lp ->
    final_report_invariant (snd (fst (consume repr basic_report uuid4 events lp st))).
Proof.
  induction events as [|ev events IH]; intros lp st Hinv Hfr; [exact Hfr|].
  destruct ev; cbn [consume]; try (apply IH; assumption).
  pose proof (iteration_invariant p lp st Hinv) as Hit.
  pose proof (iteration_final_report_invariant p lp st Hinv Hfr) as Hit2.
  destruct (iteration p lp st) as [[[|] lp'] st']; cbn [fst snd] in *.
  - apply IH; assumption.
  - exact Hit2.
Qed.

(** X3: Whatever the callbacks and the runtime do during a run: when the loop
    has saved a final report, the output stream after the [finally] block
    carries exactly two report messages (the saved one and its repetition);
    when it has saved none, the [finally] block yields nothing and the
    output carries at most one. *)
Theorem finished_run_forwards_one_or_two_reports (events : list Event) (st : State) :
  let run := consume repr basic_report uuid4 events loop0 st in
  let lp := snd (fst run) in
  let out := yielded (fst (finally repr lp (snd run))) in
  match final_report lp with
  | Some _ => count_reports out = 2%nat
  | None => out = yielded lp /\ (count_reports out <= 1)%nat
  end.
Proof.
  intros run lp out.
  assert (Hinv0 : report_invariant loop0) by (split; [cbn; lia | constructor]).
  pose proof (consume_invariant repr basic_report uuid4 events loop0 st Hinv0) as Hinv.
  pose proof (consume_final_report_invariant events loop0 st Hinv0 I) as Hfr.
  fold run in Hinv, Hfr. fold lp in Hinv, Hfr.
  destruct (finally_outcome repr lp (snd run)) as [_ Hout]. fold out in Hout.
  unfold final_report_invariant in Hfr.
  destruct (final_report lp) as [[content tcs]|].
  - destruct Hfr as (-> & Ht & Hm & Hcount & _). rewrite Hout, count_reports_snoc, Hcount.
    destruct (negb (str_truthy content && str_in "PERFORMANCE REPORT" content)) eqn:Hpr.
    + now rewrite banner_is_report_like.
    + apply negb_false_iff in Hpr. unfold report_like, has_report_marker.
      rewrite Ht, Hm. reflexivity.
  - rewrite Hout, app_nil_r. split; [reflexivity|].
    destruct Hinv as [Hc _]. destruct (done_called lp); lia.
Qed.

End report_count.

(** ** The metrics store *)

Lemma dict_get_set_eq {V} (k : string) (v : V) (d : list (string * V)) :
  dict_get k (dict_set k v d) = Some v.
Proof.
  induction d as [|[k' v'] d IH]; cbn; [now rewrite String.eqb_refl|].
  destruct (String.eqb k k') eqn:Hk; cbn; [now rewrite String.eqb_refl | now rewrite Hk].
Qed.

Lemma dict_get_set_ne {V} (k k' : string) (v : V) (d : list (string * V)) :
  k <> k' -> dict_get k' (dict_set k v d) = dict_get k' d.
Proof.
  intros Hne. assert (Hk' : String.eqb k' k = false) by (apply String.eqb_neq; congruence).
  induction d as [|[k0 v0] d IH]; cbn; [now rewrite Hk'|].
  destruct (String.eqb k k0) eqn:Hk; cbn.
  - apply String.eqb_eq in Hk. subst k0. now rewrite Hk'.
  - now rewrite IH.
Qed.


Lemma only_storage_refl (st : State) : only_storage st st.
Proof. exists (session_metrics_storage st). now destruct st. Qed.

Lemma only_storage_trans (st1 st2 st3 : State) :
  only_storage st1 st2 -> only_storage st2 st3 -> only_storage st1 st3.
Proof. intros [m ->] [m' ->]. now exists m'. Qed.

Lemma only_storage_fields (st st' : State) :
  only_storage st st' ->
  controller st' = controller st /\ queue st' = queue st
  /\ _done_processed st' = _done_processed st /\ timers st' = timers st
  /\ _agent_resumed st' = _agent_resumed st
  /\ active_browsers st' = active_browsers st
  /\ active_browser_contexts st' = active_browser_contexts st
  /\ browsers_created st' = browsers_created st
  /\ browsers_closed st' = browsers_closed st /\ uuids st' = uuids st.
Proof. intros [m ->]. repeat split. Qed.

Lemma get_metrics_only_storage (st : State) :
  only_storage st (snd (_get_current_session_metrics st)).
Proof.
  unfold _get_current_session_metrics.
  destruct (controller_session_id st) as [sid|]; [|apply only_storage_refl].
  destruct (str_truthy sid); [|apply only_storage_refl].
  destruct (session_metrics_storage st !! sid); [apply only_storage_refl|].
  now eexists.
Qed.

Lemma store_metric_only_storage (url metric_type : string) (data : PyVal) (st : State) :
  only_storage st (_store_metric url metric_type data st).
Proof.
  unfold _store_metric.
  destruct (controller_session_id st) as [sid|]; [|apply only_storage_refl].
  destruct (str_truthy sid); [|apply only_storage_refl].
  pose proof (get_metrics_only_storage st) as H.
  destruct (_get_current_session_metrics st) as [pages st1]. cbn in H.
  eapply only_storage_trans; [exact H|]. now eexists.
Qed.

(** Reading the current session's metrics: with a session bound, the pages
    are the stored ones (none when the session has no entry yet). *)
Lemma get_metrics_bound (sid : string) (st : State) :
  controller_session_id st = Some sid -> str_truthy sid = true ->
  fst (_get_current_session_metrics st)
  = default [] (session_metrics_storage st !! sid).
Proof.
  intros Hsid Ht. unfold _get_current_session_metrics. rewrite Hsid, Ht.
  now destruct (session_metrics_storage st !! sid).
Qed.

Lemma metric_of_set_eq (pages : Pages) (url metric_type : string) (data : PyVal) :
  metric_of (dict_set url (dict_set metric_type data (default [] (dict_get url pages))) pages)
            url metric_type = Some data.
Proof. unfold metric_of. rewrite dict_get_set_eq. cbn. apply dict_get_set_eq. Qed.

Lemma metric_of_set_ne (pages : Pages) (url metric_type url' metric_type' : string)
    (data : PyVal) :
  (url', metric_type') <> (url, metric_type) ->
  metric_of (dict_set url (dict_set metric_type data (default [] (dict_get url pages))) pages)
            url' metric_type'
  = metric_of pages url' metric_type'.
Proof.
  intros Hne. unfold metric_of.
  destruct (String.eqb url url') eqn:Hu.
  - apply String.eqb_eq in Hu. subst url'. rewrite dict_get_set_eq. cbn.
    rewrite dict_get_set_ne by congruence.
    now destruct (dict_get url pages).
  - apply String.eqb_neq in Hu. now rewrite dict_get_set_ne.
Qed.

(** X4: [_store_metric] followed by a read: with a session bound, the datum is
    found under its page and metric type, every other metric of the session
    reads as before, and the other sessions' entries are untouched. *)
Theorem store_metric_then_read (sid url metric_type : string) (data : PyVal)
    (st : State) :
  controller_session_id st = Some sid -> str_truthy sid = true ->
  let before := fst (_get_current_session_metrics st) in
  let st' := _store_metric url metric_type data st in
  let after := fst (_get_current_session_metrics st') in
  metric_of after url metric_type = Some data
  /\ (forall url' metric_type',
        (url', metric_type') <> (url, metric_type) ->
        metric_of after url' metric_type' = metric_of before url' metric_type')
  /\ (forall sid', sid' <> sid ->
        session_metrics_storage st' !! sid' = session_metrics_storage st !! sid').
Proof.
  intros Hsid Ht before st' after.
  assert (Hst' : st' = set_storage
            (<[sid := dict_set url (dict_set metric_type data
                                       (default [] (dict_get url before))) before]>
               (session_metrics_storage (snd (_get_current_session_metrics st))))
            (snd (_get_current_session_metrics st))).
  { subst st' before. unfold _store_metric. rewrite Hsid, Ht.
    now destruct (_get_current_session_metrics st). }
  assert (Hafter : after = dict_set url (dict_set metric_type data
                                          (default [] (dict_get url before))) before).
  { assert (Hsid' : controller_session_id st' = Some sid).
    { destruct (only_storage_fields _ _ (store_metric_only_storage url metric_type data st))
        as [Hc _]. fold st' in Hc. unfold controller_session_id. now rewrite Hc. }
    subst after. rewrite (get_metrics_bound sid st' Hsid' Ht).
    rewrite Hst'. cbn [session_metrics_storage set_storage].
    now rewrite lookup_insert_eq. }
  rewrite Hafter. split; [apply metric_of_set_eq|]. split.
  - intros url' metric_type' Hne. now apply metric_of_set_ne.
  - intros sid' Hne. rewrite Hst'. cbn [session_metrics_storage set_storage].
    rewrite lookup_insert_ne by congruence.
    unfold _get_current_session_metrics. rewrite Hsid, Ht.
    destruct (session_metrics_storage st !! sid) eqn:Hl; [reflexivity|].
    cbn. now rewrite lookup_insert_ne by congruence.
Qed.

(** ** The report builders *)

Lemma get_metrics_idempotent (st : State) :
  _get_current_session_metrics (snd (_get_current_session_metrics st))
  = _get_current_session_metrics st.
Proof.
  unfold _get_current_session_metrics.
  destruct (controller_session_id st) as [sid|] eqn:Hsid; cbn; [|now rewrite Hsid].
  destruct (str_truthy sid) eqn:Ht; cbn; [|now rewrite Hsid, Ht].
  destruct (session_metrics_storage st !! sid) eqn:Hl; cbn.
  - now rewrite Hsid, Ht, Hl.
  - unfold controller_session_id in *. cbn. now rewrite Hsid, Ht, lookup_insert_eq.
Qed.

Lemma find_full_report_after_store (pages : Pages) (url : string) (v : PyVal) :
  find_full_report pages = None ->
  find_full_report
    (dict_set url (dict_set "full_report" v (default [] (dict_get url pages))) pages)
  = Some (url, v).
Proof.
  induction pages as [|[u page] pages IH]; cbn.
  - intros _. reflexivity.
  - destruct (dict_get "full_report" page) eqn:Hfr; [discriminate|]. intros Hnone.
    destruct (String.eqb url u) eqn:Hu; cbn.
    + now rewrite dict_get_set_eq.
    + rewrite Hfr. now apply IH.
Qed.

Lemma best_page_nonempty (pages : Pages) (best : option (string * PageData)) :
  best_page pages best <> best -> pages <> [].
Proof. destruct pages; [cbn; congruence | discriminate]. Qed.

Section report_builders.
Variable repr : PyVal -> string.
Variable basic_report : string -> PageData -> Res string.

Lemma show_metrics_only_storage (st : State) :
  only_storage st (snd (show_performance_metrics basic_report st)).
Proof.
  unfold show_performance_metrics.
  pose proof (get_metrics_only_storage st) as H.
  destruct (_get_current_session_metrics st) as [pages st1]. cbn [snd] in H.
  destruct (find_full_report pages) as [[u r]|]; [exact H|].
  destruct (best_page pages None) as [[bu bm]|]; [|exact H].
  destruct (_ && _); [|exact H].
  destruct (basic_report bu bm); [|exact H].
  eapply only_storage_trans; [exact H | apply store_metric_only_storage].
Qed.

(** X5: [show_performance_metrics] generates a report at most once: a second
    call returns what the first returned and changes nothing. *)
Theorem show_performance_metrics_is_idempotent (st : State) :
  let first := show_performance_metrics basic_report st in
  show_performance_metrics basic_report (snd first) = first.
Proof.
  cbv zeta. unfold show_performance_metrics at 2 3.
  pose proof (get_metrics_idempotent st) as Hidem.
  destruct (_get_current_session_metrics st) as [pages st1] eqn:Hget. cbn [snd] in Hidem.
  assert (Hsame : show_performance_metrics basic_report st1
                  = match find_full_report pages with
                    | Some (_, full_report) => (full_report, st1)
                    | None =>
                        match best_page pages None with
                        | Some (best_url, best_metrics) =>
                            if str_truthy best_url && py_truthy (PDict best_metrics)
                            then
                              match basic_report best_url best_metrics with
                              | Ok report =>
                                  (PStr report,
                                   _store_metric best_url "full_report" (PStr report) st1)
                              | Raise e => (PStr (show_metrics_error (exc_str e)), st1)
                              end
                            else (PStr no_performance_data, st1)
                        | None => (PStr no_performance_data, st1)
                        end
                    end).
  { unfold show_performance_metrics. now rewrite Hidem. }
  destruct (find_full_report pages) as [[u r]|] eqn:Hfr; [exact Hsame|].
  destruct (best_page pages None) as [[bu bm]|] eqn:Hbest; [|exact Hsame].
  destruct (str_truthy bu && py_truthy (PDict bm)); [|exact Hsame].
  destruct (basic_report bu bm) as [report|e]; [|exact Hsame].
  clear Hsame. cbn [snd].
  (* the pages are not empty, so a session is bound and has an entry *)
  assert (Hne : pages <> []).
  { apply (best_page_nonempty pages None). congruence. }
  unfold _get_current_session_metrics in Hget.
  destruct (controller_session_id st) as [sid|] eqn:Hsid;
    [|injection Hget as <- _; congruence].
  destruct (str_truthy sid) eqn:Ht; [|injection Hget as <- _; congruence].
  destruct (session_metrics_storage st !! sid) as [stored|] eqn:Hl;
    [|injection Hget as <- _; congruence].
  injection Hget as -> <-.
  assert (Hget : _get_current_session_metrics st = (pages, st)).
  { unfold _get_current_session_metrics. now rewrite Hsid, Ht, Hl. }
  set (pages' := dict_set bu (dict_set "full_report" (PStr report)
                                (default [] (dict_get bu pages))) pages).
  assert (Hst2 : _store_metric bu "full_report" (PStr report) st
                 = set_storage (<[sid := pages']> (session_metrics_storage st)) st).
  { unfold _store_metric. now rewrite Hsid, Ht, Hget. }
  rewrite Hst2.
  assert (Hget2 : _get_current_session_metrics
                    (set_storage (<[sid := pages']> (session_metrics_storage st)) st)
                  = (pages', set_storage (<[sid := pages']> (session_metrics_storage st)) st)).
  { unfold _get_current_session_metrics, controller_session_id in *. cbn.
    now rewrite Hsid, Ht, lookup_insert_eq. }
  unfold show_performance_metrics. rewrite Hget2.
  subst pages'. now rewrite (find_full_report_after_store pages bu (PStr report) Hfr).
Qed.

End report_builders.

Ltac find_marker :=
  repeat first
    [ reflexivity
    | apply str_in_app_l; vm_compute; reflexivity
    | apply str_in_app_r ].

Lemma report_block_markers (full_report : string) :
  str_truthy (report_block full_report) = true
  /\ str_in "<div" (report_block full_report) = true
  /\ str_in "PERFORMANCE REPORT" (report_block full_report) = true.
Proof. unfold report_block. repeat split; find_marker. Qed.

Lemma no_report_block_markers :
  str_truthy no_report_block = true
  /\ str_in "<div" no_report_block = true
  /\ str_in "PERFORMANCE REPORT" no_report_block = true.
Proof. repeat split; vm_compute; reflexivity. Qed.

Lemma marked_message_is_report (content : string) :
  str_truthy content = true -> has_report_marker content = true ->
  report_like (AIMessage content []) = true
  /\ forall st, is_done_or_report_message (AIMessage content []) st = true.
Proof.
  intros Ht Hm. unfold report_like, is_done_or_report_message. rewrite Ht, Hm.
  split; [reflexivity|]. intros st. now destruct (finished (controller st)).
Qed.

Lemma has_marker_div (content : string) :
  str_in "<div" content = true -> has_report_marker content = true.
Proof. intros H. unfold has_report_marker. rewrite H. now rewrite orb_true_r. Qed.

Lemma has_marker_title (content : string) :
  str_in "PERFORMANCE REPORT" content = true -> has_report_marker content = true.
Proof. intros H. unfold has_report_marker. rewrite H. now rewrite orb_true_r. Qed.

Lemma has_marker_app_r (a b : string) :
  has_report_marker b = true -> has_report_marker (a +:+ b) = true.
Proof.
  unfold has_report_marker. rewrite !orb_true_iff. intros [[H|H]|H].
  - left. left. now apply str_in_app_r.
  - left. right. now apply str_in_app_r.
  - right. now apply str_in_app_r.
Qed.

Section report_markers.
Variable repr : PyVal -> string.
Variable basic_report : string -> PageData -> Res string.

Lemma display_report_only_storage (st : State) :
  only_storage st (snd (display_performance_report repr basic_report st)).
Proof.
  unfold display_performance_report.
  pose proof (get_metrics_only_storage st) as H.
  destruct (_get_current_session_metrics st) as [pages st1]. cbn [snd] in H.
  destruct (find_full_report pages) as [[u r]|]; [exact H|].
  pose proof (show_metrics_only_storage basic_report st1) as H1.
  destruct (show_performance_metrics basic_report st1) as [report st2]. cbn [snd] in H1.
  destruct (py_truthy report); eapply only_storage_trans; eassumption.
Qed.

Lemma display_report_markers (st : State) :
  let text := fst (display_performance_report repr basic_report st) in
  str_truthy text = true /\ str_in "<div" text = true
  /\ str_in "PERFORMANCE REPORT" text = true.
Proof.
  cbv zeta. unfold display_performance_report.
  destruct (_get_current_session_metrics st) as [pages st1].
  destruct (find_full_report pages) as [[u r]|]; [apply report_block_markers|].
  destruct (show_performance_metrics basic_report st1) as [report st2].
  destruct (py_truthy report); [apply report_block_markers | apply no_report_block_markers].
Qed.

(** X6: Whatever is in the metrics store, the text of
    [display_performance_report] and the document of [force_display_report]
    are not empty and carry the report markers, so the loop of the streaming
    agent takes any message made of them for a report, whatever the
    controller's flag; neither function touches anything but the store. *)
Theorem report_texts_always_carry_the_markers (st st_loop : State) :
  let text := fst (display_performance_report repr basic_report st) in
  let html := fst (force_display_report repr st) in
  is_done_or_report_message (AIMessage text []) st_loop = true
  /\ is_done_or_report_message (AIMessage html []) st_loop = true
  /\ only_storage st (snd (display_performance_report repr basic_report st))
  /\ only_storage st (snd (force_display_report repr st)).
Proof.
  cbv zeta. split; [|split; [|split]].
  - destruct (display_report_markers st) as (Ht & Hd & _).
    apply (marked_message_is_report _ Ht (has_marker_div _ Hd)).
  - unfold force_display_report.
    destruct (_get_current_session_metrics st) as [pages st1]. cbn [fst].
    apply marked_message_is_report.
    + unfold html_document. now apply str_truthy_app_l.
    + apply has_marker_title. unfold html_document. find_marker.
  - apply display_report_only_storage.
  - unfold force_display_report.
    pose proof (get_metrics_only_storage st) as H.
    now destruct (_get_current_session_metrics st).
Qed.

Lemma display_report_is_report_like (st : State) :
  report_like (AIMessage (fst (display_performance_report repr basic_report st)) []) = true.
Proof.
  destruct (display_report_markers st) as (Ht & Hd & _).
  apply (marked_message_is_report _ Ht (has_marker_div _ Hd)).
Qed.

(** ** The completion callback *)

Lemma yield_done_after_completion (st : State) :
  done_flag st || finished (controller st) = true ->
  queue (yield_done repr basic_report st) = queue st.
Proof.
  intros H. unfold yield_done. destruct (done_flag st); [reflexivity|].
  cbn in H. rewrite H. reflexivity.
Qed.


End report_markers.

(** ** The resume endpoint: locks and outcomes *)

(** X8: Whatever a resume request finds and however the underlying resume logic
    answers, the request leaves every other session's lock and timestamp as
    they were, never leaves the session's own lock held unless it was held
    already, and calls the underlying resume logic at most twice. *)
Theorem resume_session_keeps_to_its_session (resume_execution : nat -> Gateway.Outcome)
    (sid : string) (now : Q) (lock_released : bool) (st : Gateway.ResumeState) :
  let st' := snd (Gateway.resume_session resume_execution sid now lock_released st) in
  (forall sid', sid' <> sid ->
     Gateway.session_locks st' !! sid' = Gateway.session_locks st !! sid'
     /\ Gateway.session_last_resume st' !! sid' = Gateway.session_last_resume st !! sid')
  /\ (Gateway.session_locks st' !! sid = Some true ->
      Gateway.session_locks st !! sid = Some true)
  /\ (Gateway.resume_calls st <= Gateway.resume_calls st'
      <= Gateway.resume_calls st + 2)%nat.
Proof.
  unfold Gateway.resume_session.
  destruct (Gateway.in_cooldown now st sid).
  { cbn. repeat split; auto; lia. }
  set (st1 := match Gateway.session_locks st !! sid with
              | Some _ => st
              | None => Gateway.set_lock sid false st
              end).
  assert (Hst1 : (forall sid', sid' <> sid ->
                    Gateway.session_locks st1 !! sid' = Gateway.session_locks st !! sid')
                 /\ Gateway.session_last_resume st1 = Gateway.session_last_resume st
                 /\ Gateway.resume_calls st1 = Gateway.resume_calls st
                 /\ (Gateway.session_locks st1 !! sid = Some true ->
                     Gateway.session_locks st !! sid = Some true)).
  { subst st1. destruct (Gateway.session_locks st !! sid) eqn:Hl.
    - repeat split; auto. now rewrite Hl.
    - cbn. repeat split; auto.
      + intros sid' Hne. now rewrite lookup_insert_ne.
      + rewrite lookup_insert_eq. discriminate. }
  destruct Hst1 as (Hlocks & Hlast & Hcalls & Hheld).
  destruct (default false (Gateway.session_locks st1 !! sid) && negb lock_released).
  { cbn. rewrite Hlast, Hcalls. repeat split; auto; lia. }
  match goal with
  | |- context [Gateway.attempts ?re ?n ?r ?le ?s] =>
      pose proof (attempts_state re n r le s) as Hatt;
      destruct (Gateway.attempts re n r le s) as [r3 st3]
  end.
  cbn in Hatt. destruct Hatt as (Hl3 & Ht3 & Hc3 & _).
  assert (Hgoal : forall st4, st4 = Gateway.set_lock sid false st3 ->
            (forall sid', sid' <> sid ->
               Gateway.session_locks st4 !! sid' = Gateway.session_locks st !! sid'
               /\ Gateway.session_last_resume st4 !! sid'
                  = Gateway.session_last_resume st !! sid')
            /\ (Gateway.session_locks st4 !! sid = Some true ->
                Gateway.session_locks st !! sid = Some true)
            /\ (Gateway.resume_calls st <= Gateway.resume_calls st4
                <= Gateway.resume_calls st + 2)%nat).
  { intros st4 ->. cbn. rewrite Hl3, Ht3. split; [|split].
    - intros sid' Hne. rewrite !lookup_insert_ne by congruence.
      rewrite Hlast. split; [now apply Hlocks | reflexivity].
    - rewrite lookup_insert_eq. discriminate.
    - lia. }
  destruct r3; cbn [snd]; now apply Hgoal.
Qed.

(** A request that is not answered from the cooldown and obtains the lock
    answers from the retry loop and leaves the lock free. *)
Lemma resume_session_through_attempts (resume_execution : nat -> Gateway.Outcome)
    (sid : string) (now : Q) (lock_released : bool) (st : Gateway.ResumeState) :
  Gateway.in_cooldown now st sid = false ->
  (Gateway.session_locks st !! sid = Some true -> lock_released = true) ->
  exists st2,
    Gateway.resume_calls st2 = Gateway.resume_calls st
    /\ fst (Gateway.resume_session resume_execution sid now lock_released st)
       = match fst (Gateway.attempts resume_execution now (seq 0 2) None st2) with
         | Ok resp => Respond resp
         | Raise e => HTTPException 500 (DetailText (exc_str e))
         end
    /\ Gateway.session_locks
         (snd (Gateway.resume_session resume_execution sid now lock_released st)) !! sid
       = Some false.
Proof.
  intros Hcool Hlock. unfold Gateway.resume_session. rewrite Hcool.
  set (st1 := match Gateway.session_locks st !! sid with
              | Some _ => st
              | None => Gateway.set_lock sid false st
              end).
  assert (Hheld : default false (Gateway.session_locks st1 !! sid) && negb lock_released
                  = false).
  { subst st1. destruct (Gateway.session_locks st !! sid) as [[|]|] eqn:Hl; cbn.
    - rewrite Hl. cbn. rewrite Hlock by reflexivity. reflexivity.
    - rewrite Hl. reflexivity.
    - rewrite lookup_insert_eq. reflexivity. }
  rewrite Hheld.
  assert (Hcalls : Gateway.resume_calls st1 = Gateway.resume_calls st).
  { subst st1. destruct (Gateway.session_locks st !! sid); reflexivity. }
  eexists {| Gateway.session_locks := <[sid := true]> (Gateway.session_locks st1);
             Gateway.session_last_resume :=
               <[sid := now]> (Gateway.session_last_resume st1);
             Gateway.resume_calls := Gateway.resume_calls st1 |}.
  split; [exact Hcalls|].
  match goal with
  | |- context [Gateway.attempts ?re ?n ?r ?le ?s] =>
      destruct (Gateway.attempts re n r le s) as [r3 st3]
  end.
  destruct r3; cbn; (split; [reflexivity | now rewrite lookup_insert_eq]).
Qed.

(** X9: The answer of a resume request that is not answered from the cooldown
    and obtains the lock, by what the first two calls of the underlying
    resume logic do: the first call reporting success is returned with
    [is_resumed] true and the request's time; when neither reports success,
    the exception raised last becomes an HTTP 500 answer with its text,
    whichever attempt raised it; when both return without success the
    answer is the "error" response, without a timestamp. *)
Theorem resume_session_answer (resume_execution : nat -> Gateway.Outcome)
    (sid : string) (now : Q) (lock_released : bool) (st : Gateway.ResumeState) :
  Gateway.in_cooldown now st sid = false ->
  (Gateway.session_locks st !! sid = Some true -> lock_released = true) ->
  let n := Gateway.resume_calls st in
  let success s m :=
    Respond {| Gateway.status := s; Gateway.message := m;
               Gateway.is_resumed := Some true; Gateway.timestamp := Some now |} in
  let failure (e : PyExc) :=
    HTTPException (A := Gateway.ResumeResponse) 500 (DetailText (exc_str e)) in
  fst (Gateway.resume_session resume_execution sid now lock_released st)
  = match resume_execution n with
    | Gateway.Returned s m =>
        if String.eqb s "success" then success s m
        else
          match resume_execution (S n) with
          | Gateway.Returned s2 m2 =>
              if String.eqb s2 "success" then success s2 m2
              else Respond {| Gateway.status := "error";
                              Gateway.message :=
                                "Failed to resume session after multiple attempts";
                              Gateway.is_resumed := Some false;
                              Gateway.timestamp := None |}
          | Gateway.Raised e2 => failure e2
          end
    | Gateway.Raised e =>
        match resume_execution (S n) with
        | Gateway.Returned s2 m2 =>
            if String.eqb s2 "success" then success s2 m2 else failure e
        | Gateway.Raised e2 => failure e2
        end
    end.
Proof.
  intros Hcool Hlock n success failure.
  destruct (resume_session_through_attempts resume_execution sid now lock_released st
              Hcool Hlock) as (st2 & Hcalls & -> & _).
  cbn [seq Gateway.attempts]. rewrite Hcalls. fold n.
  destruct (resume_execution n) as [s m|e]; cbn [Gateway.resume_calls].
  - destruct (String.eqb s "success"); [reflexivity|].
    destruct (resume_execution (S n)) as [s2 m2|e2]; [|reflexivity].
    destruct (String.eqb s2 "success"); reflexivity.
  - destruct (resume_execution (S n)) as [s2 m2|e2]; [|reflexivity].
    destruct (String.eqb s2 "success"); reflexivity.
Qed.

Lemma Qltb_false (a b : Q) : (b <= a)%Q -> Gateway.Qltb a b = false.
Proof.
  intros Hle. unfold Gateway.Qltb. apply negb_false_iff. now apply Qle_bool_iff.
Qed.

(** X10: Once the cooldown has run out the session can be resumed again: when a
    resume was performed at time [t1], a request at [t2], a full cooldown or
    more later, is not answered "already in progress" from the cooldown; it
    finds the lock free, calls the underlying resume logic again and moves
    the session's timestamp to [t2]. *)
Theorem resume_again_after_cooldown (resume_execution : nat -> Gateway.Outcome)
    (sid : string) (t1 t2 : Q) (released1 released2 : bool) (st : Gateway.ResumeState) :
  Gateway.in_cooldown t1 st sid = false ->
  (Gateway.session_locks st !! sid = Some true -> released1 = true) ->
  (t1 + Gateway.RESUME_COOLDOWN <= t2)%Q ->
  let st1 := snd (Gateway.resume_session resume_execution sid t1 released1 st) in
  let st2 := snd (Gateway.resume_session resume_execution sid t2 released2 st1) in
  Gateway.in_cooldown t2 st1 sid = false
  /\ Gateway.session_locks st1 !! sid = Some false
  /\ (Gateway.resume_calls st1 < Gateway.resume_calls st2)%nat
  /\ Gateway.session_last_resume st2 !! sid = Some t2.
Proof.
  intros Hcool Hlock Hlate st1 st2.
  pose proof (resume_session_performed resume_execution sid t1 released1 st Hcool Hlock)
    as [Hlast _].
  destruct (resume_session_through_attempts resume_execution sid t1 released1 st
              Hcool Hlock) as (_ & _ & _ & Hfree).
  fold st1 in Hlast, Hfree.
  assert (Hcool2 : Gateway.in_cooldown t2 st1 sid = false).
  { unfold Gateway.in_cooldown. rewrite Hlast. apply Qltb_false.
    unfold Gateway.RESUME_COOLDOWN in *. lra. }
  assert (Hlock2 : Gateway.session_locks st1 !! sid = Some true -> released2 = true).
  { rewrite Hfree. discriminate. }
  pose proof (resume_session_performed resume_execution sid t2 released2 st1 Hcool2 Hlock2)
    as [Hlast2 Hcalls2].
  fold st2 in Hlast2, Hcalls2.
  repeat split; try assumption. lia.
Qed.

(** ** The chat endpoint: dispatch *)

(** X11: A chat request with a non-empty last message and a session id, for a
    session the controller has not finished, rebinds the controller to the
    request's session and clears its finished flag before the agent is
    looked up.  For the agent types BASE and BROWSER_USE the answer is a
    streaming response over one new agent run, built from the request's
    session, settings and converted messages, with the data-stream header;
    for EXAMPLE and BROWSER_USE_BATCH the lookup fails, the answer is an
    HTTP 500 with the error envelope, no run is created, and the controller
    stays rebound. *)
Theorem handle_chat_dispatch (request : Gateway.ChatRequest) (st : Gateway.ChatState) :
  Gateway.empty_message (Gateway.cr_messages request) = false ->
  str_truthy (Gateway.cr_session_id request) = true ->
  bool_decide (session_id (Gateway.controller st) = Some (Gateway.cr_session_id request))
  && finished (Gateway.controller st) = false ->
  let sid := Gateway.cr_session_id request in
  let answer := fst (Gateway.handle_chat request st) in
  let st' := snd (Gateway.handle_chat request st) in
  let started entry :=
    let run := {| Gateway.run_entry := entry;
                  Gateway.run_model_config := Gateway.model_config_of request;
                  Gateway.run_agent_settings := Gateway.cr_agent_settings request;
                  Gateway.run_history :=
                    Gateway.convert_to_chat_messages (Gateway.cr_messages request);
                  Gateway.run_session_id := sid |} in
    answer = Respond (Gateway.StreamingResponse (Gateway.agent_stream run) None
                        [("x-vercel-ai-data-stream", "v1")])
    /\ Gateway.runs st' = Gateway.runs st ++ [run] in
  let failed message type :=
    answer = HTTPException 500 (DetailError message type 500)
    /\ Gateway.runs st' = Gateway.runs st in
  Gateway.controller st'
  = {| session_id := Some sid; agent := agent (Gateway.controller st);
       finished := false |}
  /\ match Gateway.cr_agent_type request with
     | Registry.BASE => started Registry.base_agent
     | Registry.BROWSER_USE => started Registry.browser_use_agent
     | Registry.EXAMPLE =>
         failed "Invalid agent type: WebAgentType.EXAMPLE" "ValueError"
     | Registry.BROWSER_USE_BATCH =>
         failed "name 'browser_use_agent_batch' is not defined" "NameError"
     end.
Proof.
  intros Hmsg Hsid Hfin. cbv zeta.
  unfold Gateway.handle_chat, Gateway.handle_chat_try.
  rewrite Hmsg, Hsid, Hfin. cbn [negb].
  destruct (Gateway.cr_agent_type request); cbn; split; try split; reflexivity.
Qed.

(** X12: A chat request for the session the controller is bound to, once that
    session's task has finished, starts nothing: the endpoint answers HTTP
    500 with a NameError envelope (the empty stream it means to send is not
    defined) and leaves the controller and the runs as they were. *)
Theorem handle_chat_finished_session (request : Gateway.ChatRequest)
    (st : Gateway.ChatState) :
  Gateway.empty_message (Gateway.cr_messages request) = false ->
  str_truthy (Gateway.cr_session_id request) = true ->
  session_id (Gateway.controller st) = Some (Gateway.cr_session_id request) ->
  finished (Gateway.controller st) = true ->
  Gateway.handle_chat request st
  = (HTTPException 500
       (DetailError "name 'empty_stream' is not defined" "NameError" 500), st).
Proof.
  intros Hmsg Hsid Hbound Hfin.
  unfold Gateway.handle_chat, Gateway.handle_chat_try.
  rewrite Hmsg, Hsid, Hfin, bool_decide_eq_true_2 by exact Hbound. reflexivity.
Qed.

(** ** The provider factory: keys and extra parameters *)

Lemma dict_get_app_r {V} (k : string) (d d' : list (string * V)) :
  dict_has k d = false -> dict_get k (d ++ d') = dict_get k d'.
Proof.
  unfold dict_has. induction d as [|[k' v] d IH]; cbn; [reflexivity|].
  destruct (String.eqb k k'); [discriminate | exact IH].
Qed.

Lemma fresh_key_not_explicit (keys : list string) (extra : list (string * PyVal))
    (k : string) :
  forallb (fun kv => negb (existsb (String.eqb (fst kv)) keys)) extra = true ->
  dict_has k extra = true ->
  existsb (String.eqb k) keys = false.
Proof.
  unfold dict_has. induction extra as [|[k' v] extra IH]; cbn; [discriminate|].
  rewrite andb_true_iff, negb_true_iff. intros [Hk Hrest].
  destruct (String.eqb k k') eqn:Heq; [|now apply IH].
  apply String.eqb_eq in Heq. now subst k'.
Qed.

Lemma repeated_keyword_found (explicit extra : list (string * PyVal)) :
  forallb (fun kv => negb (existsb (String.eqb (fst kv)) (map fst explicit))) extra = false ->
  exists k, Providers.repeated_keyword explicit extra = Some k
            /\ In k (map fst explicit) /\ dict_has k extra = true.
Proof.
  induction extra as [|[k v] extra IH]; cbn; [discriminate|].
  rewrite dict_has_keys.
  destruct (existsb (String.eqb k) (map fst explicit)) eqn:Hk; cbn.
  - intros _. exists k. split; [reflexivity|]. split.
    + apply existsb_exists in Hk. destruct Hk as (k' & Hin & Heq).
      apply String.eqb_eq in Heq. now subst k'.
    + unfold dict_has. cbn. now rewrite String.eqb_refl.
  - intros Hrest. destruct (IH Hrest) as (k0 & Hrep & Hin & Hhas).
    exists k0. split; [exact Hrep|]. split; [exact Hin|].
    unfold dict_has in *. cbn. destruct (String.eqb k0 k); [reflexivity | exact Hhas].
Qed.




(** ** The step callback *)

Lemma send_special_queue (text : string) (fmt : string -> string) (st : State) :
  queue (send_special text fmt st) = queue st ++ special text fmt
  /\ uuids (send_special text fmt st) = uuids st
  /\ controller (send_special text fmt st) = controller st
  /\ _done_processed (send_special text fmt st) = _done_processed st.
Proof.
  unfold send_special, special. destruct (str_truthy text); cbn.
  - rewrite <- app_assoc. repeat split.
  - rewrite app_nil_r. repeat split.
Qed.

Lemma fold_left_put (outs : list QueueItem) :
  forall st : State,
    queue (fold_left (fun s o => put o s) outs st) = queue st ++ outs
    /\ uuids (fold_left (fun s o => put o s) outs st) = uuids st
    /\ controller (fold_left (fun s o => put o s) outs st) = controller st.
Proof.
  induction outs as [|o outs IH]; intros st; cbn [fold_left].
  - rewrite app_nil_r. repeat split.
  - destruct (IH (put o st)) as (-> & -> & ->). cbn. rewrite <- app_assoc. repeat split.
Qed.

Lemma set_uuids_same (st : State) : set_uuids (uuids st + 0) st = st.
Proof. rewrite Nat.add_0_r. now destruct st. Qed.

Lemma set_uuids_twice (a b : nat) (st : State) :
  set_uuids b (set_uuids a st) = set_uuids b st.
Proof. reflexivity. Qed.

Lemma has_done_action_concat (actions : list ActionModel) :
  has_done_action actions
  = existsb (fun kv => String.eqb (fst kv) "done" && dump_truthy (snd kv))
            (concat actions).
Proof.
  unfold has_done_action. induction actions as [|am actions IH]; [reflexivity|].
  cbn [existsb concat]. now rewrite existsb_app, IH.
Qed.

Section step_callback.
Variable repr : PyVal -> string.
Variable basic_report : string -> PageData -> Res string.
Variable uuid4 : nat -> string.

Lemma add_tools_nil (tools : Tools) : add_tools tools [] = tools.
Proof. unfold add_tools. cbn. rewrite !app_nil_r. now destruct tools. Qed.

Lemma add_tools_app (tools : Tools) (l l' : list ToolCall) :
  add_tools (add_tools tools l) l' = add_tools tools (l ++ l').
Proof. unfold add_tools. cbn. now rewrite map_app, !app_assoc. Qed.

Lemma tool_call_of_shift (first k : nat)
    (l : list (string * option (list (string * PyVal)))) :
  imap (fun i => tool_call_of uuid4 first (k + i)) l
  = imap (tool_call_of uuid4 (first + k)) l.
Proof.
  apply imap_ext. intros i x _. unfold tool_call_of. now rewrite Nat.add_assoc.
Qed.

Lemma imap_tool_call_cons (first : nat)
    (kv : string * option (list (string * PyVal)))
    (l : list (string * option (list (string * PyVal)))) :
  imap (tool_call_of uuid4 first) (kv :: l)
  = tool_call_of uuid4 first 0 kv :: imap (tool_call_of uuid4 (S first)) l.
Proof.
  cbn [imap]. f_equal. apply imap_ext. intros i x _.
  unfold tool_call_of, compose. now rewrite Nat.add_succ_r.
Qed.

Lemma process_item_plain (key : string) (value : option (list (string * PyVal)))
    (tools : Tools) (st : State) :
  String.eqb key "done" = false -> dump_truthy value = true ->
  process_item repr basic_report uuid4 key value tools st
  = (Next, add_tools tools [tool_call_of uuid4 (uuids st) 0 (key, value)],
     set_uuids (S (uuids st)) st).
Proof.
  intros Hkey Htruthy. unfold process_item. rewrite Htruthy, Hkey.
  unfold add_tools, tool_call_of, tool_message_of. cbn. now rewrite Nat.add_0_r.
Qed.

Lemma process_item_skipped (key : string) (value : option (list (string * PyVal)))
    (tools : Tools) (st : State) :
  dump_truthy value = false ->
  process_item repr basic_report uuid4 key value tools st = (Next, tools, st).
Proof. intros Htruthy. unfold process_item. now rewrite Htruthy. Qed.

Lemma process_action_model_plain (items : ActionModel) :
  forall (tools : Tools) (st : State),
    forallb plain items = true ->
    process_action_model repr basic_report uuid4 items tools st
    = (Next,
       add_tools tools (imap (tool_call_of uuid4 (uuids st)) (List.filter carries_arguments items)),
       set_uuids (uuids st + length (List.filter carries_arguments items)) st).
Proof.
  induction items as [|[key value] items IH]; intros tools st Hplain.
  - cbn. now rewrite add_tools_nil, set_uuids_same.
  - cbn [forallb] in Hplain. apply andb_true_iff in Hplain as [Hkv Hrest].
    unfold plain, is_done_entry in Hkv. cbn [fst snd] in Hkv. apply negb_true_iff in Hkv.
    cbn [process_action_model List.filter].
    change (carries_arguments (key, value)) with (dump_truthy value).
    destruct (dump_truthy value) eqn:Htruthy.
    + rewrite andb_true_r in Hkv.
      rewrite process_item_plain by assumption.
      rewrite IH by exact Hrest. cbn [uuids set_uuids].
      rewrite add_tools_app, imap_tool_call_cons. cbn [app length].
      rewrite set_uuids_twice. do 2 f_equal. lia.
    + rewrite process_item_skipped by assumption. now rewrite IH by exact Hrest.
Qed.

Lemma process_actions_plain (actions : list ActionModel) :
  forall (tools : Tools) (st : State),
    forallb plain (concat actions) = true ->
    process_actions repr basic_report uuid4 actions tools st
    = (Next,
       add_tools tools (imap (tool_call_of uuid4 (uuids st)) (effective_actions actions)),
       set_uuids (uuids st + length (effective_actions actions)) st).
Proof.
  unfold effective_actions.
  induction actions as [|am actions IH]; intros tools st Hplain.
  - cbn. now rewrite add_tools_nil, set_uuids_same.
  - cbn [concat] in *. rewrite forallb_app in Hplain.
    apply andb_true_iff in Hplain as [Ham Hrest].
    cbn [process_actions]. rewrite process_action_model_plain by exact Ham.
    rewrite IH by exact Hrest. cbn [uuids set_uuids].
    rewrite add_tools_app, List.filter_app, imap_app, length_app.
    rewrite tool_call_of_shift, Nat.add_assoc. reflexivity.
Qed.

(** X16: A step without a done action puts on the queue, after the goal and
    memory messages of its brain, one message carrying a tool call for each
    action entry that has arguments, in order, followed by one tool message
    per tool call with the same identifier; a step with no such entry adds
    the brain's messages only.  The identifiers are fresh: the step draws
    one per tool call.  The controller is left alone. *)
Theorem yield_data_pairs_tool_calls (agent_output : AgentOutput) (step_number : Z)
    (st : State) :
  has_done_action (action agent_output) = false ->
  let calls :=
    imap (tool_call_of uuid4 (uuids st)) (effective_actions (action agent_output)) in
  let st' := yield_data repr basic_report uuid4 agent_output step_number st in
  queue st'
  = queue st ++ brain_messages (current_state agent_output) step_number
    ++ match calls with
       | [] => []
       | _ :: _ => AIMessage EmptyString calls :: map tool_message_of calls
       end
  /\ uuids st' = (uuids st + length calls)%nat
  /\ controller st' = controller st.
Proof.
  intros Hdone. cbv zeta. unfold yield_data. cbv zeta. rewrite Hdone. cbn [andb].
  set (st0 := match _done_processed st with
              | None => set_done_processed (Some false) st
              | Some _ => st
              end).
  assert (H0 : queue st0 = queue st /\ uuids st0 = uuids st
               /\ controller st0 = controller st).
  { subst st0. destruct (_done_processed st); repeat split. }
  set (st1 := if (2 <? step_number)%Z
              then send_special (evaluation_previous_goal (current_state agent_output))
                     previous_goal_message st0
              else st0).
  assert (H1 : queue st1
               = queue st ++ (if (2 <? step_number)%Z
                              then special (evaluation_previous_goal
                                              (current_state agent_output))
                                     previous_goal_message
                              else [])
               /\ uuids st1 = uuids st /\ controller st1 = controller st).
  { subst st1. destruct H0 as (Hq & Hu & Hc). destruct (2 <? step_number)%Z.
    - destruct (send_special_queue (evaluation_previous_goal (current_state agent_output))
                  previous_goal_message st0) as (-> & -> & -> & _).
      rewrite Hq, Hu, Hc. repeat split.
    - rewrite Hq, Hu, Hc, app_nil_r. repeat split. }
  set (st3 := send_special (next_goal (current_state agent_output)) next_goal_message
                (send_special (memory (current_state agent_output)) memory_message st1)).
  assert (H3 : queue st3 = queue st ++ brain_messages (current_state agent_output) step_number
               /\ uuids st3 = uuids st /\ controller st3 = controller st).
  { subst st3. destruct H1 as (Hq & Hu & Hc).
    destruct (send_special_queue (next_goal (current_state agent_output)) next_goal_message
                (send_special (memory (current_state agent_output)) memory_message st1))
      as (-> & -> & -> & _).
    destruct (send_special_queue (memory (current_state agent_output)) memory_message st1)
      as (-> & -> & -> & _).
    rewrite Hq, Hu, Hc. unfold brain_messages. rewrite <- !app_assoc. repeat split. }
  destruct H3 as (Hq & Hu & Hc).
  assert (Hplain : forallb plain (concat (action agent_output)) = true).
  { rewrite has_done_action_concat in Hdone. unfold plain, is_done_entry.
    apply forallb_forall. intros kv Hin. apply negb_true_iff.
    destruct (String.eqb (fst kv) "done" && dump_truthy (snd kv)) eqn:Hkv; [|reflexivity].
    rewrite <- Hdone. symmetry. apply existsb_exists. now exists kv. }
  rewrite process_actions_plain by exact Hplain.
  rewrite Hu. unfold add_tools. cbn [tool_calls tool_outputs app].
  rewrite <- (length_imap (tool_call_of uuid4 (uuids st))
                (effective_actions (action agent_output))).
  destruct (imap (tool_call_of uuid4 (uuids st)) (effective_actions (action agent_output)))
    as [|c calls].
  - cbn [set_uuids queue uuids controller]. rewrite Hq, Hc, app_nil_r. repeat split.
  - match goal with
    | |- context [fold_left ?f ?outs ?s] =>
        destruct (fold_left_put outs s) as (-> & -> & ->)
    end.
    cbn [put set_queue set_uuids queue uuids controller].
    rewrite Hq, Hc, <- !app_assoc. repeat split.
Qed.

Lemma process_item_marks (key : string) (value : option (list (string * PyVal)))
    (tools : Tools) (st : State) :
  has_text (key, value) = true ->
  marks st (is_done_entry (key, value))
        (process_item repr basic_report uuid4 key value tools st).
Proof.
  unfold has_text, is_done_entry, marks. cbn [fst snd]. intros Htext.
  unfold process_item.
  destruct (dump_truthy value) eqn:Htruthy;
    [|rewrite andb_false_r; cbn; (split; [auto | split; [intros Hne; now elim Hne | discriminate]])].
  destruct (String.eqb key "done") eqn:Hkey;
    [|cbn; (split; [auto | split; [intros Hne; now elim Hne | discriminate]])].
  cbn in Htext. unfold dict_has in Htext.
  destruct (dict_get "text" (default [] value)) as [text|]; [|discriminate].
  destruct (finished (controller st) || done_flag st) eqn:Hmark.
  - assert (Hm : marked_done st = true) by (unfold marked_done; now rewrite orb_comm).
    cbn. repeat split; intros _; exact Hm.
  - pose proof (show_metrics_only_storage basic_report
                  (set_done_processed (Some true) (set_finished true st))) as Honly.
    destruct (show_performance_metrics basic_report
                (set_done_processed (Some true) (set_finished true st)))
      as [report st2]. cbn [snd] in Honly.
    destruct (only_storage_fields _ _ Honly) as (Hc & _ & Hp & _).
    assert (Hm : forall q, marked_done (set_queue q st2) = true).
    { intros q. unfold marked_done, done_flag. cbn. rewrite Hp. reflexivity. }
    destruct (py_truthy report); cbn [fst snd put]; repeat split; intros _; apply Hm.
Qed.

Lemma process_action_model_marks (items : ActionModel) :
  forall (tools : Tools) (st : State),
    forallb has_text items = true ->
    marks st (existsb is_done_entry items)
          (process_action_model repr basic_report uuid4 items tools st).
Proof.
  induction items as [|[key value] items IH]; intros tools st Htext.
  - cbn. (split; [auto | split; [intros Hne; now elim Hne | discriminate]]).
  - cbn [forallb] in Htext. apply andb_true_iff in Htext as [Hkv Hrest].
    pose proof (process_item_marks key value tools st Hkv) as (Hkeep & Hstop & Hset).
    cbn [process_action_model existsb].
    destruct (process_item repr basic_report uuid4 key value tools st)
      as [[flow tools'] st1]. cbn [fst snd] in Hkeep, Hstop, Hset.
    destruct (IH tools' st1 Hrest) as (Hkeep' & Hstop' & Hset').
    destruct flow.
    + repeat split; [auto | exact Hstop'|].
      intros Hex. apply orb_true_iff in Hex as [Hex|Hex]; auto.
    + assert (Hm : marked_done st1 = true) by (apply Hstop; discriminate).
      repeat split; intros _; exact Hm.
    + assert (Hm : marked_done st1 = true) by (apply Hstop; discriminate).
      repeat split; intros _; exact Hm.
Qed.

Lemma process_actions_marks (actions : list ActionModel) :
  forall (tools : Tools) (st : State),
    forallb has_text (concat actions) = true ->
    marks st (existsb is_done_entry (concat actions))
          (process_actions repr basic_report uuid4 actions tools st).
Proof.
  induction actions as [|am actions IH]; intros tools st Htext.
  - cbn. (split; [auto | split; [intros Hne; now elim Hne | discriminate]]).
  - cbn [concat] in *. rewrite forallb_app in Htext.
    apply andb_true_iff in Htext as [Ham Hrest].
    pose proof (process_action_model_marks am tools st Ham) as (Hkeep & Hstop & Hset).
    cbn [process_actions]. rewrite existsb_app.
    destruct (process_action_model repr basic_report uuid4 am tools st)
      as [[flow tools'] st1]. cbn [fst snd] in Hkeep, Hstop, Hset.
    destruct (IH tools' st1 Hrest) as (Hkeep' & Hstop' & Hset').
    destruct flow.
    + repeat split; [auto | exact Hstop'|].
      intros Hex. apply orb_true_iff in Hex as [Hex|Hex]; auto.
    + assert (Hm : marked_done st1 = true) by (apply Hstop; discriminate).
      repeat split; intros _; exact Hm.
    + assert (Hm : marked_done st1 = true) by (apply Hstop; discriminate).
      repeat split; intros _; exact Hm.
Qed.

Lemma marked_done_put (x : QueueItem) (st : State) :
  marked_done (put x st) = marked_done st.
Proof. reflexivity. Qed.

Lemma marked_done_fold_put (outs : list QueueItem) :
  forall st : State,
    marked_done (fold_left (fun s o => put o s) outs st) = marked_done st.
Proof.
  induction outs as [|o outs IH]; intros st; cbn [fold_left]; [reflexivity|].
  now rewrite IH.
Qed.

(** X17: A done action ends the session's work in the step callback: after a
    step with a done action that carries its text, the session is marked
    done, and every later step with a done action only adds the goal and
    memory messages of its brain to the queue: no second completion
    message, no report and no tool call. *)
Theorem done_step_marks_the_session_done (agent_output : AgentOutput) (step_number : Z)
    (st : State) :
  has_done_action (action agent_output) = true ->
  done_entries_have_text (action agent_output) = true ->
  let st' := yield_data repr basic_report uuid4 agent_output step_number st in
  marked_done st' = true
  /\ forall (later : AgentOutput) (n : Z),
       has_done_action (action later) = true ->
       let st'' := yield_data repr basic_report uuid4 later n st' in
       queue st'' = queue st' ++ brain_messages (current_state later) n
       /\ marked_done st'' = true
       /\ uuids st'' = uuids st'.
Proof.
  intros Hdone Htext.
  assert (Hmark : marked_done
                    (yield_data repr basic_report uuid4 agent_output step_number st)
                  = true).
  { unfold yield_data. cbv zeta. rewrite Hdone. cbn [andb].
    match goal with
    | |- context [process_actions _ _ _ _ _ ?s] => set (st3 := s)
    end.
    fold (marked_done st3).
    destruct (marked_done st3) eqn:Hm3; [exact Hm3|].
    pose proof (process_actions_marks (action agent_output)
                  {| tool_calls := []; tool_outputs := [] |} st3 Htext)
      as (_ & Hstop & Hset).
    rewrite has_done_action_concat in Hdone. specialize (Hset Hdone).
    destruct (process_actions repr basic_report uuid4 (action agent_output)
                {| tool_calls := []; tool_outputs := [] |} st3)
      as [[flow tools'] st4]. cbn [fst snd] in *.
    destruct flow; [|exact Hset|now rewrite marked_done_put].
    destruct (tool_calls tools'); [exact Hset|].
    now rewrite marked_done_fold_put, marked_done_put. }
  cbv zeta. split; [exact Hmark|].
  intros later n Hlater.
  rewrite (yield_data_later_done_is_suppressed repr basic_report uuid4 later n _
             Hlater Hmark).
  set (st' := yield_data repr basic_report uuid4 agent_output step_number st) in *.
  set (st0 := match _done_processed st' with
              | None => set_done_processed (Some false) st'
              | Some _ => st'
              end).
  assert (H0 : queue st0 = queue st' /\ uuids st0 = uuids st'
               /\ marked_done st0 = marked_done st').
  { subst st0. unfold marked_done, done_flag.
    destruct (_done_processed st') eqn:Hp; cbn; rewrite ?Hp; repeat split. }
  destruct H0 as (Hq0 & Hu0 & Hm0).
  set (st1 := if (2 <? n)%Z
              then send_special (evaluation_previous_goal (current_state later))
                     previous_goal_message st0
              else st0).
  assert (H1 : queue st1
               = queue st' ++ (if (2 <? n)%Z
                               then special (evaluation_previous_goal (current_state later))
                                      previous_goal_message
                               else [])
               /\ uuids st1 = uuids st' /\ marked_done st1 = marked_done st').
  { subst st1. destruct (2 <? n)%Z.
    - destruct (send_special_queue (evaluation_previous_goal (current_state later))
                  previous_goal_message st0) as (Hq & Hu & Hc & Hp).
      unfold marked_done, done_flag in *. rewrite Hq, Hu, Hc, Hp, Hq0, Hu0.
      repeat split. exact Hm0.
    - rewrite Hq0, Hu0, Hm0, app_nil_r. repeat split. }
  destruct H1 as (Hq1 & Hu1 & Hm1).
  destruct (send_special_queue (next_goal (current_state later)) next_goal_message
              (send_special (memory (current_state later)) memory_message st1))
    as (Hq3 & Hu3 & Hc3 & Hp3).
  destruct (send_special_queue (memory (current_state later)) memory_message st1)
    as (Hq2 & Hu2 & Hc2 & Hp2).
  unfold marked_done, done_flag in *.
  rewrite Hq3, Hu3, Hc3, Hp3, Hq2, Hu2, Hc2, Hp2, Hq1, Hu1, Hm1.
  unfold brain_messages. rewrite <- !app_assoc. repeat split. exact Hmark.
Qed.

End step_callback.

(** ** Browsers, and the start of a run *)

Lemma same_browsers_refl (st : State) : same_browsers st st.
Proof. repeat split. Qed.

Lemma same_browsers_trans (st1 st2 st3 : State) :
  same_browsers st1 st2 -> same_browsers st2 st3 -> same_browsers st1 st3.
Proof.
  unfold same_browsers. intros (-> & -> & -> & ->) (-> & -> & -> & ->). repeat split.
Qed.

Lemma only_storage_same_browsers (st st' : State) :
  only_storage st st' -> same_browsers st st'.
Proof. intros [m ->]. repeat split. Qed.

Lemma send_special_same_browsers (text : string) (fmt : string -> string) (st : State) :
  same_browsers st (send_special text fmt st).
Proof. unfold send_special. destruct (str_truthy text); repeat split. Qed.

Lemma fold_put_same_browsers (outs : list QueueItem) :
  forall st : State, same_browsers st (fold_left (fun s o => put o s) outs st).
Proof.
  induction outs as [|o outs IH]; intros st; cbn [fold_left].
  - apply same_browsers_refl.
  - eapply same_browsers_trans; [|apply IH]. repeat split.
Qed.

Section browsers.
Variable repr : PyVal -> string.
Variable basic_report : string -> PageData -> Res string.
Variable uuid4 : nat -> string.

Lemma process_item_same_browsers (key : string) (value : option (list (string * PyVal)))
    (tools : Tools) (st : State) :
  same_browsers st (snd (process_item repr basic_report uuid4 key value tools st)).
Proof.
  unfold process_item.
  destruct (dump_truthy value); [|apply same_browsers_refl].
  destruct (String.eqb key "done"); [|repeat split].
  destruct (dict_get "text" (default [] value)) as [text|]; [|apply same_browsers_refl].
  destruct (finished (controller st) || done_flag st); [repeat split|].
  pose proof (show_metrics_only_storage basic_report
                (set_done_processed (Some true) (set_finished true st))) as Honly.
  destruct (show_performance_metrics basic_report
              (set_done_processed (Some true) (set_finished true st))) as [report st2].
  cbn [snd] in Honly. apply only_storage_same_browsers in Honly.
  assert (H : forall q, same_browsers st (set_queue q st2)).
  { intros q. eapply same_browsers_trans; [|eapply same_browsers_trans; [exact Honly|]];
      repeat split. }
  destruct (py_truthy report); cbn [snd put]; apply H.
Qed.

Lemma process_action_model_same_browsers (items : ActionModel) :
  forall (tools : Tools) (st : State),
    same_browsers st (snd (process_action_model repr basic_report uuid4 items tools st)).
Proof.
  induction items as [|[key value] items IH]; intros tools st;
    [apply same_browsers_refl|].
  cbn [process_action_model].
  pose proof (process_item_same_browsers key value tools st) as H.
  destruct (process_item repr basic_report uuid4 key value tools st)
    as [[flow tools'] st1]. cbn [snd] in H.
  destruct flow; cbn [snd]; try exact H.
  eapply same_browsers_trans; [exact H | apply IH].
Qed.

Lemma process_actions_same_browsers (actions : list ActionModel) :
  forall (tools : Tools) (st : State),
    same_browsers st (snd (process_actions repr basic_report uuid4 actions tools st)).
Proof.
  induction actions as [|am actions IH]; intros tools st;
    [apply same_browsers_refl|].
  cbn [process_actions].
  pose proof (process_action_model_same_browsers am tools st) as H.
  destruct (process_action_model repr basic_report uuid4 am tools st)
    as [[flow tools'] st1]. cbn [snd] in H.
  destruct flow; cbn [snd]; try exact H.
  eapply same_browsers_trans; [exact H | apply IH].
Qed.

Lemma yield_data_same_browsers (agent_output : AgentOutput) (step_number : Z)
    (st : State) :
  same_browsers st (yield_data repr basic_report uuid4 agent_output step_number st).
Proof.
  unfold yield_data. cbv zeta.
  match goal with
  | |- context [process_actions _ _ _ _ _ ?s] => set (st3 := s)
  end.
  assert (H3 : same_browsers st st3).
  { subst st3.
    eapply same_browsers_trans; [|apply send_special_same_browsers].
    eapply same_browsers_trans; [|apply send_special_same_browsers].
    destruct (2 <? step_number)%Z.
    - eapply same_browsers_trans; [|apply send_special_same_browsers].
      destruct (_done_processed st); repeat split.
    - destruct (_done_processed st); repeat split. }
  destruct (has_done_action (action agent_output)
            && (done_flag st3 || finished (controller st3))); [exact H3|].
  pose proof (process_actions_same_browsers (action agent_output)
                {| tool_calls := []; tool_outputs := [] |} st3) as H.
  destruct (process_actions repr basic_report uuid4 (action agent_output)
              {| tool_calls := []; tool_outputs := [] |} st3) as [[flow tools'] st4].
  cbn [snd] in H. pose proof (same_browsers_trans _ _ _ H3 H) as H4.
  destruct flow.
  - destruct (tool_calls tools'); [exact H4|].
    eapply same_browsers_trans; [|apply fold_put_same_browsers].
    eapply same_browsers_trans; [exact H4|]. repeat split.
  - exact H4.
  - eapply same_browsers_trans; [exact H4|]. repeat split.
Qed.

Lemma yield_done_same_browsers (st : State) :
  same_browsers st (yield_done repr basic_report st).
Proof.
  unfold yield_done.
  destruct (done_flag st); [apply same_browsers_refl|].
  destruct (finished (controller st)); [repeat split|].
  set (st2 := match _done_processed (set_finished true st) with
              | Some _ => set_done_processed (Some true) (set_finished true st)
              | None => set_finished true st
              end).
  assert (H2 : same_browsers st st2).
  { subst st2. destruct (_done_processed (set_finished true st)); repeat split. }
  pose proof (display_report_only_storage repr basic_report st2) as Honly.
  destruct (display_performance_report repr basic_report st2) as [report st3].
  cbn [snd] in Honly. apply only_storage_same_browsers in Honly.
  eapply same_browsers_trans; [exact H2|].
  eapply same_browsers_trans; [exact Honly|]. repeat split.
Qed.

Lemma done_same_browsers (text : string) (st : State) :
  same_browsers st (done repr basic_report text st).
Proof.
  unfold done.
  eapply same_browsers_trans;
    [|apply only_storage_same_browsers, display_report_only_storage].
  repeat split.
Qed.

Lemma iteration_same_browsers (p : Poll) (lp : Loop) (st : State) :
  same_browsers st (snd (iteration p lp st)).
Proof.
  unfold iteration.
  destruct (cancel_set p); [apply same_browsers_refl|].
  destruct (too_many_failures p); [apply same_browsers_refl|].
  destruct (queue st) as [|data rest]; [apply same_browsers_refl|].
  repeat match goal with
         | |- context [if ?b then _ else _] => destruct b
         end; repeat split.
Qed.

Lemma consume_same_browsers (events : list Event) :
  forall (lp : Loop) (st : State),
    same_browsers st (snd (consume repr basic_report uuid4 events lp st)).
Proof.
  induction events as [|ev events IH]; intros lp st; [apply same_browsers_refl|].
  destruct ev; cbn [consume].
  - eapply same_browsers_trans; [apply yield_data_same_browsers | apply IH].
  - eapply same_browsers_trans; [apply yield_done_same_browsers | apply IH].
  - eapply same_browsers_trans; [apply done_same_browsers | apply IH].
  - eapply same_browsers_trans; [|apply IH].
    unfold fire_timer. destruct (timers st); repeat split.
  - eapply same_browsers_trans; [|apply IH]. repeat split.
  - pose proof (iteration_same_browsers p lp st) as H.
    destruct (iteration p lp st) as [[[|] lp'] st']; cbn [snd] in *.
    + eapply same_browsers_trans; [exact H | apply IH].
    + exact H.
Qed.

Lemma finally_same_browsers (lp : Loop) (st : State) :
  same_browsers st (snd (finally repr lp st)).
Proof.
  unfold finally, force_display_report.
  pose proof (get_metrics_only_storage st) as Honly.
  destruct (_get_current_session_metrics st) as [pages st1]. cbn [snd] in Honly.
  apply only_storage_same_browsers in Honly.
  eapply same_browsers_trans; [exact Honly|].
  destruct (_done_processed _); repeat split.
Qed.

Lemma start_run_browsers (environ : gmap string string)
    (model_config : Providers.ModelConfig) (history : list (list (string * PyVal)))
    (sid : string) (st : State) :
  let r := start_run environ model_config history sid st in
  browsers_closed (snd r) = browsers_closed st
  /\ (forall sid', sid' <> sid ->
        active_browsers (snd r) !! sid' = active_browsers st !! sid'
        /\ active_browser_contexts (snd r) !! sid' = active_browser_contexts st !! sid')
  /\ (is_Some (active_browsers st !! sid) -> same_browsers st (snd r))
  /\ (browsers_created st <= browsers_created (snd r) <= S (browsers_created st))%nat
  /\ (active_browsers st !! sid = None -> fst r = Ok tt ->
      active_browsers (snd r) !! sid = Some (browsers_created st)
      /\ active_browser_contexts (snd r) !! sid = Some (browsers_created st)
      /\ browsers_created (snd r) = S (browsers_created st)).
Proof.
  cbv zeta. unfold start_run.
  set (st1 := clear_session_metrics sid _).
  assert (H1 : same_browsers st st1).
  { subst st1. destruct (_done_processed st); repeat split. }
  destruct (Providers.create_llm environ model_config) as [llm|e].
  2:{ cbn [fst snd]. destruct H1 as (Ha & Hc & Hn & Hx). rewrite Ha, Hc, Hn, Hx.
      repeat split; auto; try lia; discriminate. }
  set (st2 := set_queue [] (set_agent_resumed false (set_finished false (set_session_id sid st1)))).
  assert (H2 : same_browsers st st2).
  { eapply same_browsers_trans; [exact H1|]. subst st2. unfold set_session_id.
    destruct (session_metrics_storage _ !! sid); repeat split. }
  destruct H2 as (Ha & Hc & Hn & Hx).
  unfold obtain_browser. rewrite Ha, Hc, Hn, Hx.
  destruct (active_browsers st !! sid) as [b|] eqn:Hb.
  - assert (Hsame : forall r : Res unit * State,
              same_browsers st (snd r) ->
              browsers_closed (snd r) = browsers_closed st
              /\ (forall sid', sid' <> sid ->
                    active_browsers (snd r) !! sid' = active_browsers st !! sid'
                    /\ active_browser_contexts (snd r) !! sid'
                       = active_browser_contexts st !! sid')
              /\ (is_Some (Some b) -> same_browsers st (snd r))
              /\ (browsers_created st <= browsers_created (snd r)
                  <= S (browsers_created st))%nat
              /\ (Some b = None -> fst r = Ok tt ->
                  active_browsers (snd r) !! sid = Some (browsers_created st)
                  /\ active_browser_contexts (snd r) !! sid = Some (browsers_created st)
                  /\ browsers_created (snd r) = S (browsers_created st))).
    { intros r Hr. pose proof Hr as (Ha' & Hc' & Hn' & Hx').
      rewrite Ha', Hc', Hn', Hx'. repeat split; auto; try lia; discriminate. }
    destruct (active_browser_contexts st !! sid) as [c|].
    + destruct (task_of history); apply Hsame; repeat split; assumption.
    + apply Hsame. repeat split; assumption.
  - destruct (task_of history) as [task|e]; cbn [fst snd set_controller set_browsers
      browsers_closed active_browsers active_browser_contexts browsers_created];
      rewrite ?lookup_insert_eq;
      (split; [reflexivity|]); (split; [intros sid' Hne; now rewrite !lookup_insert_ne by congruence|]);
      (split; [intros [x Hx']; discriminate|]); (split; [lia|]);
      intros _ Hok; try discriminate; repeat split.
Qed.

(** X18: Browsers in the streaming agent.  A run never closes a browser and
    touches no other session's browser; for a session that has a browser it
    creates none and keeps the session's handles, so a later run of the
    session reuses the browser of the first; for a session without one it
    creates at most one, which a started run registers for the session. *)
Theorem streaming_run_keeps_browsers_open (environ : gmap string string)
    (model_config : Providers.ModelConfig) (agent_settings : Gateway.AgentSettings)
    (history : list (list (string * PyVal))) (sid : string) (events : list Event)
    (st : State) :
  let r := browser_use_agent repr basic_report uuid4 environ model_config agent_settings
             history sid events st in
  browsers_closed (snd r) = browsers_closed st
  /\ (forall sid', sid' <> sid ->
        active_browsers (snd r) !! sid' = active_browsers st !! sid'
        /\ active_browser_contexts (snd r) !! sid' = active_browser_contexts st !! sid')
  /\ (is_Some (active_browsers st !! sid) -> same_browsers st (snd r))
  /\ (browsers_created st <= browsers_created (snd r) <= S (browsers_created st))%nat
  /\ (active_browsers st !! sid = None -> (exists out, fst r = Ok out) ->
      active_browsers (snd r) !! sid = Some (browsers_created st)
      /\ active_browser_contexts (snd r) !! sid = Some (browsers_created st)
      /\ browsers_created (snd r) = S (browsers_created st)).
Proof.
  cbv zeta. unfold browser_use_agent.
  pose proof (start_run_browsers environ model_config history sid st) as Hstart.
  cbv zeta in Hstart.
  destruct (start_run environ model_config history sid st) as [[[]|e] st1];
    cbn [fst snd] in Hstart.
  2:{ cbn [fst snd]. destruct Hstart as (H1 & H2 & H3 & H4 & _).
      split; [exact H1|]. split; [exact H2|]. split; [exact H3|]. split; [exact H4|].
      intros _ [out Hout]. discriminate. }
  assert (Hrest : exists st2,
            snd (match consume repr basic_report uuid4 events loop0 st1 with
                 | (Break, lp, st2) =>
                     let '(lp', st3) := finally repr lp st2 in
                     (Ok (Break, yielded lp'), st3)
                 | (Continue, lp, st2) => (Ok (Continue, yielded lp), st2)
                 end) = st2
            /\ same_browsers st1 st2).
  { pose proof (consume_same_browsers events loop0 st1) as Hc.
    destruct (consume repr basic_report uuid4 events loop0 st1) as [[[|] lp] st2];
      cbn [snd] in Hc.
    - eexists. split; [reflexivity | exact Hc].
    - pose proof (finally_same_browsers lp st2) as Hf.
      destruct (finally repr lp st2) as [lp' st3]. cbn [snd] in *.
      eexists. split; [reflexivity|]. eapply same_browsers_trans; eassumption. }
  destruct Hrest as (st2 & -> & (Ha & Hc & Hn & Hx)).
  rewrite Ha, Hc, Hn, Hx.
  destruct Hstart as (H1 & H2 & H3 & H4 & H5).
  split; [exact H1|]. split; [exact H2|]. split.
  { intros Hs. eapply same_browsers_trans; [exact (H3 Hs)|]. repeat split; assumption. }
  split; [exact H4|]. intros Hnone _. now apply H5.
Qed.


(** X19: Starting a streaming run empties the metrics of its own session and of
    no other, whether or not the run starts; a run that starts has the
    controller bound to the session and not finished, an empty queue and
    the resumed flag and the done flag of the step callback cleared. *)
Theorem start_run_resets_the_session (environ : gmap string string)
    (model_config : Providers.ModelConfig) (history : list (list (string * PyVal)))
    (sid : string) (st : State) :
  let r := start_run environ model_config history sid st in
  session_metrics_storage (snd r) = <[sid := []]> (session_metrics_storage st)
  /\ done_flag (snd r) = false
  /\ (fst r = Ok tt ->
      controller_session_id (snd r) = Some sid
      /\ finished (controller (snd r)) = false
      /\ queue (snd r) = []
      /\ _agent_resumed (snd r) = false).
Proof.
  cbv zeta. unfold start_run.
  set (st0 := match _done_processed st with
              | Some _ => set_done_processed (Some false) st
              | None => st
              end).
  assert (H0 : session_metrics_storage st0 = session_metrics_storage st
               /\ done_flag st0 = false).
  { subst st0. unfold done_flag. destruct (_done_processed st) eqn:Hp; cbn;
      rewrite ?Hp; split; reflexivity. }
  destruct H0 as [Hm0 Hf0].
  destruct (Providers.create_llm environ model_config) as [llm|e].
  2:{ cbn. rewrite Hm0. split; [reflexivity|]. split; [exact Hf0 | discriminate]. }
  unfold set_session_id, clear_session_metrics, obtain_browser.
  cbn [set_controller set_storage set_finished set_queue set_agent_resumed
       session_metrics_storage controller active_browsers active_browser_contexts].
  rewrite lookup_insert_eq.
  cbn [set_controller set_storage set_finished set_queue set_agent_resumed
       session_metrics_storage controller active_browsers active_browser_contexts].
  destruct (active_browsers st0 !! sid) as [b|];
    [destruct (active_browser_contexts st0 !! sid) as [c|]|];
    try destruct (task_of history) as [task|e];
    cbn; rewrite Hm0; (split; [reflexivity|]); (split; [exact Hf0|]);
    intros Hok; try discriminate; repeat split.
Qed.

End browsers.

(** ** The batch agent *)

Section batch.
Variable repr : PyVal -> string.
Variable environ : gmap string string.

Lemma force_display_report_only_storage (st : State) :
  only_storage st (snd (force_display_report repr st)).
Proof.
  unfold force_display_report.
  pose proof (get_metrics_only_storage st) as H.
  destruct (_get_current_session_metrics st) as [pages st1]. exact H.
Qed.

(** X20: The batch agent rejects a history it cannot use without touching
    anything.  For an empty history, a last item that is not a dict, a dict
    without [content] or a [content] that is not a string, it returns the
    matching "Error: ..." text, naming the offending type where there is
    one, and leaves the module state unchanged: no metrics cleared, no
    client built, no browser created. *)
Theorem batch_rejects_bad_history (model_config : Providers.ModelConfig)
    (agent_settings : Gateway.AgentSettings) (history : list PyVal) (sid : string)
    (run : BatchRun) (st : State) :
  valid_history history = false ->
  browser_use_agent_batch repr environ model_config agent_settings history sid run st
  = (Ok match last history with
        | None => "Error: Task history is empty."
        | Some (PDict item) =>
            match dict_get "content" item with
            | None => "Error: Invalid history format (missing 'content' key)."
            | Some content =>
                "Error: Invalid history format (content type: "
                +:+ type_str content +:+ ")."
            end
        | Some item =>
            "Error: Invalid history format (last item type: " +:+ type_str item +:+ ")."
        end, st).
Proof.
  unfold valid_history, browser_use_agent_batch.
  destruct (last history) as [item|]; [|reflexivity].
  destruct item; try reflexivity.
  destruct (dict_get "content" d) as [content|]; [|reflexivity].
  destruct content; try reflexivity. discriminate.
Qed.

Lemma batch_bad_history_returns (model_config : Providers.ModelConfig)
    (agent_settings : Gateway.AgentSettings) (history : list PyVal) (sid : string)
    (run : BatchRun) (st : State) :
  valid_history history = false ->
  exists text,
    browser_use_agent_batch repr environ model_config agent_settings history sid run st
    = (Ok text, st).
Proof.
  unfold valid_history, browser_use_agent_batch.
  destruct (last history) as [item|]; [|now eexists].
  destruct item; try (now eexists).
  destruct (dict_get "content" d) as [content|]; [|now eexists].
  destruct content; try discriminate; now eexists.
Qed.

Lemma batch_good_history_returns (model_config : Providers.ModelConfig)
    (agent_settings : Gateway.AgentSettings) (history : list PyVal) (sid : string)
    (run : BatchRun) (st : State) (client : Providers.LLM * bool) :
  valid_history history = true ->
  Providers.create_llm environ model_config = Ok client ->
  exists text,
    fst (browser_use_agent_batch repr environ model_config agent_settings history sid
           run st) = Ok text.
Proof.
  intros Hvalid Hllm. unfold valid_history in Hvalid. unfold browser_use_agent_batch.
  destruct (last history) as [item|]; [|discriminate].
  destruct item as [| | | | | | |item|]; try discriminate.
  destruct (dict_get "content" item) as [content|]; [|discriminate].
  destruct content as [| | | |task| | | |]; try discriminate.
  rewrite Hllm.
  destruct (raised run).
  - destruct (force_display_report repr _). now eexists.
  - destruct (collected_final_report run) as [report|].
    + destruct (str_truthy report); [now eexists|].
      destruct (force_display_report repr _). now eexists.
    + destruct (force_display_report repr _). now eexists.
Qed.

Lemma batch_cleanup_fields (sid : string) (b : nat) (st : State) :
  controller_session_id st = Some sid ->
  let st' := batch_cleanup sid (Some b) st in
  browsers_closed st' = browsers_closed st ++ [b]
  /\ browsers_created st' = browsers_created st
  /\ active_browsers st' = delete sid (active_browsers st)
  /\ active_browser_contexts st' = delete sid (active_browser_contexts st)
  /\ controller_session_id st' = Some sid
  /\ finished (controller st') = false.
Proof.
  intros Hsid. cbv zeta. unfold batch_cleanup.
  rewrite bool_decide_eq_true_2 by exact Hsid.
  unfold controller_session_id in *. cbn. rewrite Hsid. repeat split.
Qed.



End batch.

(** ** The report actions *)

Lemma store_metric_pages (sid url metric_type : string) (data : PyVal) (st : State) :
  controller_session_id st = Some sid -> str_truthy sid = true ->
  let before := fst (_get_current_session_metrics st) in
  fst (_get_current_session_metrics (_store_metric url metric_type data st))
  = dict_set url (dict_set metric_type data (default [] (dict_get url before))) before.
Proof.
  intros Hsid Ht before.
  set (st' := _store_metric url metric_type data st).
  assert (Hst' : st' = set_storage
            (<[sid := dict_set url (dict_set metric_type data
                                       (default [] (dict_get url before))) before]>
               (session_metrics_storage (snd (_get_current_session_metrics st))))
            (snd (_get_current_session_metrics st))).
  { subst st' before. unfold _store_metric. rewrite Hsid, Ht.
    now destruct (_get_current_session_metrics st). }
  assert (Hsid' : controller_session_id st' = Some sid).
  { destruct (only_storage_fields _ _ (store_metric_only_storage url metric_type data st))
      as [Hc _]. fold st' in Hc. unfold controller_session_id. now rewrite Hc. }
  rewrite (get_metrics_bound sid st' Hsid' Ht).
  rewrite Hst'. cbn [session_metrics_storage set_storage].
  now rewrite lookup_insert_eq.
Qed.

Lemma find_full_report_new_page (pages : Pages) (url : string) (page : PageData)
    (found : string * PyVal) :
  find_full_report pages = Some found -> dict_has url pages = false ->
  find_full_report (dict_set url page pages) = Some found.
Proof.
  unfold dict_has. induction pages as [|[u p] pages IH]; cbn; [discriminate|].
  destruct (String.eqb url u) eqn:Hu; [discriminate|]. cbn.
  destruct (dict_get "full_report" p); [auto|]. exact IH.
Qed.

Section report_actions.
Variable repr : PyVal -> string.
Variable basic_report : string -> PageData -> Res string.

(** X23: Which report the report actions show.  When the session has no report
    yet, a report stored for a page is what [get_latest_report] returns and
    what [show_complete_performance_report] wraps, with that page's
    address.  When the session has one already, a report stored for a page
    not seen before changes nothing: both actions keep showing the earlier
    report, the first in the order in which the pages were recorded. *)
Theorem report_actions_show_the_first_report (sid url : string) (report : PyVal)
    (st : State) :
  controller_session_id st = Some sid -> str_truthy sid = true ->
  let pages := fst (_get_current_session_metrics st) in
  let st' := _store_metric url "full_report" report st in
  let shown :=
    match find_full_report pages with
    | None => Some (url, report)
    | Some earlier => if dict_has url pages then None else Some earlier
    end in
  forall u r, shown = Some (u, r) ->
    fst (Reports.get_latest_report st') = r
    /\ fst (Reports.show_complete_performance_report repr st')
       = Reports.complete_report (py_str repr r) u.
Proof.
  intros Hsid Ht pages st' shown u r Hshown.
  pose proof (store_metric_pages sid url "full_report" report st Hsid Ht) as Hpages.
  cbv zeta in Hpages. fold pages in Hpages. fold st' in Hpages.
  assert (Hfound : find_full_report (fst (_get_current_session_metrics st')) = Some (u, r)).
  { rewrite Hpages. subst shown.
    destruct (find_full_report pages) as [earlier|] eqn:Hfind.
    - destruct (dict_has url pages) eqn:Hhas; [discriminate|].
      injection Hshown as ->. now apply find_full_report_new_page.
    - injection Hshown as <- <-. now apply find_full_report_after_store. }
  unfold Reports.get_latest_report, Reports.show_complete_performance_report.
  destruct (_get_current_session_metrics st') as [pages' st1]. cbn [fst] in Hfound.
  rewrite Hfound. split; reflexivity.
Qed.

End report_actions.

(** ** Releasing a session *)

Lemma starts_with_spec (needle hay : string) :
  starts_with needle hay = true <-> exists rest, hay = needle +:+ rest.
Proof.
  split.
  - revert hay. induction needle as [|c needle IH]; intros hay H.
    + now exists hay.
    + destruct hay as [|c' hay]; [discriminate|]. cbn [starts_with] in H.
      apply andb_true_iff in H as [Hc Hrest]. apply Ascii.eqb_eq in Hc. subst c'.
      destruct (IH hay Hrest) as [rest ->]. now exists rest.
  - intros [rest ->]. apply starts_with_app.
Qed.

Lemma str_in_spec (needle hay : string) :
  str_in needle hay = true <-> exists before after, hay = before +:+ needle +:+ after.
Proof.
  split.
  - induction hay as [|c hay IH]; cbn [str_in]; rewrite orb_true_iff; intros [Hs|Hin].
    + apply starts_with_spec in Hs as [rest Hrest]. now exists EmptyString, rest.
    + discriminate.
    + apply starts_with_spec in Hs as [rest Hrest]. now exists EmptyString, rest.
    + destruct (IH Hin) as (before & after & ->). now exists (String c before), after.
  - intros (before & after & ->). apply str_in_app_r.
    pose proof (starts_with_app needle after) as Hs.
    destruct (needle +:+ after); cbn [str_in]; now rewrite Hs.
Qed.

(** X24: Releasing a session that the remote service reports as stopped is a
    success: an exception of the remote call is turned into the "Session
    released" answer exactly when its text contains "Session already
    stopped" somewhere; every other exception leaves the endpoint as it
    was raised, and an answer of the remote service is passed on. *)
Theorem release_session_tolerates_stopped_sessions (e : PyExc) :
  (Release.release_session (Raise e)
   = Ok (Release.AlreadyReleased "success" "Session released")
   <-> exists before after,
         exc_str e = before +:+ "Session already stopped" +:+ after)
  /\ (forall out, Release.release_session (Raise e) = out ->
        out = Ok (Release.AlreadyReleased "success" "Session released")
        \/ out = Raise e)
  /\ (forall answer, Release.release_session (Ok answer)
                     = Ok (Release.RemoteAnswer answer)).
Proof.
  unfold Release.release_session. rewrite <- str_in_spec.
  destruct (str_in "Session already stopped" (exc_str e)).
  - split; [split; reflexivity|]. split; [intros out <-; now left | reflexivity].
  - split; [split; discriminate|]. split; [intros out <-; now right | reflexivity].
Qed.

(** ** Pausing and resuming *)

Section control.
Variable pause : Control.AgentObject -> Control.AgentObject * option PyExc.
Variable resume : Control.AgentObject -> Control.AgentObject * option PyExc.

Lemma resume_hands_session_handles (sid : string) (st : Control.State)
    (a : Control.AgentObject) :
  match Control.active_browsers st !! sid, Control.active_browser_contexts st !! sid with
  | Some browser, Some browser_context =>
      let a1 :=
        if bool_decide (Control.browser a <> browser)
        then {| Control._paused := Control._paused a; Control.browser := browser;
                Control.browser_context := Control.browser_context a |}
        else a in
      if bool_decide (Control.browser_context a1 <> browser_context)
      then {| Control._paused := Control._paused a1; Control.browser := Control.browser a1;
              Control.browser_context := browser_context |}
      else a1
  | _, _ => a
  end = with_session_handles st sid a.
Proof.
  unfold with_session_handles.
  destruct (Control.active_browsers st !! sid) as [b|]; [|reflexivity].
  destruct (Control.active_browser_contexts st !! sid) as [c|]; [|reflexivity].
  destruct a as [p ab ac]. cbn.
  destruct (bool_decide (ab <> b)) eqn:Hb; cbn.
  - destruct (bool_decide (ac <> c)) eqn:Hc; cbn; [reflexivity|].
    apply bool_decide_eq_false_1 in Hc. apply dec_stable in Hc. now subst.
  - apply bool_decide_eq_false_1 in Hb. apply dec_stable in Hb. subst ab.
    destruct (bool_decide (ac <> c)) eqn:Hc; cbn; [reflexivity|].
    apply bool_decide_eq_false_1 in Hc. apply dec_stable in Hc. now subst.
Qed.

(** X25: Resuming.  Without a bound agent the call reports an error and changes
    nothing.  With one, the library's resume is called on the agent with
    the session's registered browser and context; the resumed flag is set
    whether or not that call succeeds, the session binding and the browser
    maps are not touched, the call reports success exactly when the
    library's resume returns, and after a success the agent is not paused,
    whatever the library left in its pause flag. *)
Theorem resume_execution_outcomes (sid : string) (st : Control.State) :
  let r := Control.resume_execution resume sid st in
  match Control.agent st with
  | None =>
      r = ({| Control.status := "error"; Control.message := "No agent found" |}, st)
  | Some a =>
      Control._agent_resumed (snd r) = true
      /\ Control.session_id (snd r) = Control.session_id st
      /\ Control.active_browsers (snd r) = Control.active_browsers st
      /\ Control.active_browser_contexts (snd r) = Control.active_browser_contexts st
      /\ fst r = match snd (resume (with_session_handles st sid a)) with
                 | None => {| Control.status := "success";
                              Control.message := "Agent resumed" |}
                 | Some e =>
                     {| Control.status := "error";
                        Control.message := "Failed to resume agent: " +:+ exc_str e |}
                 end
      /\ exists a', Control.agent (snd r) = Some a'
                    /\ (Control.status (fst r) = "success" -> Control._paused a' = false)
  end.
Proof.
  cbv zeta. unfold Control.resume_execution.
  destruct (Control.agent st) as [a|]; [|reflexivity].
  rewrite resume_hands_session_handles.
  destruct (resume (with_session_handles st sid a)) as [a' [e|]];
    cbn [fst snd Control.set_agent Control.set_agent_resumed Control._agent_resumed
         Control.session_id Control.active_browsers Control.active_browser_contexts
         Control.agent Control.status].
  - repeat split. eexists. split; [reflexivity | discriminate].
  - repeat split. eexists. split; [reflexivity|]. intros _.
    destruct (Control._paused a') eqn:Hp; [reflexivity | exact Hp].
Qed.

(** X26: Pausing by hand.  A request for a session the controller is not bound
    to, or arriving when no agent is bound, is answered with an error and
    changes nothing.  Otherwise the resumed flag is cleared and no other
    session's browser is touched; when the library's pause raises, the
    endpoint answers HTTP 500 with the exception's text and the browser
    maps stay as they were; when it returns, the answer is a success and
    the session is registered in both browser maps afterwards, with the
    handle it had, or with None when it had none. *)
Theorem pause_session_outcomes (sid : string) (st : Control.State) :
  let r := Control.pause_session pause sid st in
  match Control.agent st with
  | None =>
      r = (Respond {| Control.status := "error"; Control.message := "No agent found" |},
           st)
  | Some a =>
      (Control.session_id st <> Some sid ->
       r = (Respond {| Control.status := "error";
                       Control.message := "Session ID mismatch" |}, st))
      /\ (Control.session_id st = Some sid ->
          Control._agent_resumed (snd r) = false
          /\ Control.session_id (snd r) = Some sid
          /\ (forall sid', sid' <> sid ->
                Control.active_browsers (snd r) !! sid' = Control.active_browsers st !! sid'
                /\ Control.active_browser_contexts (snd r) !! sid'
                   = Control.active_browser_contexts st !! sid')
          /\ match snd (pause a) with
             | Some e =>
                 fst r = HTTPException 500 (DetailText (exc_str e))
                 /\ Control.active_browsers (snd r) = Control.active_browsers st
                 /\ Control.active_browser_contexts (snd r)
                    = Control.active_browser_contexts st
             | None =>
                 fst r = Respond paused_result
                 /\ (str_truthy sid = true ->
                     Control.active_browsers (snd r) !! sid
                     = Some (Control.handle_of (Control.active_browsers st) (Some sid))
                     /\ Control.active_browser_contexts (snd r) !! sid
                        = Some (Control.handle_of (Control.active_browser_contexts st)
                                  (Some sid)))
             end)
  end.
Proof.
  cbv zeta. unfold Control.pause_session, Control.pause_execution_manually.
  destruct (Control.agent st) as [a|]; [|reflexivity].
  split.
  - intros Hne. now rewrite bool_decide_eq_false_2.
  - intros Hsid. rewrite bool_decide_eq_true_2 by exact Hsid. cbn [negb].
    destruct (pause a) as [a' [e|]];
      cbn [fst snd Control.set_agent Control.set_agent_resumed Control._agent_resumed
           Control.session_id Control.active_browsers Control.active_browser_contexts
           Control.agent].
    + repeat split; auto.
    + rewrite Hsid. destruct (str_truthy sid);
        cbn [fst snd Control._agent_resumed Control.session_id Control.active_browsers
             Control.active_browser_contexts].
      * split; [reflexivity|]. split; [reflexivity|]. split.
        { intros sid' Hne. now rewrite !lookup_insert_ne by congruence. }
        split; [reflexivity|]. intros _. now rewrite !lookup_insert_eq.
      * repeat split; auto. all: discriminate.
Qed.

(** X27: Pause and resume compose: for a session with a registered browser and
    context, when the library's pause and resume return, pausing the
    session by hand and resuming it clears and then sets the resumed flag,
    leaves the agent not paused, and leaves the session binding and both
    browser maps exactly as they were. *)
Theorem pause_then_resume_restores (sid : string) (st : Control.State)
    (a : Control.AgentObject) (b c : option nat) :
  Control.agent st = Some a ->
  Control.session_id st = Some sid ->
  Control.active_browsers st !! sid = Some b ->
  Control.active_browser_contexts st !! sid = Some c ->
  snd (pause a) = None ->
  (forall x, snd (resume x) = None) ->
  let paused := Control.pause_session pause sid st in
  let resumed := Control.resume_execution resume sid (snd paused) in
  fst paused = Respond paused_result
  /\ Control._agent_resumed (snd paused) = false
  /\ Control.status (fst resumed) = "success"
  /\ Control._agent_resumed (snd resumed) = true
  /\ Control.session_id (snd resumed) = Control.session_id st
  /\ Control.active_browsers (snd resumed) = Control.active_browsers st
  /\ Control.active_browser_contexts (snd resumed) = Control.active_browser_contexts st
  /\ exists a', Control.agent (snd resumed) = Some a' /\ Control._paused a' = false.
Proof.
  intros Ha Hsid Hb Hc Hpause Hresume. cbv zeta.
  unfold Control.pause_session, Control.pause_execution_manually.
  rewrite Ha, bool_decide_eq_true_2 by exact Hsid. cbn [negb].
  destruct (pause a) as [a1 [e|]]; [discriminate|].
  cbn [Control.set_agent Control.set_agent_resumed Control.session_id
       Control.active_browsers Control.active_browser_contexts Control.agent
       Control._agent_resumed].
  rewrite Hsid. unfold Control.handle_of. rewrite Hb, Hc.
  rewrite (insert_id _ _ _ Hb), (insert_id _ _ _ Hc).
  set (st1 := if str_truthy sid then _ else _).
  assert (Hst1 : st1 = {| Control.session_id := Some sid; Control.agent := Some a1;
                          Control._agent_resumed := false;
                          Control.active_browsers := Control.active_browsers st;
                          Control.active_browser_contexts :=
                            Control.active_browser_contexts st |}).
  { subst st1. destruct (str_truthy sid); [reflexivity|].
    unfold Control.set_agent, Control.set_agent_resumed. cbn. now rewrite Hsid. }
  clearbody st1. subst st1. cbn [fst snd].
  split; [reflexivity|]. split; [reflexivity|].
  unfold Control.resume_execution.
  cbn [Control.agent Control.active_browsers Control.active_browser_contexts].
  match goal with
  | |- context [resume ?x] =>
      pose proof (Hresume x) as Hr; destruct (resume x) as [a2 [e|]]; [discriminate|]
  end.
  cbn. rewrite ?Hsid. repeat split.
  eexists. split; [reflexivity|]. destruct (Control._paused a2) eqn:Hp; [reflexivity | exact Hp].
Qed.

End control.

(** ** Batch jobs *)

Section jobs.
Variable isoformat_now : nat -> string.
Variable time_now : nat -> Z.
Variable convert_raises : option PyExc.
Variable import_raises : option PyExc.
Variable await_agent :
  Providers.ModelConfig -> Gateway.AgentSettings -> list PyVal -> string -> Z
  -> Jobs.Awaited.

(** X28: A batch request always leaves a record of its job, and a finished one
    unless the conversion of the messages fails.  The job is filed under
    the test identifier; no other job's record is touched.  When the
    conversion raises, the answer is a bare error and the record stays
    "running": nothing updates it afterwards.  Otherwise the record ends
    "completed" or "failed", stamped with the sixth clock reading of the
    request, and agrees with the answer: a success answer goes with
    "completed", an error answer carries the record's message and goes
    with "failed". *)
Theorem batch_job_record (request : Jobs.BatchAgentRequest) (user_id : string)
    (st : Jobs.State) :
  let r := Jobs.run_browser_agent_batch isoformat_now time_now convert_raises
             import_raises await_agent request user_id st in
  let test_id := test_id_at time_now (Jobs.clock st) user_id in
  let job := Jobs.check_batch_status test_id (snd r) in
  (forall id, id <> test_id ->
     Jobs.batch_job_status (snd r) !! id = Jobs.batch_job_status st !! id)
  /\ match convert_raises with
     | Some e =>
         fst r = Jobs.Error (exc_str e)
         /\ job = {| Jobs.status := "running";
                     Jobs.message := "Test initialized, running browser agent";
                     Jobs.started_at := Some (isoformat_now (2 + Jobs.clock st));
                     Jobs.completed_at := None |}
     | None =>
         Jobs.started_at job = None
         /\ Jobs.completed_at job = Some (isoformat_now (5 + Jobs.clock st))
         /\ match fst r with
            | Jobs.Success t _ _ =>
                t = test_id /\ Jobs.status job = "completed"
                /\ Jobs.message job = "Test completed successfully"
            | Jobs.Failure t _ msg =>
                t = test_id /\ Jobs.status job = "failed" /\ Jobs.message job = msg
            | Jobs.Error _ => False
            end
     end.
Proof.
  cbv zeta.
  unfold Jobs.run_browser_agent_batch, Jobs.check_batch_status, test_id_at,
    Jobs.fail_job, Jobs.create_report, Jobs.create_test, Jobs.set_job, Jobs.tick.
  cbn [Jobs.t_id Jobs.clock Jobs.batch_job_status Jobs.r_id].
  set (test_id := "test_" +:+ pretty (time_now (S (Jobs.clock st))) +:+ "_"
                  +:+ Jobs.take_chars 8 user_id).
  assert (Hframe : forall (id : string) (j1 j2 : Jobs.JobStatus),
            id <> test_id ->
            <[test_id := j2]> (<[test_id := j1]> (Jobs.batch_job_status st)) !! id
            = Jobs.batch_job_status st !! id).
  { intros id j1 j2 Hne. now rewrite !lookup_insert_ne by congruence. }
  destruct convert_raises as [e|].
  { cbn [fst snd Jobs.batch_job_status]. split.
    - intros id Hne. now rewrite lookup_insert_ne by congruence.
    - now rewrite lookup_insert_eq. }
  match goal with
  | |- context [match ?a with Jobs.Finished _ => _ | Jobs.TimedOut => _ end] =>
      destruct a as [[report|e]|]
  end.
  - cbn [fst snd Jobs.batch_job_status Jobs.clock].
    split; [intros id Hne; now apply Hframe|].
    rewrite lookup_insert_eq. repeat split.
  - destruct (Jobs.is_timeout e); cbn [fst snd Jobs.batch_job_status Jobs.clock];
      (split; [intros id Hne; now apply Hframe|]);
      rewrite lookup_insert_eq; repeat split.
  - cbn [fst snd Jobs.batch_job_status Jobs.clock].
    split; [intros id Hne; now apply Hframe|].
    rewrite lookup_insert_eq. repeat split.
Qed.

(** X29: A batch request without a description is never analysed, and still
    succeeds.  The agent is handed the description, not the address, as
    its task; when the description is missing the batch agent rejects the
    history, and the endpoint files that rejection as the report of a
    completed job and answers with a success. *)
Theorem batch_request_without_description (repr : PyVal -> string)
    (environ : gmap string string) (run : BatchRun) (agent_state : State)
    (request : Jobs.BatchAgentRequest) (user_id : string) (st : Jobs.State) :
  convert_raises = None ->
  import_raises = None ->
  (forall model_config agent_settings history sid timeout,
     await_agent model_config agent_settings history sid timeout
     = Jobs.Finished
         (fst (browser_use_agent_batch repr environ model_config agent_settings history
                 sid run agent_state))) ->
  Jobs.description request = None ->
  let r := Jobs.run_browser_agent_batch isoformat_now time_now convert_raises
             import_raises await_agent request user_id st in
  let test_id := test_id_at time_now (Jobs.clock st) user_id in
  (exists report_id,
     fst r = Jobs.Success test_id report_id
               "Error: Invalid history format (content type: <class 'NoneType'>).")
  /\ Jobs.status (Jobs.check_batch_status test_id (snd r)) = "completed".
Proof.
  intros Hconvert Himport Hagent Hdescription. cbv zeta.
  unfold Jobs.run_browser_agent_batch, Jobs.check_batch_status, test_id_at,
    Jobs.create_report, Jobs.create_test, Jobs.set_job, Jobs.tick.
  rewrite Hconvert, Himport, Hagent, Hdescription.
  cbn [Providers.ostr browser_use_agent_batch last dict_get String.eqb Ascii.eqb
       Bool.eqb fst snd Jobs.batch_job_status Jobs.t_id Jobs.clock Jobs.r_id].
  split; [eexists; reflexivity|]. now rewrite lookup_insert_eq.
Qed.

End jobs.

(** ** The chat endpoint and the provider factory *)


(** ** The properties above at concrete inputs *)

Lemma loop_forwards_ordinary_items_in_order_witness :
  let result := consume repr0 basic_report0 uuid0 (map Iterate [quiet; quiet]) loop0
                  (set_queue tool_messages state0) in
  fst (fst result) = Continue
  /\ yielded (snd (fst result)) = tool_messages
  /\ queue (snd result) = [].
Proof.
  apply (loop_forwards_ordinary_items_in_order repr0 basic_report0 uuid0
           [quiet; quiet] tool_messages (set_queue tool_messages state0)).
  - reflexivity.
  - repeat constructor.
  - repeat constructor.
  - reflexivity.
  - reflexivity.
Defined.


Lemma store_metric_then_read_witness :
  metric_of
    (fst (_get_current_session_metrics
            (_store_metric "https://example.com" "web_vitals" (PInt 3) bound_state)))
    "https://example.com" "web_vitals"
  = Some (PInt 3).
Proof.
  exact (proj1 (store_metric_then_read "s1" "https://example.com" "web_vitals" (PInt 3)
                  bound_state eq_refl eq_refl)).
Defined.

Lemma resume_session_answer_witness :
  fst (Gateway.resume_session fails_once "s1" 0 false Gateway.resume_state0)
  = Respond {| Gateway.status := "success"; Gateway.message := "Agent resumed";
               Gateway.is_resumed := Some true; Gateway.timestamp := Some 0%Q |}.
Proof.
  apply (resume_session_answer fails_once "s1" 0 false Gateway.resume_state0).
  - reflexivity.
  - intros H. vm_compute in H. discriminate H.
Defined.

Lemma resume_again_after_cooldown_witness :
  let st1 := snd (Gateway.resume_session always_success "s1" 10 false
                    Gateway.resume_state0) in
  let st2 := snd (Gateway.resume_session always_success "s1" 11 false st1) in
  Gateway.in_cooldown 11 st1 "s1" = false
  /\ Gateway.session_locks st1 !! "s1" = Some false
  /\ (Gateway.resume_calls st1 < Gateway.resume_calls st2)%nat
  /\ Gateway.session_last_resume st2 !! "s1" = Some 11%Q.
Proof.
  apply (resume_again_after_cooldown always_success "s1" 10 11 false false
           Gateway.resume_state0).
  - reflexivity.
  - intros H. vm_compute in H. discriminate H.
  - vm_compute. discriminate.
Defined.

Lemma handle_chat_dispatch_witness :
  Gateway.controller (snd (Gateway.handle_chat first_chat_request chat_state0))
  = {| session_id := Some "s1"; agent := None; finished := false |}.
Proof.
  exact (proj1 (handle_chat_dispatch first_chat_request chat_state0
                  eq_refl eq_refl eq_refl)).
Defined.

Lemma handle_chat_finished_session_witness :
  Gateway.handle_chat first_chat_request finished_chat_state
  = (HTTPException 500
       (DetailError "name 'empty_stream' is not defined" "NameError" 500),
     finished_chat_state).
Proof.
  apply handle_chat_finished_session; reflexivity.
Defined.




Lemma yield_data_pairs_tool_calls_witness :
  queue (yield_data repr0 basic_report0 uuid0 browsing_step 3 state0)
  = [ AIMessage (previous_goal_message "Success - the page loaded") []; StopDict;
      AIMessage (memory_message "Visited the home page") []; StopDict;
      AIMessage (next_goal_message "Open the pricing page") []; StopDict;
      AIMessage EmptyString
        [ {| tc_name := "go_to_url"; tc_args := [("url", PStr "https://example.com")];
             tc_id := "tool_call_0" |};
          {| tc_name := "click_element"; tc_args := [("index", PInt 3)];
             tc_id := "tool_call_1" |} ];
      ToolMessage EmptyString "tool_call_0"; ToolMessage EmptyString "tool_call_1" ].
Proof.
  exact (proj1 (yield_data_pairs_tool_calls repr0 basic_report0 uuid0 browsing_step 3
                  state0 eq_refl)).
Defined.

Lemma done_step_marks_the_session_done_witness :
  marked_done (yield_data repr0 basic_report0 uuid0 (done_step "All done") 4 bound_state)
  = true.
Proof.
  exact (proj1 (done_step_marks_the_session_done repr0 basic_report0 uuid0
                  (done_step "All done") 4 bound_state eq_refl eq_refl)).
Defined.

Lemma batch_rejects_bad_history_witness :
  browser_use_agent_batch repr0 ∅ azure_config default_settings null_history "batch_1"
    silent_run state0
  = (Ok "Error: Invalid history format (content type: <class 'NoneType'>).", state0).
Proof.
  exact (batch_rejects_bad_history repr0 ∅ azure_config default_settings null_history
           "batch_1" silent_run state0 eq_refl).
Defined.


Lemma report_actions_show_the_first_report_witness :
  fst (Reports.get_latest_report
         (_store_metric "https://example.com" "full_report" (PStr "📊 First report")
            bound_state))
  = PStr "📊 First report".
Proof.
  exact (proj1 (report_actions_show_the_first_report repr0 "s1" "https://example.com"
                  (PStr "📊 First report") bound_state eq_refl eq_refl
                  "https://example.com" (PStr "📊 First report") eq_refl)).
Defined.

Lemma pause_then_resume_restores_witness :
  let paused := Control.pause_session library_pause "s1" running_control in
  let resumed := Control.resume_execution library_resume "s1" (snd paused) in
  fst paused = Respond paused_result
  /\ Control._agent_resumed (snd paused) = false
  /\ Control.status (fst resumed) = "success"
  /\ Control._agent_resumed (snd resumed) = true.
Proof.
  destruct (pause_then_resume_restores library_pause library_resume "s1" running_control
              _ (Some 0%nat) (Some 0%nat) eq_refl eq_refl eq_refl eq_refl eq_refl
              (fun x => eq_refl))
    as (H1 & H2 & H3 & H4 & _).
  exact (conj H1 (conj H2 (conj H3 H4))).
Defined.

Lemma batch_request_without_description_witness :
  let r := Jobs.run_browser_agent_batch clock_text clock_seconds None None
             batch_agent_awaited bare_batch_request "demo_user" jobs0 in
  Jobs.status (Jobs.check_batch_status "test_1735689600_demo_use" (snd r)) = "completed".
Proof.
  exact (proj2 (batch_request_without_description clock_text clock_seconds None None
                  batch_agent_awaited repr0 ∅ silent_run state0 bare_batch_request
                  "demo_user" jobs0 eq_refl eq_refl (fun _ _ _ _ _ => eq_refl) eq_refl)).
Defined.
